(** * ts-migrate plugins: shape extraction ([react-shape]) and signature
      annotation ([jsdoc])

    A shallow embedding of
    [packages/ts-migrate-plugins/src/plugins/react-shape.ts] (which holds the
    [reactShapePlugin] and the [jsDocPlugin]) and the properties the
    specification states about them.

    Conventions of the embedding.
    - A JavaScript string is a [string]: a sequence of code units below 256.
      The line terminators of the model are LF and CR (U+2028 and U+2029 are
      outside that alphabet).
    - Offsets ([pos], [end], [index], [length]) are JavaScript numbers that
      hold integers: [Z].
    - The syntax tree is an input of both plugins (the host parses the file).
      The parts of it the plugins read are records and inductive types below;
      [getText] of a node is the text the tree carries for it.
    - A JavaScript exception is the [Thrown] outcome. *)

From Stdlib Require Import ZArith Lia Bool List Ascii String DecimalString.
From stdpp Require Import base option list strings gmap.
Import ListNotations.

Set Warnings "-register-all".

Local Open Scope string_scope.
Local Open Scope Z_scope.

(** ** JavaScript strings *)

Module JsString.

Definition LF : ascii := "010"%char.
Definition CR : ascii := "013"%char.
Definition SPACE : ascii := " "%char.

(** LineTerminator of the regular-expression grammar. *)
Definition isLineTerminator (c : ascii) : bool :=
  Ascii.eqb c LF || Ascii.eqb c CR.

(** [s.startsWith(p)]. *)
Definition startsWith (s p : string) : bool := String.prefix p s.

(** [s.includes(p)]. *)
Definition includes (s p : string) : bool :=
  match String.index 0 p s with Some _ => true | None => false end.

(** [s.indexOf(p)]: the first offset of [p] in [s], or -1. *)
Definition indexOf (s p : string) : Z :=
  match String.index 0 p s with Some n => Z.of_nat n | None => -1 end.

(** [s.substring(n)] for [0 <= n]. *)
Fixpoint substringFrom (n : nat) (s : string) : string :=
  match n, s with
  | O, _ => s
  | S _, EmptyString => EmptyString
  | S n', String _ r => substringFrom n' r
  end.

(** [s.slice(a, b)] for [0 <= a]; offsets past the end are clamped. *)
Definition slice (a b : Z) (s : string) : string :=
  String.substring (Z.to_nat a) (Z.to_nat (b - a)) s.

(** [s.split(sep)[0]]: the text before the first [sep]. *)
Fixpoint splitHead (sep : ascii) (s : string) : string :=
  match s with
  | EmptyString => EmptyString
  | String c r => if Ascii.eqb c sep then EmptyString else String c (splitHead sep r)
  end.

(** [s.endsWith(p)]: some suffix of [s] is [p]. *)
Fixpoint endsWith (s p : string) : bool :=
  String.eqb s p ||
  match s with
  | EmptyString => false
  | String _ r => endsWith r p
  end.

(** [s.toLowerCase()] on the code units of the model: A-Z and the Latin-1
    capitals move by 32. *)
Definition lowerChar (c : ascii) : ascii :=
  let n := nat_of_ascii c in
  if ((65 <=? n) && (n <=? 90))%nat then ascii_of_nat (n + 32)
  else if ((192 <=? n) && (n <=? 222) && negb (n =? 215))%nat then ascii_of_nat (n + 32)
  else c.

Fixpoint toLowerCase (s : string) : string :=
  match s with
  | EmptyString => EmptyString
  | String c r => String (lowerChar c) (toLowerCase r)
  end.

(** The text after the last [/], trailing slashes dropped:
    [path.basename] on a POSIX host. *)
Fixpoint basenameAcc (cur : string) (pending : bool) (s : string) : string :=
  match s with
  | EmptyString => cur
  | String c r =>
      if Ascii.eqb c "/"%char then basenameAcc cur true r
      else if pending then basenameAcc (String c EmptyString) false r
      else basenameAcc (cur +:+ String c EmptyString) false r
  end.

Definition basename (p : string) : string := basenameAcc EmptyString true p.

(** *** The regular expressions of the plugins

    A pattern without repetition is a list of atoms; [/a|b/.test(s)] tries
    every alternative at every offset. *)
Inductive atom := Lit (c : ascii) | Dot.

Fixpoint lits (s : string) : list atom :=
  match s with
  | EmptyString => []
  | String c r => Lit c :: lits r
  end.

Fixpoint matchHere (p : list atom) (s : string) : bool :=
  match p, s with
  | [], _ => true
  | _ :: _, EmptyString => false
  | Lit c :: p', String d r => Ascii.eqb c d && matchHere p' r
  | Dot :: p', String d r => negb (isLineTerminator d) && matchHere p' r
  end.

Fixpoint search (p : list atom) (s : string) : bool :=
  matchHere p s ||
  match s with
  | EmptyString => false
  | String _ r => search p r
  end.

Definition test (alternatives : list (list atom)) (s : string) : bool :=
  existsb (fun p => search p s) alternatives.

(** [s.replace(/ +$/gm, '')]: every maximal run of spaces that stands
    right before a line terminator or the end of the text is removed.
    Written from the right: a space is dropped when what follows it, after
    the same cleaning, is the end of a line. *)
Definition atLineEnd (s : string) : bool :=
  match s with
  | EmptyString => true
  | String c _ => isLineTerminator c
  end.

Fixpoint stripTrailingSpaces (s : string) : string :=
  match s with
  | EmptyString => EmptyString
  | String c r =>
      let r' := stripTrailingSpaces r in
      if Ascii.eqb c SPACE && atLineEnd r' then r' else String c r'
  end.

End JsString.

Import JsString.

(** ** Exceptions *)

Inductive outcome (A : Type) : Type :=
| Returned (a : A)
| Thrown (e : string).
Arguments Returned {A} a.
Arguments Thrown {A} e.

Definition obind {A B} (m : outcome A) (k : A -> outcome B) : outcome B :=
  match m with
  | Returned a => k a
  | Thrown e => Thrown e
  end.

(** ** The patch engine ([utils/updateSourceText]) *)

(** [SourceTextUpdate]: offsets are those of the original text. *)
Inductive SourceTextUpdate :=
| InsertUpdate (index : Z) (text : string)
| ReplaceUpdate (index : Z) (length : Z) (text : string)
| DeleteUpdate (index : Z) (length : Z).

Definition updateIndex (u : SourceTextUpdate) : Z :=
  match u with
  | InsertUpdate i _ | ReplaceUpdate i _ _ | DeleteUpdate i _ => i
  end.

Module PatchEngine.

(** Stable insertion: [u] goes after every update whose index is not
    larger, so updates at one offset keep the order of submission. *)
Fixpoint insertSorted (u : SourceTextUpdate) (l : list SourceTextUpdate) :=
  match l with
  | [] => [u]
  | v :: r =>
      if updateIndex u <? updateIndex v then u :: v :: r
      else v :: insertSorted u r
  end.

Definition sortUpdates (l : list SourceTextUpdate) : list SourceTextUpdate :=
  fold_left (fun acc u => insertSorted u acc) l [].

(** One walk over the original text: the span from [cursor] to the next
    update is copied, then the update is spliced in. A delete or replace
    that starts before [cursor] overlaps the one before it. *)
Fixpoint walk (text : string) (cursor : Z) (us : list SourceTextUpdate)
  : outcome string :=
  match us with
  | [] => Returned (substringFrom (Z.to_nat cursor) text)
  | InsertUpdate i t :: r =>
      obind (walk text (Z.max cursor i) r) (fun rest =>
      Returned (slice cursor i text +:+ t +:+ rest))
  | ReplaceUpdate i n t :: r =>
      if i <? cursor then Thrown "overlapping updates"
      else obind (walk text (i + n) r) (fun rest =>
           Returned (slice cursor i text +:+ t +:+ rest))
  | DeleteUpdate i n :: r =>
      if i <? cursor then Thrown "overlapping updates"
      else obind (walk text (i + n) r) (fun rest =>
           Returned (slice cursor i text +:+ rest))
  end.

End PatchEngine.

(** Modelled from the spec: [updateSourceText] of [utils/updateSourceText],
    which is not among the sources. The specification (4.1) gives: updates
    sorted by index ascending, updates at one offset in the order submitted;
    one walk over the original text that copies the spans no update covers;
    overlapping delete/replace ranges are fatal. *)
Definition updateSourceText (text : string) (updates : list SourceTextUpdate)
  : outcome string :=
  PatchEngine.walk text 0 (PatchEngine.sortUpdates updates).

(** ** Syntax trees *)

(** The [ts.SyntaxKind] members of keyword type nodes. *)
Inductive KeywordTypeSyntaxKind :=
| StringKeyword | NumberKeyword | BooleanKeyword | SymbolKeyword | ObjectKeyword
| AnyKeyword | UnknownKeyword | UndefinedKeyword | NullKeyword | VoidKeyword
| NeverKeyword | BigIntKeyword.

(** Modifier kinds. *)
Inductive ModifierKind :=
| ExportKeyword | DefaultKeyword | DeclareKeyword | AsyncKeyword | ReadonlyKeyword
| PublicKeyword | PrivateKeyword | ProtectedKeyword.

Inductive PunctuationToken := QuestionToken | DotDotDotToken.

(** [ts.EntityName]. *)
Inductive EntityName :=
| Identifier (text : string)
| QualifiedName (left : EntityName) (right : string).

(** [ts.BindingName]; a pattern carries its source text. *)
Inductive BindingName :=
| BindingIdentifier (text : string)
| ObjectBindingPattern (src : string)
| ArrayBindingPattern (src : string).

(** Expressions, with the text [getText()] gives for them. *)
Inductive Expression :=
| CallExpression (text : string) (expression : Expression) (arguments : list Expression)
| ObjectLiteralExpression (text : string)
| OtherExpression (text : string).

Definition getText (e : Expression) : string :=
  match e with
  | CallExpression t _ _ | ObjectLiteralExpression t | OtherExpression t => t
  end.

(** [ts.ParameterDeclaration], over the type of type nodes. A parameter of a
    documentary function type has no name. *)
Record ParameterDeclarationOf (T : Type) := mkParameter {
  param_modifiers : list ModifierKind;
  param_dotDotDotToken : option PunctuationToken;
  param_name : option BindingName;
  param_questionToken : option PunctuationToken;
  param_type : option T;
  param_initializer : option Expression
}.
Arguments mkParameter {T}.
Arguments param_modifiers {T}.
Arguments param_dotDotDotToken {T}.
Arguments param_name {T}.
Arguments param_questionToken {T}.
Arguments param_type {T}.
Arguments param_initializer {T}.

(** [ts.JSDocTypeExpression]: the braces of a tag around a type. *)
Record JSDocTypeExpressionOf (T : Type) := mkTypeExpression { te_type : T }.
Arguments mkTypeExpression {T}.
Arguments te_type {T}.

(** [ts.JSDocPropertyLikeTag]: a [@param] or [@property] tag. *)
Record JSDocPropertyLikeTagOf (T : Type) := mkTag {
  tag_name : EntityName;
  tag_typeExpression : option (JSDocTypeExpressionOf T);
  tag_isBracketed : bool
}.
Arguments mkTag {T}.
Arguments tag_name {T}.
Arguments tag_typeExpression {T}.
Arguments tag_isBracketed {T}.

(** Members of a type literal. *)
Inductive TypeElementOf (T : Type) :=
| PropertySignature (name : string) (questionToken : option PunctuationToken) (type : T)
| IndexSignature (parameters : list (ParameterDeclarationOf T)) (type : T).
Arguments PropertySignature {T}.
Arguments IndexSignature {T}.

(** Type nodes: the documentary forms the parser of the host produces and
    the forms the factory builds. The parentheses the factory puts around an
    operand for the printer (a [ParenthesizedType] around a union that is the
    element of an array type, say) are not part of the nodes here. *)
Inductive TypeNode :=
| KeywordTypeNode (kind : KeywordTypeSyntaxKind)
| JSDocAllType
| JSDocUnknownType
| JSDocOptionalType (type : TypeNode)
| JSDocNonNullableType (type : TypeNode)
| JSDocNullableType (type : TypeNode)
| JSDocVariadicType (type : TypeNode)
| JSDocFunctionType (parameters : list (ParameterDeclarationOf TypeNode))
                    (type : option TypeNode)
| ArrayTypeNode (elementType : TypeNode)
| TypeReferenceNode (typeName : EntityName) (typeArguments : option (list TypeNode))
| JSDocTypeLiteral (jsDocPropertyTags : option (list (JSDocPropertyLikeTagOf TypeNode)))
| UnionTypeNode (types : list TypeNode)
| LiteralTypeNodeNull
| FunctionTypeNode (parameters : list (ParameterDeclarationOf TypeNode)) (type : TypeNode)
| TypeLiteralNode (members : list (TypeElementOf TypeNode))
| OtherTypeNode (text : string).

Abbreviation ParameterDeclaration := (ParameterDeclarationOf TypeNode).
Abbreviation JSDocTypeExpression := (JSDocTypeExpressionOf TypeNode).
Abbreviation JSDocParameterTag := (JSDocPropertyLikeTagOf TypeNode).
Abbreviation TypeElement := (TypeElementOf TypeNode).

Definition isJSDocOptionalType (t : TypeNode) : bool :=
  match t with JSDocOptionalType _ => true | _ => false end.

Definition isJSDocVariadicType (t : TypeNode) : bool :=
  match t with JSDocVariadicType _ => true | _ => false end.

(** ** The signature-annotation transform ([jsDocPlugin]) *)

(** [TypeOptions]: a rename, or a record with two optional fields. *)
Inductive TypeOptions :=
| RenameTo (tsName : string)
| TypeRecord (tsName : option string) (acceptsTypeParameters : option bool).

Definition defaultTypeMap : gmap string TypeOptions :=
  list_to_map [
    ("String", TypeRecord (Some "string") (Some false));
    ("Boolean", TypeRecord (Some "boolean") (Some false));
    ("Number", TypeRecord (Some "number") (Some false));
    ("Object", TypeRecord (Some "object") (Some false));
    ("date", TypeRecord (Some "Date") (Some false));
    ("Date", TypeRecord (Some "Date") (Some false));
    ("Symbol", TypeRecord (Some "symbol") (Some false));
    ("Function", TypeRecord (Some "Function") (Some false));
    ("array", RenameTo "Array");
    ("Array", RenameTo "Array");
    ("promise", RenameTo "Promise")
  ].

(** The options of the plugin; an absent option is [None]. *)
Record JsDocOptions := mkJsDocOptions {
  annotateReturns : option bool;
  anyAlias : option string;
  optionsTypeMap : option (gmap string TypeOptions)
}.

Definition PRIMITIVE_KEYWORDS : gmap string KeywordTypeSyntaxKind :=
  list_to_map [
    ("string", StringKeyword);
    ("number", NumberKeyword);
    ("boolean", BooleanKeyword);
    ("symbol", SymbolKeyword);
    ("object", ObjectKeyword)
  ].

Definition primitiveKeywordNode (name : string) : option TypeNode :=
  match PRIMITIVE_KEYWORDS !! name with
  | Some kind => Some (KeywordTypeNode kind)
  | None => None
  end.

Fixpoint getEntityNameText (name : EntityName) : string :=
  match name with
  | Identifier text => text
  | QualifiedName l r => getEntityNameText l +:+ "." +:+ r
  end.

(** A JavaScript string is truthy when it is not empty. *)
Definition truthy (s : string) : bool := negb (String.eqb s "").

Definition isJSDocIndexSignature
    (typeName : EntityName) (typeArguments : option (list TypeNode)) : bool :=
  match typeName, typeArguments with
  | Identifier escapedText, Some args =>
      String.eqb escapedText "Object" &&
      (List.length args =? 2)%nat &&
      match args !! 0%nat with
      | Some (KeywordTypeNode StringKeyword) | Some (KeywordTypeNode NumberKeyword) => true
      | _ => false
      end
  | _, _ => false
  end.

Definition isNumberKeyword (t : option TypeNode) : bool :=
  match t with Some (KeywordTypeNode NumberKeyword) => true | _ => false end.

(** [factory.createTypeReferenceNode(typeName, typeArguments)] of the
    TypeScript library: the type arguments go through the parenthesizer
    rules, which give [undefined] for a list without elements, so a node
    built with [[]] has no type arguments. *)
Definition createTypeReferenceNode
    (typeName : EntityName) (typeArguments : option (list TypeNode)) : TypeNode :=
  TypeReferenceNode typeName
    (match typeArguments with
     | Some (_ :: _) => typeArguments
     | _ => None
     end).

(** [typeArguments!] and its offsets 0 and 1 are in range where
    [isJSDocIndexSignature] holds, the only place of call. The emit flag
    [SingleLine] set on the literal concerns the printer only. *)
Definition visitJSDocIndexSignature (typeArguments : list TypeNode) : TypeNode :=
  let index :=
    mkParameter [] None
      (Some (BindingIdentifier
               (if isNumberKeyword (typeArguments !! 0%nat) then "n" else "s")))
      None
      (Some (createTypeReferenceNode
               (Identifier
                  (if isNumberKeyword (typeArguments !! 0%nat) then "number" else "string"))
               (Some [])))
      None in
  TypeLiteralNode
    [IndexSignature [index] (default (OtherTypeNode "undefined") (typeArguments !! 1%nat))].

(** [ts.isJSDocOptionalType] asked of the braces of a tag: the kind of that
    node is [JSDocTypeExpression]. *)
Definition isJSDocOptionalTypeExpression (e : JSDocTypeExpression) : bool := false.

(** [l.map((x, i) => f i x)], the index counted from [i]. *)
Definition mapWithIndex {A B} (f : nat -> A -> B) : nat -> list A -> list B :=
  fix go (i : nat) (l : list A) : list B :=
    match l with
    | [] => []
    | x :: r => f i x :: go (S i) r
    end.

Definition decimal (n : nat) : string := NilEmpty.string_of_uint (Nat.to_uint n).

Section Transformer.

(** The closure of [jsDocTransformerFactory]. *)
Variable anyType : TypeNode.
Variable typeMap : gmap string TypeOptions.

(** The name after the alias table, and whether type arguments are kept:
    the block under [if (text in typeMap)]. A name that [in] finds on the
    prototype of the table only (such as [constructor]) has neither [tsName]
    nor [acceptsTypeParameters] and is treated as a name without entry. *)
Definition resolveTypeName (text : string) : string * bool :=
  match typeMap !! text with
  | Some (RenameTo typeOptions) => (typeOptions, true)
  | Some (TypeRecord tsName acceptsTypeParameters) =>
      (match tsName with
       | Some n => if truthy n then n else text
       | None => text
       end,
       match acceptsTypeParameters with
       | Some false => false
       | _ => true
       end)
  | None => (text, true)
  end.

(** The visitors are mutually recursive in the source; each takes the
    visitor of types as [visit] here and the knot is tied in
    [visitJSDocType]. *)
Section Visitors.
Variable visit : TypeNode -> TypeNode.

Definition visitJSDocParameterWith
    (length : nat) (index : nat) (node : ParameterDeclaration)
  : ParameterDeclaration :=
  match param_type node with
  | None => node
  | Some type =>
      let isRest := isJSDocVariadicType type && (index =? length - 1)%nat in
      let name :=
        match param_name node with
        | Some n => n
        | None => BindingIdentifier (if isRest then "rest" else "arg" +:+ decimal index)
        end in
      let dotdotdot :=
        if isRest then Some DotDotDotToken else param_dotDotDotToken node in
      mkParameter (param_modifiers node) dotdotdot (Some name)
        (param_questionToken node) (Some (visit type)) (param_initializer node)
  end.

Definition visitJSDocPropertyLikeTagWith (node : JSDocParameterTag) : TypeElement :=
  let type :=
    match tag_typeExpression node with
    | Some e => visit (te_type e)
    | None => anyType
    end in
  let optionalType :=
    match tag_typeExpression node with
    | Some e => isJSDocOptionalTypeExpression e
    | None => false
    end in
  let questionToken :=
    if tag_isBracketed node || optionalType then Some QuestionToken else None in
  match tag_name node with
  | Identifier text => PropertySignature text questionToken type
  | QualifiedName _ r => PropertySignature r questionToken type
  end.

Definition normalizeArg (arg : TypeNode) : TypeNode :=
  let visited := visit arg in
  match visited with
  | TypeReferenceNode (Identifier text) _ =>
      match primitiveKeywordNode text with
      | Some innerPrim => innerPrim
      | None => visited
      end
  | _ => visited
  end.

Definition visitJSDocTypeReferenceWith
    (typeName : EntityName) (typeArguments : option (list TypeNode)) : TypeNode :=
  if isJSDocIndexSignature typeName typeArguments
  then visitJSDocIndexSignature (default [] typeArguments)
  else
    match typeName with
    | Identifier text0 =>
        let '(text, acceptsTypeParameters) := resolveTypeName text0 in
        match primitiveKeywordNode text with
        | Some primitive => primitive
        | None =>
            if (String.eqb text "Array" || String.eqb text "Promise")
               && negb (bool_decide (is_Some typeArguments))
            then createTypeReferenceNode (Identifier text) (Some [anyType])
            else
              createTypeReferenceNode (Identifier text)
                (match typeArguments with
                 | Some args =>
                     if acceptsTypeParameters then Some (map normalizeArg args)
                     else None
                 | None => None
                 end)
        end
    | QualifiedName _ _ => createTypeReferenceNode typeName typeArguments
    end.

End Visitors.

Fixpoint visitJSDocType (node : TypeNode) : TypeNode :=
  match node with
  | JSDocAllType | JSDocUnknownType => anyType
  | JSDocOptionalType type => visitJSDocType type
  | JSDocNonNullableType type => visitJSDocType type
  | JSDocNullableType type =>
      UnionTypeNode [visitJSDocType type; LiteralTypeNodeNull]
  | JSDocVariadicType type => ArrayTypeNode (visitJSDocType type)
  | JSDocFunctionType parameters type =>
      FunctionTypeNode
        (mapWithIndex
           (visitJSDocParameterWith visitJSDocType (List.length parameters))
           0%nat parameters)
        (default anyType type)
  | ArrayTypeNode elementType => ArrayTypeNode (visitJSDocType elementType)
  | TypeReferenceNode typeName typeArguments =>
      visitJSDocTypeReferenceWith visitJSDocType typeName typeArguments
  | JSDocTypeLiteral jsDocPropertyTags =>
      TypeLiteralNode
        (match jsDocPropertyTags with
         | Some tags => map (visitJSDocPropertyLikeTagWith visitJSDocType) tags
         | None => []
         end)
  | _ => node
  end.

Definition visitJSDocTypeReference := visitJSDocTypeReferenceWith visitJSDocType.
Definition visitJSDocParameter := visitJSDocParameterWith visitJSDocType.
Definition visitJSDocPropertyLikeTag := visitJSDocPropertyLikeTagWith visitJSDocType.

End Transformer.

(** A function-like declaration, as the plugin reads it:
    [fn_jsDocParameterTags] is [ts.getJSDocTags(fn)] restricted to the kind
    [JSDocParameterTag], [fn_jsDocReturnType] is [ts.getJSDocReturnType(fn)]. *)
Record SignatureDeclaration := mkSignature {
  fn_parameters : list ParameterDeclaration;
  fn_type : option TypeNode;
  fn_jsDocParameterTags : list JSDocParameterTag;
  fn_jsDocReturnType : option TypeNode
}.

(** [ts.hasJSDocParameterTags]: some tag of the declaration is a parameter
    tag. *)
Definition hasJSDocParameterTags (fn : SignatureDeclaration) : bool :=
  match fn_jsDocParameterTags fn with [] => false | _ :: _ => true end.

Definition tagNameText (t : JSDocParameterTag) : string :=
  getEntityNameText (tag_name t).

(** [factory.updateParameterDeclaration]: the node with the fields given. *)
Definition updateParameterDeclaration (node : ParameterDeclaration)
    (modifiers : list ModifierKind) (dotDotDotToken : option PunctuationToken)
    (name : option BindingName) (questionToken : option PunctuationToken)
    (type : option TypeNode) (initializer : option Expression)
  : ParameterDeclaration :=
  mkParameter modifiers dotDotDotToken name questionToken type initializer.

Section Signatures.

Variable anyType : TypeNode.
Variable typeMap : gmap string TypeOptions.

(** The filter of [buildNestedType]: the direct children of [prefix]. *)
Definition isChildTag (prefix : string) (tag : JSDocParameterTag) : bool :=
  let tagName := tagNameText tag in
  if negb (startsWith tagName (prefix +:+ ".")) then false
  else
    let remainder := substringFrom (String.length prefix + 1) tagName in
    negb (includes remainder ".").

Definition hasNestedChildren
    (fullPropertyPath : string) (allTags : list JSDocParameterTag) : bool :=
  existsb (fun t => startsWith (tagNameText t) (fullPropertyPath +:+ ".")) allTags.

(** The type of a member without nested children. *)
Definition leafPropertyType (tag : JSDocParameterTag) : TypeNode :=
  match tag_typeExpression tag with
  | Some e =>
      let te := te_type e in
      let inner := match te with JSDocOptionalType t => t | _ => te end in
      let visited := visitJSDocType anyType typeMap inner in
      match visited with
      | TypeReferenceNode (Identifier text) _ =>
          match primitiveKeywordNode text with
          | Some normalized => normalized
          | None =>
              match primitiveKeywordNode (toLowerCase text) with
              | Some normalized => normalized
              | None => visited
              end
          end
      | _ => visited
      end
  | None => anyType
  end.

Definition isOptionalTag (tag : JSDocParameterTag) : bool :=
  tag_isBracketed tag ||
  match tag_typeExpression tag with
  | Some e => isJSDocOptionalType (te_type e)
  | None => false
  end.

(** [buildNestedType] calls itself on a longer prefix; the recursion is on
    [fuel], and [buildNestedType_fuel_enough] shows the fuel of
    [buildNestedType] never runs out. *)
Fixpoint buildNestedTypeFuel (fuel : nat) (prefix : string)
    (allTags : list JSDocParameterTag) : option TypeNode :=
  match fuel with
  | O => None
  | S fuel' =>
      let childTags := List.filter (isChildTag prefix) allTags in
      members ← mapM (fun tag =>
          let tagName := tagNameText tag in
          let propertyName := substringFrom (String.length prefix + 1) tagName in
          let fullPropertyPath := prefix +:+ "." +:+ propertyName in
          propertyType ←
            (if hasNestedChildren fullPropertyPath allTags
             then buildNestedTypeFuel fuel' fullPropertyPath allTags
             else Some (leafPropertyType tag));
          Some (PropertySignature propertyName
                  (if isOptionalTag tag then Some QuestionToken else None)
                  propertyType))
        childTags;
      Some (TypeLiteralNode members)
  end.

Definition maxTagNameLength (allTags : list JSDocParameterTag) : nat :=
  foldr (fun t m => Nat.max (String.length (tagNameText t)) m) 0%nat allTags.

Definition buildNestedType (prefix : string) (allTags : list JSDocParameterTag)
  : TypeNode :=
  default (TypeLiteralNode [])
    (buildNestedTypeFuel (S (maxTagNameLength allTags)) prefix allTags).

(** The predicate of [rootTag]: the name of the tag holds a dot. *)
Definition isDottedTag (t : JSDocParameterTag) : bool :=
  includes (tagNameText t) ".".

(** The predicate of [directTag]: an identifier equal to the name of the
    parameter, on a tag with a type. *)
Definition isDirectTag (name : string) (t : JSDocParameterTag) : bool :=
  match tag_name t with
  | Identifier text =>
      String.eqb text name && bool_decide (is_Some (tag_typeExpression t))
  | QualifiedName _ _ => false
  end.

(** The predicate of [nestedTags]. *)
Definition isNestedTag (name : string) (t : JSDocParameterTag) : bool :=
  match tag_name t with
  | Identifier text => startsWith text (name +:+ ".")
  | QualifiedName _ _ => false
  end.

(** The callback of [fn.parameters.map] in [visitParameters]. A parameter
    of a declaration has a name; [None] is read as a name that is neither
    an identifier nor an object pattern. *)
Definition visitParameter (allParamTags : list JSDocParameterTag)
    (param : ParameterDeclaration) : ParameterDeclaration :=
  if bool_decide (is_Some (param_type param)) then param
  else
    match param_name param with
    | Some (ObjectBindingPattern _) =>
        match List.find isDottedTag allParamTags with
        | Some rootTag =>
            let rootName := splitHead "."%char (tagNameText rootTag) in
            let type := buildNestedType rootName allParamTags in
            updateParameterDeclaration param
              (param_modifiers param) (param_dotDotDotToken param)
              (param_name param) (param_questionToken param)
              (Some type) (param_initializer param)
        | None =>
            updateParameterDeclaration param
              (param_modifiers param) (param_dotDotDotToken param)
              (param_name param) (param_questionToken param)
              (Some (KeywordTypeNode ObjectKeyword)) (param_initializer param)
        end
    | Some (BindingIdentifier name) =>
        if negb (truthy name) then param
        else
          let directTag := List.find (isDirectTag name) allParamTags in
          let nestedTags := List.filter (isNestedTag name) allParamTags in
          let '(type, questionToken) :=
            match nestedTags with
            | _ :: _ => (Some (buildNestedType name allParamTags), param_questionToken param)
            | [] =>
                match directTag ≫= tag_typeExpression with
                | Some e =>
                    let typeNode := te_type e in
                    (Some (visitJSDocType anyType typeMap typeNode),
                     if negb (bool_decide (is_Some (param_initializer param))) &&
                        (match directTag with
                         | Some t => tag_isBracketed t
                         | None => false
                         end || isJSDocOptionalType typeNode)
                     then Some QuestionToken
                     else param_questionToken param)
                | None => (None, param_questionToken param)
                end
            end in
          match type with
          | None => param
          | Some t =>
              updateParameterDeclaration param
                (param_modifiers param) (param_dotDotDotToken param)
                (param_name param) questionToken (Some t) (param_initializer param)
          end
    | _ => param
    end.

Definition visitParameters (fn : SignatureDeclaration) : list ParameterDeclaration :=
  if negb (hasJSDocParameterTags fn) then fn_parameters fn
  else map (visitParameter (fn_jsDocParameterTags fn)) (fn_parameters fn).

Definition visitReturnType (functionDeclaration : SignatureDeclaration)
  : option TypeNode :=
  match fn_type functionDeclaration with
  | Some type => Some type
  | None =>
      match fn_jsDocReturnType functionDeclaration with
      | None => fn_type functionDeclaration
      | Some returnTypeNode => Some (visitJSDocType anyType typeMap returnTypeNode)
      end
  end.

End Signatures.

(** The closure values [jsDocTransformerFactory] computes from the options. *)
Definition anyTypeOf (options : JsDocOptions) : TypeNode :=
  match anyAlias options with
  | Some alias =>
      if truthy alias then TypeReferenceNode (Identifier alias) None
      else KeywordTypeNode AnyKeyword
  | None => KeywordTypeNode AnyKeyword
  end.

(** [{ ...defaultTypeMap, ...optionsTypeMap }]: the entries of the options
    win. *)
Definition typeMapOf (options : JsDocOptions) : gmap string TypeOptions :=
  default ∅ (optionsTypeMap options) ∪ defaultTypeMap.

(** [returnType] of [visitFunctionLike]:
    [annotateReturns ? visitReturnType(node) : node.type]. *)
Definition returnTypeOf (options : JsDocOptions) (node : SignatureDeclaration)
  : option TypeNode :=
  if default false (annotateReturns options)
  then visitReturnType (anyTypeOf options) (typeMapOf options) node
  else fn_type node.

(** [parameters] of [visitFunctionLike]. *)
Definition parametersOf (options : JsDocOptions) (node : SignatureDeclaration)
  : list ParameterDeclaration :=
  visitParameters (anyTypeOf options) (typeMapOf options) node.

(** ** The shape-extraction transform ([reactShapePlugin]) *)

(** A declarator of a variable statement; [vd_name] is [name.getText()]. *)
Record VariableDeclaration := mkVariableDeclaration {
  vd_pos : Z;
  vd_end : Z;
  vd_name : string;
  vd_type : option TypeNode;
  vd_initializer : option Expression
}.

(** The top-level statements, with [pos] (leading trivia included) and
    [end]. An import carries [moduleSpecifier.getText()], an interface or a
    type alias [name.text]. A statement without modifiers has the empty
    list. *)
Inductive Statement :=
| ImportDeclaration (pos end_ : Z) (moduleSpecifier : string)
| VariableStatement (pos end_ : Z) (modifiers : list ModifierKind)
                    (declarations : list VariableDeclaration)
| ExportAssignment (pos end_ : Z) (expression : Expression)
| InterfaceDeclaration (pos end_ : Z) (name : string)
| TypeAliasDeclaration (pos end_ : Z) (name : string)
| OtherStatement (pos end_ : Z).

Record SourceFile := mkSourceFile {
  sf_text : string;
  statements : list Statement
}.

Definition statementPos (s : Statement) : Z :=
  match s with
  | ImportDeclaration p _ _ | VariableStatement p _ _ _ | ExportAssignment p _ _
  | InterfaceDeclaration p _ _ | TypeAliasDeclaration p _ _ | OtherStatement p _ => p
  end.

Definition statementEnd (s : Statement) : Z :=
  match s with
  | ImportDeclaration _ e _ | VariableStatement _ e _ _ | ExportAssignment _ e _
  | InterfaceDeclaration _ e _ | TypeAliasDeclaration _ e _ | OtherStatement _ e => e
  end.

(** [node.getFullText()]: the text of the file from [pos] to [end]. *)
Definition getFullText (sourceFile : SourceFile) (node : Statement) : string :=
  slice (statementPos node) (statementEnd node) (sf_text sourceFile).

(** The nodes the plugin builds with [ts.factory] and hands to the printer. *)
Module Factory.

Inductive NodeFlags := Const | Let | NoFlags.

Inductive VariableDeclarationNode :=
| VariableDeclaration (name : string) (type : option TypeNode)
                      (initializer : option Expression).

Inductive Node :=
| TypeAliasDeclaration (name : string) (type : TypeNode)
| Declaration (d : VariableDeclarationNode)
| VariableStatement (modifiers : list ModifierKind)
                    (declarations : list VariableDeclarationNode) (flags : NodeFlags)
| ExportDeclaration (isTypeOnly : bool) (exportSpecifiers : list string)
| ExportAssignment (expression : string)
| ImportDeclaration (importClauseName : string) (moduleSpecifier : string).

End Factory.

(** The options of the plugin. *)
Record ShapeOptions := mkShapeOptions {
  shape_anyAlias : option string;
  shape_anyFunctionAlias : option string
}.

(** The third argument of [getTypeFromPropTypesObjectLiteral]. *)
Record PropTypesParams := mkPropTypesParams {
  pt_anyAlias : option string;
  pt_anyFunctionAlias : option string;
  pt_spreadReplacements : list string
}.

Module Regex.
(** [/prop-types|react-validators/] *)
Definition validationImport := [lits "prop-types"; lits "react-validators"].
(** [/prop-types/] *)
Definition propTypesImport := [lits "prop-types"].
(** [/PropTypes.shape|Shape|Types.shape/] *)
Definition shapeCall :=
  [(lits "PropTypes" ++ [Dot] ++ lits "shape")%list; lits "Shape";
   (lits "Types" ++ [Dot] ++ lits "shape")%list].
(** [/arrayOf/] *)
Definition arrayOf := [lits "arrayOf"].
End Regex.

(** [ts.isCallExpression(x)] and [ts.isObjectLiteralExpression(x)] read
    [x.kind]: on [undefined] they throw. *)
Definition typeError : string := "TypeError: Cannot read properties of undefined".

Definition isCallExpression (x : option Expression) : outcome bool :=
  match x with
  | None => Thrown typeError
  | Some (CallExpression _ _ _) => Returned true
  | Some _ => Returned false
  end.

Definition isObjectLiteralExpression (x : option Expression) : outcome bool :=
  match x with
  | None => Thrown typeError
  | Some (ObjectLiteralExpression _) => Returned true
  | Some _ => Returned false
  end.

(** [isPropTypesShapeCallExpression(node)] on a call with callee
    [expression]. *)
Definition isPropTypesShapeCallExpression (expression : Expression) : bool :=
  test Regex.shapeCall (getText expression).

(** [isPropTypesArrayOfShapes(node)] on a call with callee [expression] and
    arguments [arguments]; [&&] evaluates from the left. *)
Definition isPropTypesArrayOfShapes
    (expression : Expression) (arguments : list Expression) : outcome bool :=
  if negb (test Regex.arrayOf (getText expression)) then Returned false
  else
    obind (isCallExpression (arguments !! 0%nat)) (fun isCall =>
    if negb isCall then Returned false
    else
      match arguments !! 0%nat with
      | Some (CallExpression _ callee _) => Returned (isPropTypesShapeCallExpression callee)
      | _ => Returned false
      end).

Definition getPropTypesImportNode : Factory.Node :=
  Factory.ImportDeclaration "PropTypes" "prop-types".

Definition getShapeTypeNode (shapeName : string) : TypeNode :=
  let propTypesRequireable :=
    TypeReferenceNode (QualifiedName (Identifier "PropTypes") "Requireable")
      (Some [TypeReferenceNode (Identifier shapeName) None]) in
  let reactValidatorsValidator :=
    TypeReferenceNode (Identifier "Validator")
      (Some [TypeReferenceNode (Identifier shapeName) None]) in
  UnionTypeNode [propTypesRequireable; reactValidatorsValidator].

(** The mutable state of one call of [run]: the flag
    [shouldAddPropTypesImport] and the array [updates]. *)
Record RunState := mkRunState {
  shouldAddPropTypesImport : bool;
  updates : list SourceTextUpdate
}.

(** State and exceptions. *)
Definition M (A : Type) : Type := RunState -> outcome (A * RunState).

Definition ret {A} (a : A) : M A := fun s => Returned (a, s).

Definition bind {A B} (m : M A) (k : A -> M B) : M B :=
  fun s =>
    match m s with
    | Returned (a, s') => k a s'
    | Thrown e => Thrown e
    end.

Definition lift {A} (o : outcome A) : M A :=
  fun s => obind o (fun a => Returned (a, s)).

(** [updates.push(u)]. *)
Definition push (u : SourceTextUpdate) : M unit :=
  fun s => Returned (tt, mkRunState (shouldAddPropTypesImport s) (updates s ++ [u])).

Notation "'let*' x ':=' m 'in' k" := (bind m (fun x => k))
  (at level 10, x name, m at level 100, k at level 200).
Notation "m ';;' k" := (bind m (fun _ => k))
  (at level 100, k at level 200, right associativity).

Definition forEach {A} (f : A -> M unit) : list A -> M unit :=
  fix go (l : list A) : M unit :=
    match l with
    | [] => ret tt
    | x :: r => f x ;; go r
    end.

Definition NL : string := String LF EmptyString.

Definition isImportDeclaration (s : Statement) : bool :=
  match s with ImportDeclaration _ _ _ => true | _ => false end.

Definition moduleSpecifierText (s : Statement) : string :=
  match s with ImportDeclaration _ _ m => m | _ => "" end.

(** [name.text] of an interface or type alias of the file. *)
Definition declaredTypeName (s : Statement) : option string :=
  match s with
  | InterfaceDeclaration _ _ n | TypeAliasDeclaration _ _ n => Some n
  | _ => None
  end.

Definition callArguments (e : Expression) : list Expression :=
  match e with CallExpression _ _ args => args | _ => [] end.

Section ReactShape.

(** [printer.printNode(ts.EmitHint.Unspecified, node, sourceFile)] and
    [ts.sys.newLine], of the TypeScript library. *)
Variable printNode : Factory.Node -> SourceFile -> string.
Variable newLine : string.

(** [getTypeFromPropTypesObjectLiteral] of [utils/react-props], which is
    not among the sources: by its signature it gives a type node for the
    first argument of the shape call. *)
Variable getTypeFromPropTypesObjectLiteral :
  option Expression -> SourceFile -> PropTypesParams -> TypeNode.

(** [printer.printNode(...).replace(/ +$/gm, '')]. *)
Definition printClean (node : Factory.Node) (sourceFile : SourceFile) : string :=
  stripTrailingSpaces (printNode node sourceFile).

(** [ts.moveSyntheticComments] moves comments of the type node onto the
    alias and gives the alias back; comments are not part of the nodes
    here. *)
Definition getTypeForTheShape (shapeNode : Expression) (shapeName : string)
    (sourceFile : SourceFile) (options : ShapeOptions) (isArrayShapeType : bool)
  : Factory.Node :=
  let shapeTypeVariable :=
    getTypeFromPropTypesObjectLiteral (callArguments shapeNode !! 0%nat) sourceFile
      (mkPropTypesParams (shape_anyAlias options) (shape_anyFunctionAlias options) []) in
  Factory.TypeAliasDeclaration shapeName
    (if isArrayShapeType then ArrayTypeNode shapeTypeVariable else shapeTypeVariable).

Section Run.

Variable fileName : string.
Variable sourceFile : SourceFile.
Variable options : ShapeOptions.
Variable text : string.

Definition baseName : string := basename fileName.

Definition importDeclarations : list Statement :=
  List.filter isImportDeclaration (statements sourceFile).

Definition hasPropTypesImport : option Statement :=
  List.find (fun x => test Regex.validationImport (moduleSpecifierText x))
    importDeclarations.

Definition typesAndInterfaces : list Statement :=
  List.filter (fun node => bool_decide (is_Some (declaredTypeName node)))
    (statements sourceFile).

Definition insertPropTypesRequireableNode : M unit :=
  fun s =>
    if shouldAddPropTypesImport s
    then Returned (tt, mkRunState false
           (updates s ++
            [InsertUpdate 0 (printClean getPropTypesImportNode sourceFile +:+ NL)]))
    else Returned (tt, s).

Definition splitVariableExport (node : Statement) (shapeName : string) : M unit :=
  let EXPORT_KEYWOARD := "export" in
  let posOfExportKeyword := indexOf (getFullText sourceFile node) EXPORT_KEYWOARD in
  push (DeleteUpdate (statementPos node + posOfExportKeyword)
          (Z.of_nat (String.length EXPORT_KEYWOARD) + 1)) ;;
  let newExport := Factory.ExportDeclaration false [shapeName] in
  push (InsertUpdate (statementEnd node) (NL +:+ printClean newExport sourceFile)).

Definition when (b : bool) (m : M unit) : M unit := if b then m else ret tt.

(** The body of [for (const node of sourceFile.statements)]. *)
Definition visitStatement (node : Statement) : M unit :=
  match node with
  | VariableStatement pos end_ modifiers declarations =>
      match declarations !! 0%nat with
      | Some variableDeclaration =>
          match vd_initializer variableDeclaration, vd_type variableDeclaration with
          | Some initializer, None =>
              let exportModifier :=
                existsb (fun modifier =>
                  match modifier with ExportKeyword => true | _ => false end)
                  modifiers in
              (* const shapeName = PropTypes.shape({...}) *)
              (match initializer with
               | CallExpression _ callee arguments =>
                   if (0 <? List.length arguments)%nat then
                     let* isObjectLiteral :=
                       lift (isObjectLiteralExpression (arguments !! 0%nat)) in
                     when (isObjectLiteral && isPropTypesShapeCallExpression callee)
                       (insertPropTypesRequireableNode ;;
                        let shapeNode := initializer in
                        let shapeName := vd_name variableDeclaration in
                        when (negb (existsb (fun tNode =>
                                 bool_decide (declaredTypeName tNode
                                              = Some (vd_name variableDeclaration)))
                               typesAndInterfaces))
                          (push (InsertUpdate pos
                             (NL +:+ NL +:+
                              printClean
                                (getTypeForTheShape shapeNode shapeName sourceFile
                                   options false)
                                sourceFile))) ;;
                        let updatedVariableDeclaration :=
                          Factory.Declaration
                            (Factory.VariableDeclaration
                               (vd_name variableDeclaration)
                               (Some (getShapeTypeNode shapeName))
                               (vd_initializer variableDeclaration)) in
                        let index := vd_pos variableDeclaration + 1 in
                        let length := vd_end variableDeclaration - index in
                        let text := printClean updatedVariableDeclaration sourceFile in
                        push (ReplaceUpdate index length text) ;;
                        when exportModifier (splitVariableExport node shapeName))
                   else ret tt
               | _ => ret tt
               end) ;;
              (* const shapeName = Types.arrayOf(Shape(...)) *)
              (match initializer with
               | CallExpression _ callee arguments =>
                   let* isArrayOfShapes :=
                     lift (isPropTypesArrayOfShapes callee arguments) in
                   when isArrayOfShapes
                     (insertPropTypesRequireableNode ;;
                      let shapeNode :=
                        default (OtherExpression "") (arguments !! 0%nat) in
                      let shapeName := vd_name variableDeclaration in
                      push (InsertUpdate pos
                         (NL +:+ NL +:+
                          printClean
                            (getTypeForTheShape shapeNode shapeName sourceFile
                               options true)
                            sourceFile)) ;;
                      when exportModifier (splitVariableExport node shapeName))
               | _ => ret tt
               end)
          | _, _ => ret tt
          end
      | None => ret tt
      end
  (* export default PropTypes.shape({...}) *)
  | ExportAssignment pos end_ expression =>
      match expression with
      | CallExpression _ callee arguments =>
          let* isObjectLiteral :=
            lift (isObjectLiteralExpression (arguments !! 0%nat)) in
          when (isObjectLiteral && isPropTypesShapeCallExpression callee)
            (insertPropTypesRequireableNode ;;
             let shapeNode := expression in
             let shapeName := splitHead "."%char baseName in
             let* lastImport :=
               lift (match List.last (map Some importDeclarations) None with
                     | Some i => Returned i
                     | None => Thrown typeError
                     end) in
             push (InsertUpdate (statementEnd lastImport)
                (NL +:+ NL +:+
                 printClean
                   (getTypeForTheShape shapeNode shapeName sourceFile options false)
                   sourceFile)) ;;
             push (ReplaceUpdate pos end_
                (newLine +:+
                 printClean
                   (Factory.VariableStatement []
                      [Factory.VariableDeclaration shapeName
                         (Some (getShapeTypeNode shapeName)) (Some shapeNode)]
                      Factory.Const)
                   sourceFile)) ;;
             let exportShapeExpression :=
               newLine +:+ printClean (Factory.ExportAssignment shapeName) sourceFile in
             push (InsertUpdate end_ exportShapeExpression))
      | _ => ret tt
      end
  | _ => ret tt
  end.

(** The updates [run] has collected when the loop ends. *)
Definition collectUpdates : outcome (list SourceTextUpdate) :=
  let shouldAdd :=
    negb (bool_decide (is_Some
      (List.find (fun x => test Regex.propTypesImport (moduleSpecifierText x))
         importDeclarations))) in
  obind (forEach visitStatement (statements sourceFile) (mkRunState shouldAdd []))
    (fun '(_, s) => Returned (updates s)).

(** [run]: [None] is the [undefined] the plugin returns for a file it
    skips. *)
Definition run : outcome (option string) :=
  match hasPropTypesImport with
  | None => Returned None
  | Some _ =>
      obind collectUpdates (fun updates =>
      obind (updateSourceText text updates) (fun result =>
      let cleaned := stripTrailingSpaces result in
      Returned (Some
        (if endsWith text NL && negb (endsWith cleaned NL)
         then cleaned +:+ NL else cleaned))))
  end.

End Run.

End ReactShape.

(** Modelled from the spec: the host ([ts-migrate-server]) is not among the
    sources. The specification (6) gives its output as the unmodified
    original text or the new text: a plugin that returns [undefined] leaves
    the text as it is. *)
Definition outputText (text : string) (result : option string) : string :=
  default text result.

(** A text has a trailing space when a space stands right before a line
    terminator or the end. *)
Fixpoint hasTrailingSpace (s : string) : bool :=
  match s with
  | EmptyString => false
  | String c r => (Ascii.eqb c SPACE && atLineEnd r) || hasTrailingSpace r
  end.

(** ** Sites of the shape transform *)

(** A call with an object literal as first argument whose callee reads as a
    shape validator. *)
Definition isShapeCall (e : Expression) : bool :=
  match e with
  | CallExpression _ callee (ObjectLiteralExpression _ :: _) =>
      isPropTypesShapeCallExpression callee
  | _ => false
  end.

(** A call whose callee reads as [arrayOf] and whose first argument is a
    shape-validator call. *)
Definition isArrayOfShapesCall (e : Expression) : bool :=
  match e with
  | CallExpression _ callee (CallExpression _ inner _ :: _) =>
      test Regex.arrayOf (getText callee) && isPropTypesShapeCallExpression inner
  | _ => false
  end.

(** A call without arguments on which the loop reads [arguments[0].kind]. *)
Definition isBareCall (viaArrayOf : bool) (e : Expression) : bool :=
  match e with
  | CallExpression _ callee [] =>
      if viaArrayOf then test Regex.arrayOf (getText callee) else true
  | _ => false
  end.

(** The statements the loop of [run] acts on: a variable statement whose
    first declarator is untyped and initialised by a shape call or an
    array-of-shapes call, a default export of a shape call; and the calls
    without arguments on which it throws. *)
Definition isPatternSite (node : Statement) : bool :=
  match node with
  | VariableStatement _ _ _ (variableDeclaration :: _) =>
      match vd_initializer variableDeclaration, vd_type variableDeclaration with
      | Some initializer, None =>
          isShapeCall initializer || isArrayOfShapesCall initializer
          || isBareCall true initializer
      | _, _ => false
      end
  | ExportAssignment _ _ expression =>
      isShapeCall expression || isBareCall false expression
  | _ => false
  end.

Definition noPatternSite (sourceFile : SourceFile) : bool :=
  forallb (fun node => negb (isPatternSite node)) (statements sourceFile).

(** ** Sample inputs

    Concrete files, trees and collaborators at which the properties below
    are evaluated. The trees are those the TypeScript parser gives for the
    texts: [pos] of a node is the end of the token before it. *)
Module Sample.

Definition quote : string := String "034"%char EmptyString.

Definition joinWith (sep : string) : list string -> string :=
  fix go (l : list string) : string :=
    match l with
    | [] => ""
    | [x] => x
    | x :: r => x +:+ sep +:+ go r
    end.

(** A printer for the type nodes of the samples, in the layout of the
    TypeScript printer. *)
Fixpoint printType (t : TypeNode) : string :=
  match t with
  | KeywordTypeNode StringKeyword => "string"
  | KeywordTypeNode NumberKeyword => "number"
  | KeywordTypeNode BooleanKeyword => "boolean"
  | KeywordTypeNode SymbolKeyword => "symbol"
  | KeywordTypeNode ObjectKeyword => "object"
  | KeywordTypeNode AnyKeyword => "any"
  | TypeReferenceNode name None => getEntityNameText name
  | TypeReferenceNode name (Some args) =>
      getEntityNameText name +:+ "<" +:+ joinWith ", " (map printType args) +:+ ">"
  | ArrayTypeNode e => printType e +:+ "[]"
  | UnionTypeNode ts => joinWith " | " (map printType ts)
  | TypeLiteralNode [] => "{}"
  | _ => "unknown"
  end.

Definition printDeclaration (d : Factory.VariableDeclarationNode) : string :=
  match d with
  | Factory.VariableDeclaration name type initializer =>
      name +:+
      match type with Some t => ": " +:+ printType t | None => "" end +:+
      match initializer with Some e => " = " +:+ getText e | None => "" end
  end.

Definition printNode (node : Factory.Node) (sourceFile : SourceFile) : string :=
  match node with
  | Factory.TypeAliasDeclaration name type =>
      "type " +:+ name +:+ " = " +:+ printType type +:+ ";"
  | Factory.Declaration d => printDeclaration d
  | Factory.VariableStatement _ declarations _ =>
      "const " +:+ joinWith ", " (map printDeclaration declarations) +:+ ";"
  | Factory.ExportDeclaration _ names =>
      "export { " +:+ joinWith ", " names +:+ " };"
  | Factory.ExportAssignment e => "export default " +:+ e +:+ ";"
  | Factory.ImportDeclaration name moduleSpecifier =>
      "import " +:+ name +:+ " from " +:+ quote +:+ moduleSpecifier +:+ quote +:+ ";"
  end.

(** A shape without members. *)
Definition getType (arg : option Expression) (sourceFile : SourceFile)
    (params : PropTypesParams) : TypeNode :=
  TypeLiteralNode [].

Definition options : ShapeOptions := mkShapeOptions None None.

Definition importLine : string := "import PropTypes from 'prop-types';".
Definition importStatement : Statement := ImportDeclaration 0 35 "'prop-types'".

(** [PropTypes.shape({})] *)
Definition shapeCall : Expression :=
  CallExpression "PropTypes.shape({})" (OtherExpression "PropTypes.shape")
    [ObjectLiteralExpression "{}"].

(** [PropTypes.arrayOf(PropTypes.shape({}))] *)
Definition arrayOfCall : Expression :=
  CallExpression "PropTypes.arrayOf(PropTypes.shape({}))"
    (OtherExpression "PropTypes.arrayOf") [shapeCall].

(** A file with the import and no shape; its second line ends in two
    spaces. *)
Definition plainText : string :=
  importLine +:+ NL +:+ "const a = 1;  " +:+ NL.

Definition plainFile : SourceFile :=
  mkSourceFile plainText
    [importStatement;
     VariableStatement 35 48 []
       [mkVariableDeclaration 41 47 "a" None (Some (OtherExpression "1"))]].

(** The same file without the two spaces. *)
Definition tidyText : string := importLine +:+ NL +:+ "const a = 1;" +:+ NL.

Definition tidyFile : SourceFile :=
  mkSourceFile tidyText (statements plainFile).

(** A default-exported shape followed by another statement. *)
Definition defaultExportText : string :=
  importLine +:+ NL +:+ "export default PropTypes.shape({});" +:+ NL +:+
  "export const n = 1;" +:+ NL.

Definition defaultExportFile : SourceFile :=
  mkSourceFile defaultExportText
    [importStatement;
     ExportAssignment 35 71 shapeCall;
     VariableStatement 71 91 [ExportKeyword]
       [mkVariableDeclaration 84 90 "n" None (Some (OtherExpression "1"))]].

(** An exported shape under a comment that holds the word [export]. *)
Definition commentedExportText : string :=
  importLine +:+ NL +:+ "// export shape" +:+ NL +:+
  "export const Bar = PropTypes.shape({});" +:+ NL.

Definition commentedExportFile : SourceFile :=
  mkSourceFile commentedExportText
    [importStatement;
     VariableStatement 35 91 [ExportKeyword]
       [mkVariableDeclaration 64 90 "Bar" None (Some shapeCall)]].

(** Two shapes in one statement:
    [export const A = PropTypes.shape({}), B = PropTypes.shape({});] *)
Definition twoShapesText : string :=
  importLine +:+ NL +:+
  "export const A = PropTypes.shape({}), B = PropTypes.shape({});" +:+ NL.

Definition secondShape : VariableDeclaration :=
  mkVariableDeclaration 73 97 "B" None (Some shapeCall).

Definition twoShapesStatement : Statement :=
  VariableStatement 35 98 [ExportKeyword]
    [mkVariableDeclaration 48 72 "A" None (Some shapeCall); secondShape].

Definition twoShapesFile : SourceFile :=
  mkSourceFile twoShapesText [importStatement; twoShapesStatement].

(** An array of shapes. *)
Definition arrayOfText : string :=
  importLine +:+ NL +:+
  "const Foos = PropTypes.arrayOf(PropTypes.shape({}));" +:+ NL.

Definition arrayOfFile : SourceFile :=
  mkSourceFile arrayOfText
    [importStatement;
     VariableStatement 35 88 []
       [mkVariableDeclaration 41 87 "Foos" None (Some arrayOfCall)]].

(** What the transform makes of [arrayOfText], and the tree of that
    text. *)
Definition arrayOfOnce : string :=
  importLine +:+ NL +:+ NL +:+ "type Foos = {}[];" +:+ NL +:+
  "const Foos = PropTypes.arrayOf(PropTypes.shape({}));" +:+ NL.

Definition arrayOfOnceFile : SourceFile :=
  mkSourceFile arrayOfOnce
    [importStatement;
     TypeAliasDeclaration 35 54 "Foos";
     VariableStatement 54 107 []
       [mkVariableDeclaration 60 106 "Foos" None (Some arrayOfCall)]].

(** A shape whose alias is declared in the file. *)
Definition aliasedShapeText : string :=
  importLine +:+ NL +:+ NL +:+ "type Foo = {};" +:+ NL +:+
  "const Foo = PropTypes.shape({});" +:+ NL.

Definition aliasedShapeFile : SourceFile :=
  mkSourceFile aliasedShapeText
    [importStatement;
     TypeAliasDeclaration 35 51 "Foo";
     VariableStatement 51 84 []
       [mkVariableDeclaration 57 83 "Foo" None (Some shapeCall)]].

  (** A file that imports [react-validators] only:
    [const Foo = Types.shape({});] *)
Definition validatorsText : string :=
  "import Types from 'react-validators';" +:+ NL +:+
  "const Foo = Types.shape({});" +:+ NL.

Definition validatorsFile : SourceFile :=
  mkSourceFile validatorsText
    [ImportDeclaration 0 37 "'react-validators'";
     VariableStatement 37 66 []
       [mkVariableDeclaration 43 65 "Foo" None
          (Some (CallExpression "Types.shape({})" (OtherExpression "Types.shape")
                   [ObjectLiteralExpression "{}"]))]].

(** Two shapes in one statement, the second written over two lines, the
    first of which ends in two spaces. *)
Definition brokenLineText : string :=
  importLine +:+ NL +:+
  "const A = PropTypes.shape({}), B = PropTypes.shape({  " +:+ NL +:+ "});" +:+ NL.

Definition brokenLineShape : VariableDeclaration :=
  mkVariableDeclaration 66 93 "B" None
    (Some (CallExpression ("PropTypes.shape({  " +:+ NL +:+ "})")
             (OtherExpression "PropTypes.shape")
             [ObjectLiteralExpression ("{  " +:+ NL +:+ "}")])).

Definition brokenLineFile : SourceFile :=
  mkSourceFile brokenLineText
    [importStatement;
     VariableStatement 35 94 []
       [mkVariableDeclaration 41 65 "A" None (Some shapeCall); brokenLineShape]].

(** A binding that carries a type, before a shape without one:
    [const Old: OldShape = PropTypes.shape({});] and
    [const Foo = PropTypes.shape({});] *)
Definition typedBindingText : string :=
  importLine +:+ NL +:+ "const Old: OldShape = PropTypes.shape({});" +:+ NL +:+
  "const Foo = PropTypes.shape({});" +:+ NL.

Definition typedBinding : Statement :=
  VariableStatement 35 78 []
    [mkVariableDeclaration 41 77 "Old"
       (Some (TypeReferenceNode (Identifier "OldShape") None)) (Some shapeCall)].

Definition typedBindingFile : SourceFile :=
  mkSourceFile typedBindingText
    [importStatement; typedBinding;
     VariableStatement 78 111 []
       [mkVariableDeclaration 84 110 "Foo" None (Some shapeCall)]].

(** A shape in a file without any import; its line ends in two spaces:
    [const Foo = PropTypes.shape({});] *)
Definition unimportedText : string :=
  "const Foo = PropTypes.shape({});  " +:+ NL.

Definition unimportedFile : SourceFile :=
  mkSourceFile unimportedText
    [VariableStatement 0 32 [] [mkVariableDeclaration 5 31 "Foo" None (Some shapeCall)]].

(** A file with the import whose last line holds spaces only. *)
Definition spacesLastText : string := importLine +:+ NL +:+ "  ".

Definition spacesLastFile : SourceFile :=
  mkSourceFile spacesLastText [importStatement].

End Sample.

(** Sample declarations of the signature transform. *)
Module SampleSignatures.

Definition tagOf (name : EntityName) (type : TypeNode) (isBracketed : bool)
  : JSDocParameterTag :=
  mkTag name (Some (mkTypeExpression type)) isBracketed.

Definition noOptions : JsDocOptions := mkJsDocOptions None None None.
Definition withReturns : JsDocOptions := mkJsDocOptions (Some true) None None.

(** The parameter [{ name, age }]. *)
Definition destructured : ParameterDeclaration :=
  mkParameter [] None (Some (ObjectBindingPattern "{ name, age }")) None None None.

(** [@param {string} opts.name] and [@param {number} opts.age] on
    [function f({ name, age }) {}]. *)
Definition optsFunction : SignatureDeclaration :=
  mkSignature [destructured] None
    [tagOf (QualifiedName (Identifier "opts") "name") (KeywordTypeNode StringKeyword) false;
     tagOf (QualifiedName (Identifier "opts") "age") (KeywordTypeNode NumberKeyword) false]
    None.

(** [@param {string} p1.a] and [@param {number} p2.b] on
    [function f({ a }, { b }) {}]. *)
Definition twoPatternsFunction : SignatureDeclaration :=
  mkSignature
    [mkParameter [] None (Some (ObjectBindingPattern "{ a }")) None None None;
     mkParameter [] None (Some (ObjectBindingPattern "{ b }")) None None None]
    None
    [tagOf (QualifiedName (Identifier "p1") "a") (KeywordTypeNode StringKeyword) false;
     tagOf (QualifiedName (Identifier "p2") "b") (KeywordTypeNode NumberKeyword) false]
    None.

(** [function f({ name, age }) {}] without documentation. *)
Definition untaggedFunction : SignatureDeclaration :=
  mkSignature [destructured] None [] None.

(** [@param {number} [x]] on [function f(x = 1) {}]. *)
Definition defaulted : ParameterDeclaration :=
  mkParameter [] None (Some (BindingIdentifier "x")) None None
    (Some (OtherExpression "1")).

Definition bracketedTag : JSDocParameterTag :=
  tagOf (Identifier "x") (KeywordTypeNode NumberKeyword) true.

(** [@param {string} a], [@param {string} b] and [@returns {string}] on
    [function f(a: number, b): boolean {}]. *)
Definition annotated : ParameterDeclaration :=
  mkParameter [] None (Some (BindingIdentifier "a")) None
    (Some (KeywordTypeNode NumberKeyword)) None.

Definition bare : ParameterDeclaration :=
  mkParameter [] None (Some (BindingIdentifier "b")) None None None.

Definition annotatedFunction : SignatureDeclaration :=
  mkSignature [annotated; bare] (Some (KeywordTypeNode BooleanKeyword))
    [tagOf (Identifier "a") (KeywordTypeNode StringKeyword) false;
     tagOf (Identifier "b") (KeywordTypeNode StringKeyword) false]
    (Some (KeywordTypeNode StringKeyword)).

End SampleSignatures.

(** ** Updates and spans *)

(** [u] leaves the offsets from [lo] to [hi] alone: the range it removes
    ends at or before [lo] or starts at or after [hi]; an insert is at or
    before [lo], or at or after [hi]. *)
Definition leavesSpan (lo hi : Z) (u : SourceTextUpdate) : Prop :=
  match u with
  | InsertUpdate i _ => i <= lo \/ hi <= i
  | ReplaceUpdate i n _ | DeleteUpdate i n => i + n <= lo \/ hi <= i
  end.

(** Every update [m] records satisfies [P]. *)
Definition records (P : SourceTextUpdate -> Prop) (m : M unit) : Prop :=
  forall s s', m s = Returned (tt, s') ->
    exists new, updates s' = (updates s ++ new)%list /\ Forall P new.

(** The number of line feeds of a text. *)
Fixpoint countLF (s : string) : nat :=
  match s with
  | EmptyString => 0%nat
  | String c r => ((if Ascii.eqb c LF then 1 else 0) + countLF r)%nat
  end.

(** ** Kinds of type nodes *)

(** The kinds only a documentary type has: a node of such a kind cannot
    stand in an annotation. *)
Definition isDocumentaryKind (t : TypeNode) : bool :=
  match t with
  | JSDocAllType | JSDocUnknownType | JSDocOptionalType _ | JSDocNonNullableType _
  | JSDocNullableType _ | JSDocVariadicType _ | JSDocFunctionType _ _
  | JSDocTypeLiteral _ => true
  | _ => false
  end.

(** No type reference the visitor reaches a second time is written with an
    empty list of type arguments ([Array<>]): the places are those under
    optional, non-nullable, variadic and array types and within type
    arguments. *)
Fixpoint noEmptyTypeArguments (t : TypeNode) : bool :=
  match t with
  | JSDocOptionalType type | JSDocNonNullableType type | JSDocVariadicType type
  | ArrayTypeNode type => noEmptyTypeArguments type
  | TypeReferenceNode _ (Some []) => false
  | TypeReferenceNode _ (Some args) => forallb noEmptyTypeArguments args
  | _ => true
  end.

(** The options without any entry. *)
Definition defaultOptions : JsDocOptions := mkJsDocOptions None None None.

(** What [visitParameter] may change of a parameter: it may add a type and a
    question token, nothing else. *)
Definition annotates (param visited : ParameterDeclaration) : Prop :=
  param_name visited = param_name param /\
  param_modifiers visited = param_modifiers param /\
  param_dotDotDotToken visited = param_dotDotDotToken param /\
  param_initializer visited = param_initializer param /\
  (is_Some (param_questionToken param) -> is_Some (param_questionToken visited)) /\
  (is_Some (param_type param) -> visited = param) /\
  (param_type visited = None -> visited = param).

(** ** Accessibility modifiers from documentary tags ([modifiersFromJSDoc]) *)

(** A method declaration as [modifiersFromJSDoc] reads it: its modifiers,
    [ts.getCombinedModifierFlags] of it, and whether [ts.getJSDocPrivateTag],
    [ts.getJSDocProtectedTag] and [ts.getJSDocPublicTag] find a tag. The
    flags are a JavaScript number that holds a small non-negative integer, on
    which [|] and [&] are [Z.lor] and [Z.land]. *)
Record MethodDeclaration := mkMethodDeclaration {
  md_modifiers : option (list ModifierKind);
  md_combinedModifierFlags : Z;
  md_privateTag : bool;
  md_protectedTag : bool;
  md_publicTag : bool
}.

(** What [modifiersFromJSDoc] returns: the modifiers of the declaration
    themselves, or [factory.createModifiersFromModifierFlags(modifierFlags)]. *)
Inductive ModifiersFromJSDoc :=
| DeclaredModifiers (modifiers : option (list ModifierKind))
| CreatedFromModifierFlags (modifierFlags : Z).

Section Accessibility.

(** [ts.ModifierFlags.Private], [.Protected] and [.Public]: constants of the
    TypeScript library. *)
Variable Private Protected Public : Z.

Definition accessibilityMask : Z := Z.lor (Z.lor Private Protected) Public.

Definition modifiersFromJSDoc (methodDeclaration : MethodDeclaration)
  : ModifiersFromJSDoc :=
  let modifierFlags := md_combinedModifierFlags methodDeclaration in
  if negb (Z.land modifierFlags accessibilityMask =? 0)
  then DeclaredModifiers (md_modifiers methodDeclaration)
  else if md_privateTag methodDeclaration
  then CreatedFromModifierFlags (Z.lor modifierFlags Private)
  else if md_protectedTag methodDeclaration
  then CreatedFromModifierFlags (Z.lor modifierFlags Protected)
  else if md_publicTag methodDeclaration
  then CreatedFromModifierFlags (Z.lor modifierFlags Public)
  else DeclaredModifiers (md_modifiers methodDeclaration).

(** The flag of the documentary tag that counts: private before protected
    before public. *)
Definition documentedAccessibility (methodDeclaration : MethodDeclaration)
  : option Z :=
  if md_privateTag methodDeclaration then Some Private
  else if md_protectedTag methodDeclaration then Some Protected
  else if md_publicTag methodDeclaration then Some Public
  else None.

End Accessibility.

(** ** The injected import *)

(** An update other than an insertion at the start of the file. *)
Definition notAtZero (u : SourceTextUpdate) : Prop :=
  match u with
  | InsertUpdate i _ => i <> 0
  | _ => True
  end.

(** A statement that ends after the start of the file and, when it is a
    variable statement, starts after it: every statement that is not the
    first of its file. *)
Definition afterStart (node : Statement) : Prop :=
  0 < statementEnd node /\
  match node with
  | VariableStatement pos _ _ _ => 0 < pos
  | _ => True
  end.

(** The update [insertPropTypesRequireableNode] records. *)
Definition importUpdate (printNode : Factory.Node -> SourceFile -> string)
    (sourceFile : SourceFile) : SourceTextUpdate :=
  InsertUpdate 0 (printClean printNode getPropTypesImportNode sourceFile +:+ NL).

(** [m] leaves the flag as it is and records updates that satisfy [P]. *)
Definition pushes (P : SourceTextUpdate -> Prop) (m : M unit) : Prop :=
  forall s s', m s = Returned (tt, s') ->
    shouldAddPropTypesImport s' = shouldAddPropTypesImport s /\
    exists new, updates s' = (updates s ++ new)%list /\ Forall P new.

(** [m] records the import at most once, before every other update it
    records, and only while the flag is set; no other update of it is an
    insertion at the start of the file. *)
Definition importsOnce (importUpdate : SourceTextUpdate) (m : M unit) : Prop :=
  forall s s', m s = Returned (tt, s') ->
    exists new, updates s' = (updates s ++ new)%list /\
      if shouldAddPropTypesImport s
      then (shouldAddPropTypesImport s' = true /\ new = []) \/
           (shouldAddPropTypesImport s' = false /\
            exists rest, new = importUpdate :: rest /\ Forall notAtZero rest)
      else shouldAddPropTypesImport s' = false /\ Forall notAtZero new.

(** The test of the export modifier in the loop of [run]. *)
Definition hasExportModifier (modifiers : list ModifierKind) : bool :=
  existsb (fun modifier => match modifier with ExportKeyword => true | _ => false end)
    modifiers.

(** The two updates of [splitVariableExport]. *)
Definition exportSplit (printNode : Factory.Node -> SourceFile -> string)
    (sourceFile : SourceFile) (node : Statement) (shapeName : string)
  : list SourceTextUpdate :=
  [DeleteUpdate (statementPos node + indexOf (getFullText sourceFile node) "export") 7;
   InsertUpdate (statementEnd node)
     (NL +:+ printClean printNode (Factory.ExportDeclaration false [shapeName]) sourceFile)].

(** ** Spans the updates leave alone *)

(** The length an update removes. *)
Definition updateLength (u : SourceTextUpdate) : Z :=
  match u with
  | InsertUpdate _ _ => 0
  | ReplaceUpdate _ n _ | DeleteUpdate _ n => n
  end.

(** [u] leaves the offsets from [lo] to [hi] alone and removes a length
    that is not negative. *)
Definition spares (lo hi : Z) (u : SourceTextUpdate) : Prop :=
  leavesSpan lo hi u /\ 0 <= updateLength u.

(** The offsets of a parsed file, as far as the loop reads them: a statement
    ends after its start; the first declarator of a variable statement lies
    inside the statement and ends after its first character; when the
    statement has the export modifier, the word [export] stands in its full
    text, with the character after it, before the first declarator. *)
Definition wellFormedStatement (sourceFile : SourceFile) (node : Statement) : Prop :=
  0 <= statementPos node <= statementEnd node /\
  match node with
  | VariableStatement pos end_ modifiers (first :: _) =>
      pos <= vd_pos first /\ vd_pos first + 1 <= vd_end first /\ vd_end first <= end_ /\
      (hasExportModifier modifiers = true ->
       0 <= indexOf (getFullText sourceFile node) "export" /\
       pos + indexOf (getFullText sourceFile node) "export" + 7 <= vd_pos first)
  | _ => True
  end.

(** A default export of a shape call with an object literal. *)
Definition isDefaultExportSite (node : Statement) : bool :=
  match node with
  | ExportAssignment _ _ expression => isShapeCall expression
  | _ => false
  end.

(** [node] lies before [pos] or after [end_], and is no default-exported
    shape when it lies before: the replacement of a default export is
    recorded with the length [node.end] and runs past the statement. *)
Definition besides (pos end_ : Z) (node : Statement) : Prop :=
  (statementEnd node <= pos /\ isDefaultExportSite node = false) \/
  end_ <= statementPos node.

(** [c] occurs in [s]. *)
Fixpoint occurs (c : ascii) (s : string) : bool :=
  match s with
  | EmptyString => false
  | String d r => Ascii.eqb d c || occurs c r
  end.

(** ** The [eslint-fix] plugin ([plugins/eslint-fix.ts]) *)

Module EslintFix.

(** A result of [cli.lintText]: [output] is the fixed text, absent when
    nothing was fixed. *)
Record LintResult := mkLintResult { output : option string }.

(** A value thrown: an [Error] with its message, or another value. *)
Inductive Exception :=
| ErrorObject (message : string)
| OtherValue.

(** [await cli.lintText(newText, { filePath: fileName })]: the results, or
    the value thrown. *)
Inductive LintOutcome :=
| Results (results : list LintResult)
| Throws (e : Exception).

(** What [run] resolves to, and the calls of [console.error] it made, each
    with its two arguments. *)
Record RunResult := mkRunResult {
  returned : string;
  logged : list (string * string)
}.

Section Plugin.

(** [cli.lintText], of the ESLint library. *)
Variable lintText : string -> string -> LintOutcome.

Variable fileName : string.

(** The [while (true)] loop of [run], for at most [fuel] rounds: the text it
    leaves with [break], or the value a call of [lintText] threw; [None] when
    the loop has not ended after [fuel] rounds. *)
Fixpoint fixLoop (fuel : nat) (newText : string) : option (string + Exception) :=
  match fuel with
  | O => None
  | S fuel' =>
      match lintText newText fileName with
      | Throws e => Some (inr e)
      | Results results =>
          match results !! 0%nat with
          | None => Some (inl newText)
          | Some report =>
              match output report with
              | None => Some (inl newText)
              | Some out =>
                  if negb (truthy out) || String.eqb out newText
                  then Some (inl newText)
                  else fixLoop fuel' out
              end
          end
      end
  end.

(** [run], with the [catch] around the loop. *)
Definition run (fuel : nat) (text : string) : option RunResult :=
  match fixLoop fuel text with
  | None => None
  | Some (inl newText) => Some (mkRunResult newText [])
  | Some (inr e) =>
      Some (mkRunResult text
              match e with
              | ErrorObject message =>
                  [("Error occurred in eslint-fix plugin: ", message)]
              | OtherValue => []
              end)
  end.

(** A text the linter leaves as it is: no result, a result without output
    or with the empty output, or the text itself as output. *)
Definition settled (text : string) : Prop :=
  match lintText text fileName with
  | Throws _ => False
  | Results results =>
      match results !! 0%nat with
      | None => True
      | Some report =>
          match output report with
          | None => True
          | Some out => out = "" \/ out = text
          end
      end
  end.

End Plugin.

(** A linter for the samples: it removes one leading space per pass, and
    throws on the text [!]. *)
Definition sampleLint (text fileName : string) : LintOutcome :=
  match text with
  | String " " r => Results [mkLintResult (Some r)]
  | "!" => Throws (ErrorObject "parse error")
  | _ => Results [mkLintResult None]
  end.

End EslintFix.

(** * Properties *)

(** ** Text lemmas *)

Example strip_ex :
  stripTrailingSpaces ("a  " +:+ String LF "b c " +:+ String LF " x  ")
  = "a" +:+ String LF "b c" +:+ String LF " x".
Proof. reflexivity. Qed.

Example basename_ex : basename "/src/shapes/FooShape.js" = "FooShape.js".
Proof. reflexivity. Qed.

Example updateSourceText_ex :
  updateSourceText "export const a = 1;"
    [InsertUpdate 19 "!"; DeleteUpdate 0 7; ReplaceUpdate 13 1 "b"; InsertUpdate 19 "?"]
  = Returned "const b = 1;!?".
Proof. reflexivity. Qed.

Lemma obind_Returned {A B} (a : A) (k : A -> outcome B) : obind (Returned a) k = k a.
Proof. reflexivity. Qed.

Lemma updateSourceText_nil text : updateSourceText text [] = Returned text.
Proof. reflexivity. Qed.

Lemma strip_fixed s : hasTrailingSpace s = false -> stripTrailingSpaces s = s.
Proof.
  induction s as [|c r IH]; simpl; [reflexivity|].
  intros H. apply orb_false_iff in H as [Hc Hr].
  rewrite (IH Hr), Hc. reflexivity.
Qed.

Lemma strip_length_le s : (String.length (stripTrailingSpaces s) <= String.length s)%nat.
Proof.
  induction s as [|c r IH]; simpl; [lia|].
  destruct (Ascii.eqb c SPACE && atLineEnd (stripTrailingSpaces r)); simpl; lia.
Qed.

Lemma strip_shrinks s :
  hasTrailingSpace s = true ->
  (String.length (stripTrailingSpaces s) < String.length s)%nat.
Proof.
  induction s as [|c r IH]; simpl; [discriminate|].
  destruct (hasTrailingSpace r) eqn:Hr.
  - intros _. specialize (IH eq_refl).
    destruct (Ascii.eqb c SPACE && atLineEnd (stripTrailingSpaces r)); simpl; lia.
  - rewrite orb_false_r. intros Hc. rewrite (strip_fixed r Hr), Hc. lia.
Qed.

Lemma strip_id_iff s : stripTrailingSpaces s = s <-> hasTrailingSpace s = false.
Proof.
  split; [|apply strip_fixed].
  intros Heq. destruct (hasTrailingSpace s) eqn:H; [|reflexivity].
  apply strip_shrinks in H. rewrite Heq in H. lia.
Qed.

Lemma strip_keeps_final_newline s :
  endsWith s NL = true -> endsWith (stripTrailingSpaces s) NL = true.
Proof.
  induction s as [|c r IH]; [discriminate|].
  cbn [endsWith]. intros H. apply orb_true_iff in H as [H|H].
  - apply String.eqb_eq in H. injection H as -> ->. reflexivity.
  - specialize (IH H). cbn [stripTrailingSpaces].
    destruct (Ascii.eqb c SPACE && atLineEnd (stripTrailingSpaces r)); [exact IH|].
    cbn [endsWith]. rewrite IH. apply orb_true_r.
Qed.

(** The last step of [run]: the cleaned text already ends as the input
    does. *)
Lemma final_newline_of_cleaned text :
  (if endsWith text NL && negb (endsWith (stripTrailingSpaces text) NL)
   then stripTrailingSpaces text +:+ NL else stripTrailingSpaces text)
  = stripTrailingSpaces text.
Proof.
  destruct (endsWith text NL) eqn:H; [|reflexivity].
  rewrite (strip_keeps_final_newline _ H). reflexivity.
Qed.

Lemma append_assoc (a b c : string) : (a +:+ b) +:+ c = a +:+ (b +:+ c).
Proof.
  induction a as [|x a IH]; [reflexivity|].
  change (String x a +:+ b) with (String x (a +:+ b)).
  change (String x (a +:+ b) +:+ c) with (String x ((a +:+ b) +:+ c)).
  rewrite IH. reflexivity.
Qed.

Lemma last_Some_In {A} (l : list A) (x : A) :
  List.last (map Some l) None = Some x -> In x l.
Proof.
  induction l as [|y l IH]; [discriminate|].
  destruct l as [|z l].
  - cbn. intros H. injection H as ->. left. reflexivity.
  - intros H. right. apply IH. exact H.
Qed.

(** *** Slices *)

Lemma substring_split (s : string) : forall n a b : nat,
  String.substring n (a + b) s
  = String.substring n a s +:+ String.substring (n + a) b s.
Proof.
  induction s as [|c s IH]; intros n a b.
  - destruct n, a, b; reflexivity.
  - destruct n as [|n].
    + destruct a as [|a]; cbn [String.substring Nat.add].
      * destruct b; reflexivity.
      * rewrite (IH 0%nat a b). reflexivity.
    + cbn [String.substring Nat.add]. apply IH.
Qed.

Lemma substringFrom_split (s : string) : forall n a : nat,
  substringFrom n s = String.substring n a s +:+ substringFrom (n + a) s.
Proof.
  induction s as [|c s IH]; intros n a.
  - destruct n, a; reflexivity.
  - destruct n as [|n].
    + destruct a as [|a]; cbn [String.substring Nat.add substringFrom]; [reflexivity|].
      change (String c ?x +:+ ?y) with (String c (x +:+ y)).
      f_equal. apply (IH 0%nat a).
    + cbn [String.substring Nat.add substringFrom]. apply IH.
Qed.

Lemma slice_split (s : string) (a b c : Z) :
  0 <= a <= b -> b <= c -> slice a c s = slice a b s +:+ slice b c s.
Proof.
  intros Hab Hbc. unfold slice.
  replace (Z.to_nat (c - a)) with (Z.to_nat (b - a) + Z.to_nat (c - b))%nat by lia.
  replace (Z.to_nat b) with (Z.to_nat a + Z.to_nat (b - a))%nat by lia.
  apply substring_split.
Qed.

Lemma substringFrom_slice (s : string) (a b : Z) :
  0 <= a <= b ->
  substringFrom (Z.to_nat a) s = slice a b s +:+ substringFrom (Z.to_nat b) s.
Proof.
  intros Hab. unfold slice.
  replace (Z.to_nat b) with (Z.to_nat a + Z.to_nat (b - a))%nat by lia.
  apply substringFrom_split.
Qed.

(** *** Cleaning inside a text *)

(** Cleaning works from the right: what stands before a text does not
    change how the text is cleaned. *)
Lemma strip_app_r (a x : string) :
  exists a', stripTrailingSpaces (a +:+ x) = a' +:+ stripTrailingSpaces x.
Proof.
  induction a as [|c a [a' IH]].
  - exists "". reflexivity.
  - change (String c a +:+ x) with (String c (a +:+ x)).
    cbn [stripTrailingSpaces]. rewrite IH.
    destruct (Ascii.eqb c SPACE && atLineEnd (a' +:+ stripTrailingSpaces x)).
    + exists a'. reflexivity.
    + exists (String c a'). reflexivity.
Qed.

Lemma endsWith_cons (c : ascii) (r p : string) :
  endsWith (String c r) p = false -> endsWith r p = false.
Proof. cbn [endsWith]. intros H. apply orb_false_iff in H as [_ H]. exact H. Qed.

Lemma strip_nonempty (s : string) :
  s <> "" -> endsWith s " " = false -> stripTrailingSpaces s <> "".
Proof.
  induction s as [|c r IH]; [congruence|]. intros _ Hend.
  cbn [stripTrailingSpaces].
  destruct r as [|d r].
  - cbn. destruct (Ascii.eqb c SPACE) eqn:Hc; [|discriminate].
    apply Ascii.eqb_eq in Hc. subst c. discriminate Hend.
  - apply endsWith_cons in Hend. specialize (IH ltac:(discriminate) Hend).
    destruct (Ascii.eqb c SPACE && atLineEnd (stripTrailingSpaces (String d r)));
      [exact IH | discriminate].
Qed.

Lemma atLineEnd_app (s b : string) : s <> "" -> atLineEnd (s +:+ b) = atLineEnd s.
Proof. destruct s; [congruence | reflexivity]. Qed.

(** A text that does not end in a space is cleaned the same way whatever
    follows it. *)
Lemma strip_app_l (s b : string) :
  endsWith s " " = false ->
  exists b', stripTrailingSpaces (s +:+ b) = stripTrailingSpaces s +:+ b'.
Proof.
  induction s as [|c r IH]; intros Hend.
  - exists (stripTrailingSpaces b). reflexivity.
  - change (String c r +:+ b) with (String c (r +:+ b)).
    cbn [stripTrailingSpaces].
    destruct r as [|d r].
    + destruct (Ascii.eqb c SPACE) eqn:Hc.
      * apply Ascii.eqb_eq in Hc. subst c. discriminate Hend.
      * exists (stripTrailingSpaces b). reflexivity.
    + pose proof (endsWith_cons _ _ _ Hend) as Hr.
      destruct (IH Hr) as [b' Hb']. rewrite Hb'.
      rewrite atLineEnd_app by (apply strip_nonempty; [discriminate | exact Hr]).
      exists b'.
      destruct (Ascii.eqb c SPACE && atLineEnd (stripTrailingSpaces (String d r)));
        reflexivity.
Qed.

(** A span that does not end in a space comes out of the cleaning of a
    text that holds it as the span cleaned on its own. *)
Lemma strip_inner (a s b : string) :
  endsWith s " " = false ->
  exists a' b',
    stripTrailingSpaces (a +:+ s +:+ b) = a' +:+ stripTrailingSpaces s +:+ b'.
Proof.
  intros Hend. destruct (strip_app_r a (s +:+ b)) as [a' ->].
  destruct (strip_app_l s b Hend) as [b' ->]. eauto.
Qed.

(** ** Files without a site *)

#[local] Arguments test _ _ : simpl never.
#[local] Arguments isPropTypesShapeCallExpression _ : simpl never.
#[local] Arguments printClean _ _ _ : simpl never.
#[local] Arguments getFullText _ _ : simpl never.
#[local] Arguments indexOf _ _ : simpl never.

Section Quiet.

Variable printNode : Factory.Node -> SourceFile -> string.
Variable newLine : string.
Variable getTypeFromPropTypesObjectLiteral :
  option Expression -> SourceFile -> PropTypesParams -> TypeNode.
Variable fileName : string.
Variable sourceFile : SourceFile.
Variable options : ShapeOptions.

Let visit :=
  visitStatement printNode newLine getTypeFromPropTypesObjectLiteral
    fileName sourceFile options.

Lemma visitStatement_quiet node s :
  isPatternSite node = false -> visit node s = Returned (tt, s).
Proof.
  unfold visit. destruct node as [| pos end_ mods decls | pos end_ e | | |]; try reflexivity.
  - destruct decls as [|vd rest]; [reflexivity|].
    cbn [isPatternSite visitStatement lookup list_lookup].
    destruct (vd_initializer vd) as [init|]; [|reflexivity].
    destruct (vd_type vd); [reflexivity|].
    intros H. apply orb_false_iff in H as [H Hbare].
    apply orb_false_iff in H as [Hshape Harr].
    destruct init as [t callee args | |]; try reflexivity.
    destruct args as [|a0 args].
    + cbn in Hbare. cbn. unfold bind, lift, isPropTypesArrayOfShapes.
      cbn. rewrite Hbare. reflexivity.
    + destruct a0 as [t0 c0 a0s | t0 | t0]; cbn in Hshape, Harr |- *;
        unfold bind, lift, isPropTypesArrayOfShapes, when, ret; cbn.
      * destruct (test Regex.arrayOf (getText callee)); cbn in *; [|reflexivity].
        rewrite Harr. reflexivity.
      * rewrite Hshape. cbn.
        destruct (test Regex.arrayOf (getText callee)); reflexivity.
      * destruct (test Regex.arrayOf (getText callee)); reflexivity.
  - cbn [isPatternSite visitStatement].
    intros H. apply orb_false_iff in H as [Hshape Hbare].
    destruct e as [t callee args | |]; try reflexivity.
    destruct args as [|a0 args]; [discriminate Hbare|].
    destruct a0; cbn in Hshape |- *; unfold bind, lift, when, ret; cbn;
      try rewrite Hshape; reflexivity.
Qed.

Lemma forEach_quiet nodes s :
  forallb (fun node => negb (isPatternSite node)) nodes = true ->
  forEach visit nodes s = Returned (tt, s).
Proof.
  induction nodes as [|node nodes IH]; [reflexivity|].
  cbn [forallb forEach]. intros H. apply andb_true_iff in H as [Hn Hr].
  apply negb_true_iff in Hn.
  unfold bind. rewrite (visitStatement_quiet node s Hn). apply IH, Hr.
Qed.

End Quiet.

(** ** C1: non-interference *)

(** C1, as stated, fails: a file that imports [prop-types] and holds no shape
    is not returned byte for byte, the two spaces that end its second line
    are removed. *)
Lemma C1_trailing_spaces_removed :
  noPatternSite Sample.plainFile = true /\
  run Sample.printNode NL Sample.getType "/src/plain.js" Sample.plainFile
      Sample.options Sample.plainText
  = Returned (Some Sample.tidyText) /\
  outputText Sample.plainText (Some Sample.tidyText) <> Sample.plainText.
Proof.
  split; [reflexivity|]. split; [vm_compute; reflexivity|].
  vm_compute. discriminate.
Qed.

(** C1 (amended): a file without an import of [prop-types] or
    [react-validators] is skipped ([run] returns [undefined]) whatever its
    statements are, and keeps its text; a file with such an import and
    without a shape site comes back with the trailing spaces of every line
    removed, which is the input itself exactly when no line of it ends in a
    space. In both cases a final line feed of the input is kept. *)
Theorem C1_non_interference
    (printNode : Factory.Node -> SourceFile -> string) (newLine : string)
    (getTypeFromPropTypesObjectLiteral :
       option Expression -> SourceFile -> PropTypesParams -> TypeNode)
    (fileName : string) (sourceFile : SourceFile) (options : ShapeOptions)
    (text : string) :
  hasPropTypesImport sourceFile = None \/ noPatternSite sourceFile = true ->
  exists result,
    run printNode newLine getTypeFromPropTypesObjectLiteral
        fileName sourceFile options text = Returned result /\
    result = (match hasPropTypesImport sourceFile with
              | Some _ => Some (stripTrailingSpaces text)
              | None => None
              end) /\
    (outputText text result = text <->
     hasPropTypesImport sourceFile = None \/ hasTrailingSpace text = false) /\
    (endsWith text NL = true -> endsWith (outputText text result) NL = true).
Proof.
  intros Hquiet. unfold run, collectUpdates.
  destruct (hasPropTypesImport sourceFile) as [imp|] eqn:Himp.
  - destruct Hquiet as [Hnone|Hquiet]; [discriminate Hnone|].
    rewrite (forEach_quiet _ _ _ _ _ _ _ _ Hquiet). cbn [obind updates].
    rewrite updateSourceText_nil. cbn [obind].
    rewrite final_newline_of_cleaned.
    eexists. split; [reflexivity|]. split; [reflexivity|]. split.
    + cbn. rewrite strip_id_iff. split; [auto|]. intros [H|H]; [discriminate|exact H].
    + cbn. apply strip_keeps_final_newline.
  - eexists. split; [reflexivity|]. split; [reflexivity|].
    cbn. split; [split; auto | auto].
Qed.

(** At a file that holds a shape and no import, and at a file with the
    import and without a site. *)
Lemma C1_non_interference_witness :
  (exists result,
     run Sample.printNode NL Sample.getType "/src/foo.js" Sample.unimportedFile
         Sample.options Sample.unimportedText = Returned result /\
     result = (match hasPropTypesImport Sample.unimportedFile with
               | Some _ => Some (stripTrailingSpaces Sample.unimportedText)
               | None => None
               end) /\
     (outputText Sample.unimportedText result = Sample.unimportedText <->
      hasPropTypesImport Sample.unimportedFile = None \/
      hasTrailingSpace Sample.unimportedText = false) /\
     (endsWith Sample.unimportedText NL = true ->
      endsWith (outputText Sample.unimportedText result) NL = true)) /\
  (exists result,
     run Sample.printNode NL Sample.getType "/src/tidy.js" Sample.tidyFile
         Sample.options Sample.tidyText = Returned result /\
     result = (match hasPropTypesImport Sample.tidyFile with
               | Some _ => Some (stripTrailingSpaces Sample.tidyText)
               | None => None
               end) /\
     (outputText Sample.tidyText result = Sample.tidyText <->
      hasPropTypesImport Sample.tidyFile = None \/
      hasTrailingSpace Sample.tidyText = false) /\
     (endsWith Sample.tidyText NL = true ->
      endsWith (outputText Sample.tidyText result) NL = true)).
Proof.
  split.
  - apply (C1_non_interference Sample.printNode NL Sample.getType "/src/foo.js"
             Sample.unimportedFile Sample.options Sample.unimportedText).
    left. reflexivity.
  - apply (C1_non_interference Sample.printNode NL Sample.getType "/src/tidy.js"
             Sample.tidyFile Sample.options Sample.tidyText).
    right. reflexivity.
Defined.

(** The file without import is a site of the loop and is skipped all the
    same, with the spaces that end its line. *)
Example unimported_shape_is_skipped :
  noPatternSite Sample.unimportedFile = false /\
  hasTrailingSpace Sample.unimportedText = true /\
  run Sample.printNode NL Sample.getType "/src/foo.js" Sample.unimportedFile
    Sample.options Sample.unimportedText
  = Returned None.
Proof. repeat split; reflexivity. Qed.

(** The converse of the last clause fails: a text that ends in a line of
    spaces does not end in a line feed, and its output does. *)
Example spaces_only_last_line :
  endsWith Sample.spacesLastText NL = false /\
  run Sample.printNode NL Sample.getType "/src/a.js" Sample.spacesLastFile
    Sample.options Sample.spacesLastText
  = Returned (Some (Sample.importLine +:+ NL)).
Proof. split; vm_compute; reflexivity. Qed.

(** A default-exported call without arguments is no shape site, yet the loop
    reads [arguments[0].kind] on it and throws; [noPatternSite] leaves such
    files out. *)
Example default_export_of_bare_call_throws :
  run Sample.printNode NL Sample.getType "/src/store.js"
    (mkSourceFile
       (Sample.importLine +:+ NL +:+ "export default createStore();" +:+ NL)
       [Sample.importStatement;
        ExportAssignment 35 65
          (CallExpression "createStore()" (OtherExpression "createStore") [])])
    Sample.options
    (Sample.importLine +:+ NL +:+ "export default createStore();" +:+ NL)
  = Thrown typeError.
Proof. reflexivity. Qed.

(** ** C2, C7: documentary type references *)

(** The index parameter [visitJSDocIndexSignature] builds: [s: string] or
    [n: number]. *)
Lemma isJSDocIndexSignature_Object (K : KeywordTypeSyntaxKind) (V : TypeNode) :
  isJSDocIndexSignature (Identifier "Object") (Some [KeywordTypeNode K; V])
  = match K with StringKeyword | NumberKeyword => true | _ => false end.
Proof. destruct K; reflexivity. Qed.

(** C2: [Object<string, V>] and [Object<number, V>] become the type literal
    with one index signature, [{ [s: string]: V }] and [{ [n: number]: V }],
    whatever the alias table holds (for [Object] or any other name) and
    whatever the unknown-type alias is; the result is no type reference. *)
Theorem C2_index_signature_map
    (anyType : TypeNode) (typeMap : gmap string TypeOptions) (V : TypeNode) :
  visitJSDocType anyType typeMap
    (TypeReferenceNode (Identifier "Object") (Some [KeywordTypeNode StringKeyword; V]))
  = TypeLiteralNode
      [IndexSignature
         [mkParameter [] None (Some (BindingIdentifier "s")) None
            (Some (TypeReferenceNode (Identifier "string") None)) None]
         V]
  /\
  visitJSDocType anyType typeMap
    (TypeReferenceNode (Identifier "Object") (Some [KeywordTypeNode NumberKeyword; V]))
  = TypeLiteralNode
      [IndexSignature
         [mkParameter [] None (Some (BindingIdentifier "n")) None
            (Some (TypeReferenceNode (Identifier "number") None)) None]
         V].
Proof. split; reflexivity. Qed.

Example C2_scenario :
  visitJSDocType (KeywordTypeNode AnyKeyword) defaultTypeMap
    (TypeReferenceNode (Identifier "Object")
       (Some [KeywordTypeNode StringKeyword; TypeReferenceNode (Identifier "Foo") None]))
  = TypeLiteralNode
      [IndexSignature
         [mkParameter [] None (Some (BindingIdentifier "s")) None
            (Some (TypeReferenceNode (Identifier "string") None)) None]
         (TypeReferenceNode (Identifier "Foo") None)].
Proof. reflexivity. Qed.

(** C7, as stated, fails: [Object] is renamed to the primitive keyword
    [object] by the default alias table, yet [Object<string, Foo>] is parsed
    to an index-signature literal, not to the keyword. *)
Lemma C7_Object_map_is_not_keyword :
  (resolveTypeName defaultTypeMap "Object").1 = "object" /\
  primitiveKeywordNode "object" = Some (KeywordTypeNode ObjectKeyword) /\
  visitJSDocType (KeywordTypeNode AnyKeyword) defaultTypeMap
    (TypeReferenceNode (Identifier "Object")
       (Some [KeywordTypeNode StringKeyword; TypeReferenceNode (Identifier "Foo") None]))
  <> KeywordTypeNode ObjectKeyword.
Proof. repeat split; try reflexivity. vm_compute. discriminate. Qed.

(** C7 (amended): a reference named by an identifier that is not of the form
    [Object<string, V>] or [Object<number, V>], and whose name after the
    alias table is one of [string], [number], [boolean], [symbol], [object],
    is parsed to that keyword type; its type arguments are dropped. *)
Theorem C7_primitive_keyword
    (anyType : TypeNode) (typeMap : gmap string TypeOptions)
    (text : string) (typeArguments : option (list TypeNode))
    (kind : KeywordTypeSyntaxKind) :
  isJSDocIndexSignature (Identifier text) typeArguments = false ->
  PRIMITIVE_KEYWORDS !! (resolveTypeName typeMap text).1 = Some kind ->
  visitJSDocType anyType typeMap (TypeReferenceNode (Identifier text) typeArguments)
  = KeywordTypeNode kind.
Proof.
  intros Hindex Hkind.
  cbn [visitJSDocType]. unfold visitJSDocTypeReferenceWith.
  rewrite Hindex.
  destruct (resolveTypeName typeMap text) as [name accepts]. cbn [fst] in Hkind.
  unfold primitiveKeywordNode. rewrite Hkind. reflexivity.
Qed.

(** At [String<Foo>] under the default alias table: the keyword [string]. *)
Lemma C7_primitive_keyword_witness :
  visitJSDocType (KeywordTypeNode AnyKeyword) defaultTypeMap
    (TypeReferenceNode (Identifier "String")
       (Some [TypeReferenceNode (Identifier "Foo") None]))
  = KeywordTypeNode StringKeyword.
Proof.
  apply (C7_primitive_keyword (KeywordTypeNode AnyKeyword) defaultTypeMap "String"
           (Some [TypeReferenceNode (Identifier "Foo") None]) StringKeyword).
  - reflexivity.
  - vm_compute. reflexivity.
Defined.

(** [PRIMITIVE_KEYWORDS] holds five names: [string], [number], [boolean],
    [symbol], [object]. *)
Lemma PRIMITIVE_KEYWORDS_spec (name : string) (kind : KeywordTypeSyntaxKind) :
  PRIMITIVE_KEYWORDS !! name = Some kind <->
  (name, kind) ∈ [("string", StringKeyword); ("number", NumberKeyword);
                  ("boolean", BooleanKeyword); ("symbol", SymbolKeyword);
                  ("object", ObjectKeyword)].
Proof.
  unfold PRIMITIVE_KEYWORDS. rewrite <- elem_of_list_to_map; [reflexivity|].
  cbn. repeat (apply NoDup_cons_2;
    [rewrite ?elem_of_cons, elem_of_nil; intuition discriminate|]).
  apply NoDup_nil_2.
Qed.

(** ** Termination of [buildNestedType] *)

Lemma length_append (a b : string) :
  String.length (a +:+ b) = (String.length a + String.length b)%nat.
Proof. induction a as [|c a IH]; simpl; [reflexivity|]. rewrite IH. reflexivity. Qed.

Lemma startsWith_length (s p : string) :
  startsWith s p = true -> (String.length p <= String.length s)%nat.
Proof.
  unfold startsWith. revert s. induction p as [|c p IH]; intros s; [simpl; lia|].
  destruct s as [|d s]; simpl; [discriminate|].
  destruct (ascii_dec c d); [|discriminate].
  intros H. apply IH in H. lia.
Qed.

Lemma maxTagNameLength_bound (allTags : list JSDocParameterTag) (t : JSDocParameterTag) :
  In t allTags -> (String.length (tagNameText t) <= maxTagNameLength allTags)%nat.
Proof.
  induction allTags as [|u r IH]; simpl; [tauto|].
  intros [->|H]; [lia|]. specialize (IH H). lia.
Qed.

Section Fuel.

Variable anyType : TypeNode.
Variable typeMap : gmap string TypeOptions.
Variable allTags : list JSDocParameterTag.

(** Enough fuel gives a result: every call is on a prefix that some tag
    name extends, and the prefix grows with each call. *)
Lemma buildNestedTypeFuel_enough (fuel : nat) : forall prefix : string,
  (1 <= fuel)%nat ->
  (maxTagNameLength allTags < fuel + String.length prefix)%nat ->
  is_Some (buildNestedTypeFuel anyType typeMap fuel prefix allTags).
Proof.
  induction fuel as [|fuel IH]; intros prefix Hpos Hlen; [lia|].
  cbn [buildNestedTypeFuel].
  match goal with
  | |- is_Some (mbind _ (mapM ?f ?l)) =>
      assert (Hall : is_Some (mapM f l)); [|destruct Hall as [ms ->]; cbn; eauto]
  end.
  apply mapM_is_Some_2, Forall_forall. intros tag _. cbn.
  set (path := prefix +:+ "." +:+ _).
  destruct (hasNestedChildren path allTags) eqn:Hnested; [|cbn; eauto].
  apply existsb_exists in Hnested as (t & Hin & Hstart).
  apply startsWith_length in Hstart. rewrite length_append in Hstart.
  pose proof (maxTagNameLength_bound _ _ Hin) as Hmax.
  assert (Hpath : (String.length prefix + 1 <= String.length path)%nat).
  { unfold path. rewrite !length_append. simpl. lia. }
  simpl in Hstart.
  destruct (IH path) as [ty ->]; [lia | lia | cbn; eauto].
Qed.

(** More fuel does not change a result. *)
Lemma buildNestedTypeFuel_more (fuel : nat) : forall (prefix : string) (ty : TypeNode),
  buildNestedTypeFuel anyType typeMap fuel prefix allTags = Some ty ->
  buildNestedTypeFuel anyType typeMap (S fuel) prefix allTags = Some ty.
Proof.
  induction fuel as [|fuel IH]; intros prefix ty; [discriminate|].
  remember (S fuel) as n eqn:Hn.
  cbn [buildNestedTypeFuel]. rewrite Hn at 1. cbn [buildNestedTypeFuel].
  match goal with
  | |- mbind _ (mapM ?f ?l) = _ -> mbind _ (mapM ?g ?l) = _ =>
      intros H; destruct (mapM f l) as [ms|] eqn:Hms; [|discriminate];
      assert (Hg : mapM g l = Some ms); [|rewrite Hg; exact H]
  end.
  apply mapM_Some. apply mapM_Some in Hms.
  eapply Forall2_impl; [exact Hms|]. cbn. intros tag member.
  destruct (hasNestedChildren _ allTags); [|auto].
  destruct (buildNestedTypeFuel anyType typeMap fuel _ allTags) as [inner|] eqn:Hinner;
    [|discriminate].
  subst n. rewrite (IH _ _ Hinner). auto.
Qed.

(** [buildNestedType] is the result at its fuel, hence at any larger one. *)
Lemma buildNestedType_total (prefix : string) :
  buildNestedTypeFuel anyType typeMap (S (maxTagNameLength allTags)) prefix allTags
  = Some (buildNestedType anyType typeMap prefix allTags).
Proof.
  unfold buildNestedType.
  destruct (buildNestedTypeFuel_enough (S (maxTagNameLength allTags)) prefix)
    as [ty ->]; [lia | lia | reflexivity].
Qed.

End Fuel.

(** ** C8: destructured parameters *)

Lemma visitParameters_lookup anyType typeMap fn (i : nat) param :
  hasJSDocParameterTags fn = true ->
  fn_parameters fn !! i = Some param ->
  visitParameters anyType typeMap fn !! i
  = Some (visitParameter anyType typeMap (fn_jsDocParameterTags fn) param).
Proof.
  intros Htags Hi. unfold visitParameters. rewrite Htags. cbn [negb].
  change (map ?f ?l) with (f <$> l). rewrite list_lookup_fmap, Hi. reflexivity.
Qed.

(** On a declaration that carries at least one parameter tag, a
    destructured parameter without a type receives the nested object type
    [buildNestedType] builds from the root of the first tag of the
    declaration whose name holds a dot, and the generic object keyword when
    no tag name holds a dot. *)
Lemma visitParameters_pattern
    (anyType : TypeNode) (typeMap : gmap string TypeOptions)
    (fn : SignatureDeclaration) (i : nat) (param : ParameterDeclaration)
    (src : string) :
  hasJSDocParameterTags fn = true ->
  fn_parameters fn !! i = Some param ->
  param_name param = Some (ObjectBindingPattern src) ->
  param_type param = None ->
  visitParameters anyType typeMap fn !! i
  = Some (mkParameter (param_modifiers param) (param_dotDotDotToken param)
            (param_name param) (param_questionToken param)
            (Some match List.find isDottedTag (fn_jsDocParameterTags fn) with
                  | Some rootTag =>
                      buildNestedType anyType typeMap
                        (splitHead "."%char (tagNameText rootTag))
                        (fn_jsDocParameterTags fn)
                  | None => KeywordTypeNode ObjectKeyword
                  end)
            (param_initializer param)).
Proof.
  intros Htags Hi Hname Htype.
  rewrite (visitParameters_lookup _ _ _ _ _ Htags Hi). f_equal.
  unfold visitParameter. rewrite Htype, bool_decide_eq_false_2 by (intros [? ?]; discriminate).
  rewrite Hname.
  destruct (List.find isDottedTag (fn_jsDocParameterTags fn)); reflexivity.
Qed.

(** The scenario of the specification: tags [opts.name] of type [string]
    and [opts.age] of type [number] on the one parameter [{ name, age }] give
    [{ name: string; age: number }]. *)
Example one_pattern_scenario :
  parametersOf SampleSignatures.noOptions SampleSignatures.optsFunction
  = [mkParameter [] None (Some (ObjectBindingPattern "{ name, age }")) None
       (Some (TypeLiteralNode
                [PropertySignature "name" None (KeywordTypeNode StringKeyword);
                 PropertySignature "age" None (KeywordTypeNode NumberKeyword)]))
       None].
Proof. vm_compute. reflexivity. Qed.

(** A declaration without any parameter tag is left as it is. *)
Example untagged_pattern_stays_untyped :
  parametersOf SampleSignatures.noOptions SampleSignatures.untaggedFunction
  = [SampleSignatures.destructured].
Proof. reflexivity. Qed.

(** C8: on [function f({ a }, { b })] documented with [@param {string} p1.a]
    and [@param {number} p2.b], the root of every pattern is that of the
    first dotted tag of the declaration: both parameters receive
    [{ a: string }], the type of the group of [p1], and the group of [p2],
    [{ b: number }], is given to no parameter. *)
Theorem C8_patterns_share_the_first_root :
  parametersOf SampleSignatures.noOptions SampleSignatures.twoPatternsFunction
  = [mkParameter [] None (Some (ObjectBindingPattern "{ a }")) None
       (Some (TypeLiteralNode
                [PropertySignature "a" None (KeywordTypeNode StringKeyword)]))
       None;
     mkParameter [] None (Some (ObjectBindingPattern "{ b }")) None
       (Some (TypeLiteralNode
                [PropertySignature "a" None (KeywordTypeNode StringKeyword)]))
       None] /\
  buildNestedType (anyTypeOf SampleSignatures.noOptions)
    (typeMapOf SampleSignatures.noOptions) "p2"
    (fn_jsDocParameterTags SampleSignatures.twoPatternsFunction)
  = TypeLiteralNode [PropertySignature "b" None (KeywordTypeNode NumberKeyword)].
Proof. split; vm_compute; reflexivity. Qed.

(** ** C9: optionality of a directly documented parameter *)

(** C9: for a named parameter without a type whose type comes from its
    direct tag, the question token is added when the parameter has no
    initializer and the tag is bracketed or its type is an optional type; a
    parameter with an initializer keeps the question token it had. *)
Theorem C9_question_token
    (anyType : TypeNode) (typeMap : gmap string TypeOptions)
    (allParamTags : list JSDocParameterTag) (param : ParameterDeclaration)
    (name : string) (directTag : JSDocParameterTag) (e : JSDocTypeExpression) :
  param_type param = None ->
  param_name param = Some (BindingIdentifier name) ->
  truthy name = true ->
  List.filter (isNestedTag name) allParamTags = [] ->
  List.find (isDirectTag name) allParamTags = Some directTag ->
  tag_typeExpression directTag = Some e ->
  visitParameter anyType typeMap allParamTags param
  = mkParameter (param_modifiers param) (param_dotDotDotToken param) (param_name param)
      (match param_initializer param with
       | Some _ => param_questionToken param
       | None =>
           if tag_isBracketed directTag || isJSDocOptionalType (te_type e)
           then Some QuestionToken
           else param_questionToken param
       end)
      (Some (visitJSDocType anyType typeMap (te_type e)))
      (param_initializer param).
Proof.
  intros Htype Hname Htruthy Hnested Hdirect He.
  unfold visitParameter.
  rewrite Htype, bool_decide_eq_false_2 by (intros [? ?]; discriminate).
  rewrite Hname, Htruthy, Hnested, Hdirect. cbn [negb mbind option_bind].
  rewrite He. unfold updateParameterDeclaration.
  destruct (param_initializer param) as [init|].
  - rewrite bool_decide_eq_true_2 by eauto. reflexivity.
  - rewrite bool_decide_eq_false_2 by (intros [? ?]; discriminate).
    cbn [negb andb]. reflexivity.
Qed.

(** [@param {number} [x]] on [x = 1]: the type is set, no question token is
    added. *)
Lemma C9_question_token_witness :
  visitParameter (KeywordTypeNode AnyKeyword) defaultTypeMap
    [SampleSignatures.bracketedTag] SampleSignatures.defaulted
  = mkParameter [] None (Some (BindingIdentifier "x")) None
      (Some (KeywordTypeNode NumberKeyword)) (Some (OtherExpression "1")).
Proof.
  apply (C9_question_token (KeywordTypeNode AnyKeyword) defaultTypeMap
           [SampleSignatures.bracketedTag] SampleSignatures.defaulted "x"
           SampleSignatures.bracketedTag
           (mkTypeExpression (KeywordTypeNode NumberKeyword)));
    reflexivity.
Defined.

(** ** Sites that already carry a type *)

Lemma visitParameter_typed anyType typeMap allParamTags (param : ParameterDeclaration) :
  is_Some (param_type param) ->
  visitParameter anyType typeMap allParamTags param = param.
Proof.
  intros H. unfold visitParameter. rewrite bool_decide_eq_true_2 by exact H. reflexivity.
Qed.

(** What the transforms compute for a site that carries a type: the
    parameter is handed back as it is, at its place in the parameter list; a
    declared return type is the return type [visitFunctionLike] goes on
    with, with and without [annotateReturns]; a variable statement whose
    first declarator carries a type yields no update and leaves the state of
    the run as it is. What the update tracker of the signature transform
    prints from these values is not part of the sources. *)
Lemma typed_sites_not_synthesized (options : JsDocOptions) :
  (forall (fn : SignatureDeclaration) (i : nat) (param : ParameterDeclaration),
      fn_parameters fn !! i = Some param ->
      is_Some (param_type param) ->
      parametersOf options fn !! i = Some param) /\
  (forall (fn : SignatureDeclaration) (type : TypeNode),
      fn_type fn = Some type ->
      returnTypeOf options fn = Some type /\
      visitReturnType (anyTypeOf options) (typeMapOf options) fn = Some type) /\
  (forall printNode newLine getTypeFromPropTypesObjectLiteral fileName sourceFile
          shapeOptions pos end_ modifiers
          (variableDeclaration : VariableDeclaration) rest (s : RunState),
      is_Some (vd_type variableDeclaration) ->
      visitStatement printNode newLine getTypeFromPropTypesObjectLiteral
        fileName sourceFile shapeOptions
        (VariableStatement pos end_ modifiers (variableDeclaration :: rest)) s
      = Returned (tt, s)).
Proof.
  split; [|split].
  - intros fn i param Hi Htyped. unfold parametersOf, visitParameters.
    destruct (hasJSDocParameterTags fn); cbn [negb]; [|exact Hi].
    change (map ?f ?l) with (f <$> l). rewrite list_lookup_fmap, Hi. cbn.
    rewrite visitParameter_typed by exact Htyped. reflexivity.
  - intros fn type Htype. unfold returnTypeOf, visitReturnType. rewrite Htype.
    destruct (default false (annotateReturns options)); auto.
  - intros printNode newLine getType fileName sourceFile shapeOptions pos end_
      modifiers vd rest s [t Ht].
    cbn [visitStatement lookup list_lookup]. rewrite Ht.
    destruct (vd_initializer vd); reflexivity.
Qed.

(** On [function f(a: number, b): boolean] documented with
    [@param {string} a], [@param {string} b], [@returns {string}]: [a] keeps
    [number], the return type stays [boolean]; on [const a: T = shape-call]
    no update is made. *)
Example typed_sites_sample :
  parametersOf SampleSignatures.withReturns SampleSignatures.annotatedFunction !! 0%nat
  = Some SampleSignatures.annotated /\
  returnTypeOf SampleSignatures.withReturns SampleSignatures.annotatedFunction
  = Some (KeywordTypeNode BooleanKeyword) /\
  visitStatement Sample.printNode NL Sample.getType "/src/a.js" Sample.tidyFile
    Sample.options
    (VariableStatement 35 80 [ExportKeyword]
       [mkVariableDeclaration 48 79 "a" (Some (TypeReferenceNode (Identifier "T") None))
          (Some Sample.shapeCall)])
    (mkRunState true [])
  = Returned (tt, mkRunState true []).
Proof.
  destruct (typed_sites_not_synthesized SampleSignatures.withReturns)
    as (Hparam & Hreturn & Hbinding).
  split; [|split].
  - apply Hparam; [reflexivity|]. eexists. reflexivity.
  - apply Hreturn. reflexivity.
  - apply Hbinding. eexists. reflexivity.
Qed.

Example other_parameter_annotated :
  parametersOf SampleSignatures.withReturns SampleSignatures.annotatedFunction
  = [SampleSignatures.annotated;
     mkParameter [] None (Some (BindingIdentifier "b")) None
       (Some (KeywordTypeNode StringKeyword)) None].
Proof. vm_compute. reflexivity. Qed.

(** ** The updates of one statement *)

Section Records.

Variable P : SourceTextUpdate -> Prop.

Lemma records_ret : records P (ret tt).
Proof.
  intros s s' H. injection H as <-. exists []. rewrite app_nil_r. auto.
Qed.

Lemma records_push u : P u -> records P (push u).
Proof.
  intros Hu s s' H. injection H as <-. exists [u]. auto.
Qed.

Lemma records_seq (m k : M unit) :
  records P m -> records P k -> records P (m ;; k).
Proof.
  intros Hm Hk s s' H. unfold bind in H.
  destruct (m s) as [[[] s1]|] eqn:Hs1; [|discriminate].
  destruct (Hm _ _ Hs1) as (new1 & E1 & H1).
  destruct (Hk _ _ H) as (new2 & E2 & H2).
  exists (new1 ++ new2)%list. rewrite E2, E1, app_assoc. split; [reflexivity|].
  apply Forall_app. auto.
Qed.

Lemma records_lift {A} (o : outcome A) (k : A -> M unit) :
  (forall a, o = Returned a -> records P (k a)) ->
  records P (let* a := lift o in k a).
Proof.
  intros Hk s s' H. unfold bind, lift in H.
  destruct o as [a|]; [|discriminate]. cbn in H. eapply Hk; eauto.
Qed.

Lemma records_when (b : bool) (m : M unit) :
  (b = true -> records P m) -> records P (when b m).
Proof. destruct b; cbn; auto using records_ret. Qed.

End Records.

Section OneStatement.

Variable printNode : Factory.Node -> SourceFile -> string.
Variable newLine : string.
Variable getTypeFromPropTypesObjectLiteral :
  option Expression -> SourceFile -> PropTypesParams -> TypeNode.
Variable fileName : string.
Variable sourceFile : SourceFile.
Variable options : ShapeOptions.

Let visit :=
  visitStatement printNode newLine getTypeFromPropTypesObjectLiteral
    fileName sourceFile options.

Lemma records_insertPropTypesRequireableNode P :
  (forall t, P (InsertUpdate 0 t)) ->
  records P (insertPropTypesRequireableNode printNode sourceFile).
Proof.
  intros HP s s' H. unfold insertPropTypesRequireableNode in H.
  destruct (shouldAddPropTypesImport s).
  - injection H as <-. eexists. split; [reflexivity|]. auto.
  - injection H as <-. exists []. rewrite app_nil_r. auto.
Qed.

Lemma records_splitVariableExport P node shapeName :
  P (DeleteUpdate (statementPos node + indexOf (getFullText sourceFile node) "export") 7) ->
  (forall t, P (InsertUpdate (statementEnd node) t)) ->
  records P (splitVariableExport printNode sourceFile node shapeName).
Proof.
  intros Hd Hi. unfold splitVariableExport.
  apply records_seq; apply records_push; auto.
Qed.

End OneStatement.

(** ** The updates of a file *)

Section FileUpdates.

Variable printNode : Factory.Node -> SourceFile -> string.
Variable newLine : string.
Variable getTypeFromPropTypesObjectLiteral :
  option Expression -> SourceFile -> PropTypesParams -> TypeNode.
Variable fileName : string.
Variable sourceFile : SourceFile.
Variable options : ShapeOptions.

Let visit :=
  visitStatement printNode newLine getTypeFromPropTypesObjectLiteral
    fileName sourceFile options.

Variable P : SourceTextUpdate -> Prop.

(** The updates of a variable statement, the removal of [export] being
    recorded only for a statement with the export modifier. *)
Lemma records_variable_statement_of pos end_ modifiers first rest :
  (forall t, P (InsertUpdate 0 t)) ->
  (forall t, P (InsertUpdate pos t)) ->
  (forall t, P (InsertUpdate end_ t)) ->
  (forall t, P (ReplaceUpdate (vd_pos first + 1) (vd_end first - (vd_pos first + 1)) t)) ->
  (hasExportModifier modifiers = true ->
   P (DeleteUpdate
        (pos + indexOf (getFullText sourceFile
                          (VariableStatement pos end_ modifiers (first :: rest))) "export")
        7)) ->
  records P (visit (VariableStatement pos end_ modifiers (first :: rest))).
Proof.
  intros H0 Hpos Hend Hrep Hdel. unfold visit.
  assert (Hsplit : forall name,
            hasExportModifier modifiers = true ->
            records P (splitVariableExport printNode sourceFile
                         (VariableStatement pos end_ modifiers (first :: rest)) name)).
  { intros name Hexport. apply records_splitVariableExport; [apply Hdel, Hexport | exact Hend]. }
  cbn [visitStatement lookup list_lookup].
  destruct (vd_initializer first) as [init|]; [|apply records_ret].
  destruct (vd_type first); [apply records_ret|].
  apply records_seq.
  - destruct init as [t callee args | |]; try apply records_ret.
    destruct (0 <? List.length args)%nat; [|apply records_ret].
    apply records_lift. intros isObj _. apply records_when. intros _.
    apply records_seq; [apply records_insertPropTypesRequireableNode, H0|].
    apply records_seq; [apply records_when; intros _; apply records_push, Hpos|].
    apply records_seq; [apply records_push, Hrep|].
    apply records_when. intros Hexport. apply Hsplit, Hexport.
  - destruct init as [t callee args | |]; try apply records_ret.
    apply records_lift. intros isArr _. apply records_when. intros _.
    apply records_seq; [apply records_insertPropTypesRequireableNode, H0|].
    apply records_seq; [apply records_push, Hpos|].
    apply records_when. intros Hexport. apply Hsplit, Hexport.
Qed.

(** The updates of a default export. *)
Lemma records_export_assignment pos end_ expression :
  (isShapeCall expression = true ->
   (forall t, P (InsertUpdate 0 t)) /\
   (forall i t, In i (importDeclarations sourceFile) -> P (InsertUpdate (statementEnd i) t)) /\
   (forall t, P (ReplaceUpdate pos end_ t)) /\
   (forall t, P (InsertUpdate end_ t))) ->
  records P (visit (ExportAssignment pos end_ expression)).
Proof.
  intros Hsite. unfold visit. cbn [visitStatement].
  destruct expression as [t callee args | |]; try apply records_ret.
  apply records_lift. intros isObj HisObj. apply records_when. intros Hboth.
  apply andb_true_iff in Hboth as [-> Hshape].
  assert (Hcall : isShapeCall (CallExpression t callee args) = true).
  { destruct args as [|[| |] args]; try discriminate HisObj. exact Hshape. }
  destruct (Hsite Hcall) as (H0 & Himport & Hrep & Hend).
  apply records_seq; [apply records_insertPropTypesRequireableNode, H0|].
  apply records_lift. intros lastImport Hlast.
  assert (Hin : In lastImport (importDeclarations sourceFile)).
  { apply last_Some_In.
    destruct (List.last (map Some (importDeclarations sourceFile)) None);
      [injection Hlast as ->; reflexivity | discriminate]. }
  apply records_seq; [apply records_push, Himport, Hin|].
  apply records_seq; [apply records_push, Hrep|].
  apply records_push, Hend.
Qed.

Lemma records_forEach (nodes : list Statement) :
  (forall node, In node nodes -> records P (visit node)) ->
  records P (forEach visit nodes).
Proof.
  induction nodes as [|node nodes IH]; intros Hall; [apply records_ret|].
  cbn [forEach]. apply records_seq.
  - apply Hall. left. reflexivity.
  - apply IH. intros n Hn. apply Hall. right. exact Hn.
Qed.

(** What [run] has collected when every statement records updates that
    satisfy [P]. *)
Lemma collectUpdates_records (us : list SourceTextUpdate) :
  (forall node, In node (statements sourceFile) -> records P (visit node)) ->
  collectUpdates printNode newLine getTypeFromPropTypesObjectLiteral
    fileName sourceFile options = Returned us ->
  Forall P us.
Proof.
  intros Hall Hus. unfold collectUpdates in Hus.
  match type of Hus with
  | obind (forEach _ _ ?s0) _ = _ =>
      destruct (forEach
                  (visitStatement printNode newLine getTypeFromPropTypesObjectLiteral
                     fileName sourceFile options)
                  (statements sourceFile) s0) as [[[] s']|] eqn:Hloop; [|discriminate];
      destruct (records_forEach _ Hall _ _ Hloop) as (new & Hnew & HP)
  end.
  cbn in Hus. injection Hus as <-. rewrite Hnew. exact HP.
Qed.

End FileUpdates.

(** ** Spans the run leaves alone *)

Section Frame.

Variable text : string.
Variables lo hi : Z.
Hypothesis Hspan : lo <= hi.

(** One walk of the patch engine that starts at or before [lo], over
    updates that spare the span, copies the span. *)
Lemma walk_frame (us : list SourceTextUpdate) : forall (cursor : Z) (out : string),
  Forall (spares lo hi) us ->
  0 <= cursor <= lo ->
  PatchEngine.walk text cursor us = Returned out ->
  exists before after, out = before +:+ slice lo hi text +:+ after.
Proof.
  induction us as [|u us IH]; intros cursor out Hus Hcursor Hwalk.
  - cbn in Hwalk. injection Hwalk as <-.
    exists (slice cursor lo text), (substringFrom (Z.to_nat hi) text).
    rewrite (substringFrom_slice text cursor lo) by lia.
    rewrite (substringFrom_slice text lo hi) by lia. reflexivity.
  - apply Forall_cons in Hus as [[Hleave Hlen] Hus].
    assert (Hcopy : forall i tail, hi <= i ->
              exists before after,
                slice cursor i text +:+ tail
                = before +:+ slice lo hi text +:+ after).
    { intros i tail Hi. exists (slice cursor lo text), (slice hi i text +:+ tail).
      rewrite (slice_split text cursor lo i) by lia.
      rewrite (slice_split text lo hi i) by lia.
      rewrite !append_assoc. reflexivity. }
    assert (Hlater : forall cursor' head rest,
              0 <= cursor' <= lo ->
              PatchEngine.walk text cursor' us = Returned rest ->
              exists before after,
                head +:+ rest = before +:+ slice lo hi text +:+ after).
    { intros cursor' head rest Hc Hrest.
      destruct (IH cursor' rest Hus Hc Hrest) as (b & a & ->).
      exists (head +:+ b), a. rewrite append_assoc. reflexivity. }
    destruct u as [i t | i n t | i n]; cbn [PatchEngine.walk] in Hwalk;
      cbn [leavesSpan updateLength] in Hleave, Hlen.
    + destruct (PatchEngine.walk text (Z.max cursor i) us) as [rest|] eqn:Hrest;
        [|discriminate]. cbn in Hwalk. injection Hwalk as <-.
      destruct (Z_le_gt_dec hi i) as [Hi|Hi].
      * apply Hcopy, Hi.
      * rewrite <- append_assoc. apply (Hlater (Z.max cursor i)); [lia | exact Hrest].
    + destruct (i <? cursor) eqn:Hover; [discriminate|]. apply Z.ltb_ge in Hover.
      destruct (PatchEngine.walk text (i + n) us) as [rest|] eqn:Hrest;
        [|discriminate]. cbn in Hwalk. injection Hwalk as <-.
      destruct (Z_le_gt_dec hi i) as [Hi|Hi].
      * apply Hcopy, Hi.
      * rewrite <- append_assoc. apply (Hlater (i + n)); [lia | exact Hrest].
    + destruct (i <? cursor) eqn:Hover; [discriminate|]. apply Z.ltb_ge in Hover.
      destruct (PatchEngine.walk text (i + n) us) as [rest|] eqn:Hrest;
        [|discriminate]. cbn in Hwalk. injection Hwalk as <-.
      destruct (Z_le_gt_dec hi i) as [Hi|Hi].
      * apply Hcopy, Hi.
      * apply (Hlater (i + n)); [lia | exact Hrest].
Qed.

End Frame.

Lemma insertSorted_Forall (P : SourceTextUpdate -> Prop) u l :
  P u -> Forall P l -> Forall P (PatchEngine.insertSorted u l).
Proof.
  intros Hu Hl. induction Hl as [|v l Hv Hl IH]; cbn.
  - auto.
  - destruct (updateIndex u <? updateIndex v); auto.
Qed.

Lemma sortUpdates_Forall (P : SourceTextUpdate -> Prop) l :
  Forall P l -> Forall P (PatchEngine.sortUpdates l).
Proof.
  unfold PatchEngine.sortUpdates.
  assert (H : forall acc, Forall P acc -> Forall P l ->
            Forall P (fold_left (fun acc u => PatchEngine.insertSorted u acc) l acc)).
  { induction l as [|u l IH]; intros acc Hacc Hl; [exact Hacc|].
    apply Forall_cons in Hl as [Hu Hl]. cbn. apply IH; [|exact Hl].
    apply insertSorted_Forall; assumption. }
  intros Hl. apply H; auto.
Qed.

(** The text the patch engine returns holds every span that all the
    updates spare. *)
Lemma updateSourceText_frame text lo hi us out :
  0 <= lo <= hi ->
  Forall (spares lo hi) us ->
  updateSourceText text us = Returned out ->
  exists before after, out = before +:+ slice lo hi text +:+ after.
Proof.
  intros Hspan Hus Hout. unfold updateSourceText in Hout.
  apply (walk_frame text lo hi (proj2 Hspan) (PatchEngine.sortUpdates us) 0 out);
    [apply sortUpdates_Forall, Hus | lia | exact Hout].
Qed.

Section RunFrame.

Variable printNode : Factory.Node -> SourceFile -> string.
Variable newLine : string.
Variable getTypeFromPropTypesObjectLiteral :
  option Expression -> SourceFile -> PropTypesParams -> TypeNode.
Variable fileName : string.
Variable sourceFile : SourceFile.
Variable options : ShapeOptions.
Variable text : string.

(** The text [run] returns holds, cleaned, every span of the input that
    all the updates spare. *)
Lemma run_frame (lo hi : Z) (us : list SourceTextUpdate) (out : string) :
  0 <= lo <= hi ->
  endsWith (slice lo hi text) " " = false ->
  collectUpdates printNode newLine getTypeFromPropTypesObjectLiteral
    fileName sourceFile options = Returned us ->
  Forall (spares lo hi) us ->
  run printNode newLine getTypeFromPropTypesObjectLiteral
    fileName sourceFile options text = Returned (Some out) ->
  exists before after,
    out = before +:+ stripTrailingSpaces (slice lo hi text) +:+ after.
Proof.
  intros Hspan Hend Hus Hspare Hrun. unfold run in Hrun.
  destruct (hasPropTypesImport sourceFile); [|discriminate].
  rewrite Hus in Hrun. cbn [obind] in Hrun.
  destruct (updateSourceText text us) as [result|] eqn:Hresult; [|discriminate].
  cbn [obind] in Hrun. injection Hrun as <-.
  destruct (updateSourceText_frame _ _ _ _ _ Hspan Hspare Hresult) as (a & b & ->).
  destruct (strip_inner a (slice lo hi text) b Hend) as (a' & b' & ->).
  destruct (_ && _).
  - exists a', (b' +:+ NL). rewrite !append_assoc. reflexivity.
  - eauto.
Qed.

End RunFrame.

Section Spared.

Variable printNode : Factory.Node -> SourceFile -> string.
Variable newLine : string.
Variable getTypeFromPropTypesObjectLiteral :
  option Expression -> SourceFile -> PropTypesParams -> TypeNode.
Variable fileName : string.
Variable sourceFile : SourceFile.
Variable options : ShapeOptions.

Let visit :=
  visitStatement printNode newLine getTypeFromPropTypesObjectLiteral
    fileName sourceFile options.

Variables lo hi : Z.
Hypothesis Hlo : 0 <= lo.
Hypothesis Himports : forall i,
  In i (importDeclarations sourceFile) -> statementEnd i <= lo \/ hi <= statementEnd i.

(** A well-formed statement that lies before the span, or after it, records
    updates that spare the span; before the span it must not be a
    default-exported shape. *)
Lemma records_spares_beside (node : Statement) :
  wellFormedStatement sourceFile node ->
  (statementEnd node <= lo /\ isDefaultExportSite node = false) \/ hi <= statementPos node ->
  records (spares lo hi) (visit node).
Proof.
  intros [Hrange Hwf] Hbeside.
  destruct node as [p e m | p e mods decls | p e expression | p e n | p e n | p e];
    cbn [statementPos statementEnd isDefaultExportSite] in Hrange, Hbeside;
    try apply records_ret.
  - destruct decls as [|first rest]; [apply records_ret|].
    destruct Hwf as (Hfirst & Hlen & Hin & Hexport).
    apply records_variable_statement_of; unfold spares; cbn [leavesSpan updateLength].
    + intros _. lia.
    + intros _. lia.
    + intros _. lia.
    + intros _. lia.
    + intros Hmod. specialize (Hexport Hmod). lia.
  - apply records_export_assignment. intros Hsite.
    destruct Hbeside as [[_ Hno]|Hafter]; [congruence|].
    unfold spares; cbn [leavesSpan updateLength].
    split; [intros _; lia|]. split; [|split; intros _; lia].
    intros i _ Hi. specialize (Himports i Hi). lia.
Qed.

(** A variable statement records updates that spare its later
    declarators. *)
Lemma records_spares_later pos end_ modifiers first rest :
  wellFormedStatement sourceFile (VariableStatement pos end_ modifiers (first :: rest)) ->
  pos <= lo -> vd_end first <= lo -> hi <= end_ ->
  records (spares lo hi) (visit (VariableStatement pos end_ modifiers (first :: rest))).
Proof.
  intros [Hrange (Hfirst & Hlen & Hin & Hexport)] Hpos Hafter Hinside.
  cbn [statementPos statementEnd] in Hrange.
  apply records_variable_statement_of; unfold spares; cbn [leavesSpan updateLength].
  - intros _. lia.
  - intros _. lia.
  - intros _. lia.
  - intros _. lia.
  - intros Hmod. specialize (Hexport Hmod). lia.
Qed.

End Spared.

Section SparedSpan.

Variable printNode : Factory.Node -> SourceFile -> string.
Variable newLine : string.
Variable getTypeFromPropTypesObjectLiteral :
  option Expression -> SourceFile -> PropTypesParams -> TypeNode.
Variable fileName : string.
Variable sourceFile : SourceFile.
Variable options : ShapeOptions.
Variable text : string.

(** A span inside a statement that the updates of the statement spare, in a
    well-formed file whose other statements lie before or after the
    statement: no update of the run touches it, and the text [run] returns
    holds it, cleaned. *)
Lemma spared_span_kept (before after : list Statement) (node : Statement)
    (lo hi : Z) (out : string) :
  statements sourceFile = (before ++ node :: after)%list ->
  Forall (wellFormedStatement sourceFile) (statements sourceFile) ->
  Forall (besides (statementPos node) (statementEnd node)) (before ++ after)%list ->
  statementPos node <= lo -> lo <= hi -> hi <= statementEnd node ->
  (isImportDeclaration node = true -> statementEnd node <= lo \/ hi <= statementEnd node) ->
  records (spares lo hi)
    (visitStatement printNode newLine getTypeFromPropTypesObjectLiteral
       fileName sourceFile options node) ->
  endsWith (slice lo hi text) " " = false ->
  run printNode newLine getTypeFromPropTypesObjectLiteral
      fileName sourceFile options text = Returned (Some out) ->
  (exists updates,
     collectUpdates printNode newLine getTypeFromPropTypesObjectLiteral
       fileName sourceFile options = Returned updates /\
     Forall (leavesSpan lo hi) updates) /\
  (exists a b, out = a +:+ stripTrailingSpaces (slice lo hi text) +:+ b).
Proof.
  intros Hfile Hwf Hbesides Hpos Hspan Hinside Hself Hnode Hend Hrun.
  assert (Hwfn : forall n, In n (statements sourceFile) ->
            wellFormedStatement sourceFile n).
  { intros n Hn. rewrite Forall_forall in Hwf. apply Hwf, list_elem_of_In, Hn. }
  assert (Hrange : 0 <= statementPos node).
  { destruct (Hwfn node) as [Hrange _]; [rewrite Hfile; apply in_elt | lia]. }
  assert (Hother : forall n, In n (before ++ after)%list ->
            (statementEnd n <= lo /\ isDefaultExportSite n = false) \/
            hi <= statementPos n).
  { intros n Hn. rewrite Forall_forall in Hbesides.
    destruct (Hbesides n (proj2 (list_elem_of_In _ _) Hn)) as [[Hb Hno]|Ha];
      [left; split; [lia | exact Hno] | right; lia]. }
  assert (Hsplit : forall n, In n (statements sourceFile) ->
            n = node \/ In n (before ++ after)%list).
  { intros n Hn. rewrite Hfile in Hn. apply in_app_or in Hn as [Hn|[Hn|Hn]].
    - right. apply in_or_app. left. exact Hn.
    - left. symmetry. exact Hn.
    - right. apply in_or_app. right. exact Hn. }
  assert (Hall : forall n, In n (statements sourceFile) ->
            records (spares lo hi)
              (visitStatement printNode newLine getTypeFromPropTypesObjectLiteral
                 fileName sourceFile options n)).
  { intros n Hn. destruct (Hsplit n Hn) as [->|Hbeside]; [exact Hnode|].
    apply records_spares_beside; [lia | | apply Hwfn, Hn | apply Hother, Hbeside].
    intros i Hi. unfold importDeclarations in Hi. apply filter_In in Hi as [Hi Himport].
    destruct (Hsplit i Hi) as [->|Hibeside]; [apply Hself, Himport|].
    destruct (Hother i Hibeside) as [[Hb _]|Ha]; [left; exact Hb|].
    right. destruct (Hwfn i Hi) as [Hirange _]. lia. }
  assert (Hupdates : exists updates,
            collectUpdates printNode newLine getTypeFromPropTypesObjectLiteral
              fileName sourceFile options = Returned updates).
  { unfold run in Hrun. destruct (hasPropTypesImport sourceFile); [|discriminate].
    destruct (collectUpdates _ _ _ _ _ _) as [updates|]; [eauto | discriminate]. }
  destruct Hupdates as [updates Hupdates].
  pose proof (collectUpdates_records _ _ _ _ _ _ _ _ Hall Hupdates) as Hspared.
  split.
  - exists updates. split; [exact Hupdates|].
    eapply Forall_impl; [exact Hspared|]. intros u [Hu _]. exact Hu.
  - apply (run_frame printNode newLine getTypeFromPropTypesObjectLiteral fileName
             sourceFile options text _ _ updates); auto. lia.
Qed.

End SparedSpan.

(** ** C10: the first declarator only *)

(** C10, as stated, fails: the second declarator of
    [const A = PropTypes.shape({}), B = PropTypes.shape({  ] / [});] is given
    no alias, type or export, yet its text is not in the output: the two
    spaces that end its first line are removed. *)
Lemma C10_later_declarator_cleaned :
  slice (vd_pos Sample.brokenLineShape) (vd_end Sample.brokenLineShape) Sample.brokenLineText
  = " B = PropTypes.shape({  " +:+ NL +:+ "})" /\
  run Sample.printNode NL Sample.getType "/src/shapes.js" Sample.brokenLineFile
    Sample.options Sample.brokenLineText
  = Returned (Some
      (Sample.importLine +:+ NL +:+ NL +:+ "type A = {};" +:+ NL +:+
       "const A: PropTypes.Requireable<A> | Validator<A> = PropTypes.shape({}), "
       +:+ "B = PropTypes.shape({" +:+ NL +:+ "});" +:+ NL)) /\
  includes
    (Sample.importLine +:+ NL +:+ NL +:+ "type A = {};" +:+ NL +:+
     "const A: PropTypes.Requireable<A> | Validator<A> = PropTypes.shape({}), "
     +:+ "B = PropTypes.shape({" +:+ NL +:+ "});" +:+ NL)
    (slice (vd_pos Sample.brokenLineShape) (vd_end Sample.brokenLineShape) Sample.brokenLineText)
  = false.
Proof. repeat split; vm_compute; reflexivity. Qed.

(** C10 (amended): the updates of a variable statement are those of the
    statement cut to its first declarator. In a well-formed tree whose other
    statements lie before or after the statement (no default-exported shape
    before it), every update of the run leaves the text of a later
    declarator alone, and the text [run] returns holds that text with the
    trailing spaces of its lines removed: the text itself when no line of it
    ends in a space. *)
Theorem C10_first_declarator_only
    (printNode : Factory.Node -> SourceFile -> string) (newLine : string)
    (getTypeFromPropTypesObjectLiteral :
       option Expression -> SourceFile -> PropTypesParams -> TypeNode)
    (fileName : string) (sourceFile : SourceFile) (options : ShapeOptions)
    (text : string) (before after : list Statement)
    (pos end_ : Z) (modifiers : list ModifierKind)
    (first later : VariableDeclaration) (rest : list VariableDeclaration)
    (out : string) :
  statements sourceFile
  = (before ++ VariableStatement pos end_ modifiers (first :: rest) :: after)%list ->
  Forall (wellFormedStatement sourceFile) (statements sourceFile) ->
  Forall (besides pos end_) (before ++ after)%list ->
  In later rest ->
  vd_end first <= vd_pos later ->
  vd_pos later <= vd_end later ->
  vd_end later <= end_ ->
  endsWith (slice (vd_pos later) (vd_end later) text) " " = false ->
  run printNode newLine getTypeFromPropTypesObjectLiteral
      fileName sourceFile options text = Returned (Some out) ->
  (forall s,
     visitStatement printNode newLine getTypeFromPropTypesObjectLiteral
       fileName sourceFile options
       (VariableStatement pos end_ modifiers (first :: rest)) s
     = visitStatement printNode newLine getTypeFromPropTypesObjectLiteral
         fileName sourceFile options
         (VariableStatement pos end_ modifiers [first]) s) /\
  (exists updates,
     collectUpdates printNode newLine getTypeFromPropTypesObjectLiteral
       fileName sourceFile options = Returned updates /\
     Forall (leavesSpan (vd_pos later) (vd_end later)) updates) /\
  (exists a b,
     out = a +:+ stripTrailingSpaces (slice (vd_pos later) (vd_end later) text) +:+ b) /\
  (hasTrailingSpace (slice (vd_pos later) (vd_end later) text) = false ->
   exists a b, out = a +:+ slice (vd_pos later) (vd_end later) text +:+ b).
Proof.
  intros Hfile Hwf Hbesides Hin Hafter Hlater Hinside Hend Hrun.
  split; [reflexivity|].
  assert (Hnode : wellFormedStatement sourceFile
                    (VariableStatement pos end_ modifiers (first :: rest))).
  { rewrite Forall_forall in Hwf. apply Hwf. rewrite Hfile.
    apply list_elem_of_In, in_elt. }
  pose proof Hnode as [Hrange (Hfirst & Hlen & Hfirstin & _)].
  cbn [statementPos statementEnd] in Hrange.
  pose proof (spared_span_kept printNode newLine getTypeFromPropTypesObjectLiteral
                fileName sourceFile options text before after
                (VariableStatement pos end_ modifiers (first :: rest))
                (vd_pos later) (vd_end later) out Hfile Hwf Hbesides) as Hkept.
  cbn [statementPos statementEnd isImportDeclaration] in Hkept.
  destruct Hkept as [Hupdates Hframe];
    [lia | lia | lia | discriminate
    | apply records_spares_later; [lia | exact Hnode | lia | lia | lia]
    | exact Hend | exact Hrun |].
  split; [exact Hupdates|]. split; [exact Hframe|].
  intros Hclean. rewrite (strip_fixed _ Hclean) in Hframe. exact Hframe.
Qed.

(** On [export const A = PropTypes.shape({}), B = PropTypes.shape({});]. *)
Lemma C10_first_declarator_only_witness :
  (forall s,
     visitStatement Sample.printNode NL Sample.getType "/src/shapes.js"
       Sample.twoShapesFile Sample.options Sample.twoShapesStatement s
     = visitStatement Sample.printNode NL Sample.getType "/src/shapes.js"
         Sample.twoShapesFile Sample.options
         (VariableStatement 35 98 [ExportKeyword]
            [mkVariableDeclaration 48 72 "A" None (Some Sample.shapeCall)]) s) /\
  (exists updates,
     collectUpdates Sample.printNode NL Sample.getType "/src/shapes.js"
       Sample.twoShapesFile Sample.options = Returned updates /\
     Forall (leavesSpan 73 97) updates) /\
  (exists a b,
     Sample.importLine +:+ NL +:+ NL +:+ "type A = {};" +:+ NL +:+
     "const A: PropTypes.Requireable<A> | Validator<A> = PropTypes.shape({}), "
     +:+ "B = PropTypes.shape({});" +:+ NL +:+ "export { A };" +:+ NL
     = a +:+ stripTrailingSpaces (slice 73 97 Sample.twoShapesText) +:+ b) /\
  (hasTrailingSpace (slice 73 97 Sample.twoShapesText) = false ->
   exists a b,
     Sample.importLine +:+ NL +:+ NL +:+ "type A = {};" +:+ NL +:+
     "const A: PropTypes.Requireable<A> | Validator<A> = PropTypes.shape({}), "
     +:+ "B = PropTypes.shape({});" +:+ NL +:+ "export { A };" +:+ NL
     = a +:+ slice 73 97 Sample.twoShapesText +:+ b).
Proof.
  apply (C10_first_declarator_only Sample.printNode NL Sample.getType "/src/shapes.js"
           Sample.twoShapesFile Sample.options Sample.twoShapesText
           [Sample.importStatement] [] 35 98 [ExportKeyword]
           (mkVariableDeclaration 48 72 "A" None (Some Sample.shapeCall))
           Sample.secondShape [Sample.secondShape]).
  - reflexivity.
  - apply Forall_cons. split; [split; [cbn; lia | exact I]|].
    apply Forall_cons. split; [|constructor].
    split; [cbn; lia|]. cbn.
    split; [lia|]. split; [lia|]. split; [lia|].
    intros _. vm_compute. split; discriminate.
  - apply Forall_cons. split; [|constructor].
    left. cbn. split; [lia | reflexivity].
  - left. reflexivity.
  - cbn. lia.
  - cbn. lia.
  - cbn. lia.
  - vm_compute. reflexivity.
  - vm_compute. reflexivity.
Defined.

Example C10_two_shapes_updates :
  collectUpdates Sample.printNode NL Sample.getType "/src/shapes.js"
    Sample.twoShapesFile Sample.options
  = Returned
      [InsertUpdate 35 (NL +:+ NL +:+ "type A = {};");
       ReplaceUpdate 49 23
         "A: PropTypes.Requireable<A> | Validator<A> = PropTypes.shape({})";
       DeleteUpdate 36 7;
       InsertUpdate 98 (NL +:+ "export { A };")].
Proof. vm_compute. reflexivity. Qed.

(** ** C3: a default-exported shape *)

(** What the loop records for a default-exported shape call: the alias,
    named from the base name of the file, after the last import; a
    replacement at [pos] whose text is the constant declaration with the
    union type and the call as initializer; the default re-export at [end].
    The length of the replacement is [end], not [end - pos]. *)
Lemma default_export_updates
    (printNode : Factory.Node -> SourceFile -> string) (newLine : string)
    (getTypeFromPropTypesObjectLiteral :
       option Expression -> SourceFile -> PropTypesParams -> TypeNode)
    (fileName : string) (sourceFile : SourceFile) (options : ShapeOptions)
    (pos end_ : Z) (expression : Expression) (lastImport : Statement) (s : RunState) :
  isShapeCall expression = true ->
  List.last (map Some (importDeclarations sourceFile)) None = Some lastImport ->
  shouldAddPropTypesImport s = false ->
  visitStatement printNode newLine getTypeFromPropTypesObjectLiteral
    fileName sourceFile options (ExportAssignment pos end_ expression) s
  = Returned (tt, mkRunState false
      (updates s ++
       [InsertUpdate (statementEnd lastImport)
          (NL +:+ NL +:+
           printClean printNode
             (Factory.TypeAliasDeclaration (splitHead "."%char (baseName fileName))
                (getTypeFromPropTypesObjectLiteral (callArguments expression !! 0%nat)
                   sourceFile
                   (mkPropTypesParams (shape_anyAlias options)
                      (shape_anyFunctionAlias options) [])))
             sourceFile);
        ReplaceUpdate pos end_
          (newLine +:+
           printClean printNode
             (Factory.VariableStatement []
                [Factory.VariableDeclaration (splitHead "."%char (baseName fileName))
                   (Some (getShapeTypeNode (splitHead "."%char (baseName fileName))))
                   (Some expression)]
                Factory.Const)
             sourceFile);
        InsertUpdate end_
          (newLine +:+
           printClean printNode
             (Factory.ExportAssignment (splitHead "."%char (baseName fileName)))
             sourceFile)])).
Proof.
  intros Hshape Hlast Hflag.
  destruct expression as [t callee args | |]; try discriminate Hshape.
  destruct args as [|[| obj |] args]; try discriminate Hshape.
  cbn in Hshape. cbn [visitStatement lookup list_lookup].
  unfold bind, lift, when, push, insertPropTypesRequireableNode. cbn.
  rewrite Hshape, Hflag, Hlast. cbn.
  destruct s as [flag ups]. cbn in Hflag |- *. subst flag.
  rewrite <- !app_assoc. reflexivity.
Qed.

(** C3 (defect of the code): on a file where a statement follows the
    default-exported shape, the replacement recorded for the default export
    starts at its [pos], 35, with length 71, its [end]: the statement is 36
    characters long, and the range reaches past the statement after it. *)
Theorem C3_default_export_replace_overruns
    (printNode : Factory.Node -> SourceFile -> string) (newLine : string)
    (getTypeFromPropTypesObjectLiteral :
       option Expression -> SourceFile -> PropTypesParams -> TypeNode) :
  collectUpdates printNode newLine getTypeFromPropTypesObjectLiteral
    "/src/FooShape.js" Sample.defaultExportFile Sample.options
  = Returned
      [InsertUpdate 35
         (NL +:+ NL +:+
          printClean printNode
            (Factory.TypeAliasDeclaration "FooShape"
               (getTypeFromPropTypesObjectLiteral (Some (ObjectLiteralExpression "{}"))
                  Sample.defaultExportFile (mkPropTypesParams None None [])))
            Sample.defaultExportFile);
       ReplaceUpdate 35 71
         (newLine +:+
          printClean printNode
            (Factory.VariableStatement []
               [Factory.VariableDeclaration "FooShape"
                  (Some (getShapeTypeNode "FooShape")) (Some Sample.shapeCall)]
               Factory.Const)
            Sample.defaultExportFile);
       InsertUpdate 71
         (newLine +:+
          printClean printNode (Factory.ExportAssignment "FooShape")
            Sample.defaultExportFile)] /\
  statements Sample.defaultExportFile
  = [Sample.importStatement;
     ExportAssignment 35 71 Sample.shapeCall;
     VariableStatement 71 91 [ExportKeyword]
       [mkVariableDeclaration 84 90 "n" None (Some (OtherExpression "1"))]] /\
  71 - 35 < 71 /\ 91 < 35 + 71.
Proof.
  split; [vm_compute; reflexivity|]. repeat split; lia.
Qed.

(** With the sample printer and the patch engine of the specification the
    statement after the default export is lost. *)
Example C3_following_statement_lost :
  run Sample.printNode NL Sample.getType "/src/FooShape.js"
    Sample.defaultExportFile Sample.options Sample.defaultExportText
  = Returned (Some
      (Sample.importLine +:+ NL +:+ NL +:+ "type FooShape = {};" +:+ NL +:+
       "const FooShape: PropTypes.Requireable<FooShape> | Validator<FooShape> = PropTypes.shape({});"
       +:+ NL +:+ "export default FooShape;" +:+ NL)).
Proof. vm_compute. reflexivity. Qed.

(** ** C4: the export split *)

(** What [splitVariableExport] records: the removal of seven characters at
    the first [export] of the full text of the statement, and the named
    export after the statement. *)
Lemma splitVariableExport_updates
    (printNode : Factory.Node -> SourceFile -> string)
    (sourceFile : SourceFile) (node : Statement) (shapeName : string) (s : RunState) :
  splitVariableExport printNode sourceFile node shapeName s
  = Returned (tt, mkRunState (shouldAddPropTypesImport s)
      (updates s ++
       [DeleteUpdate (statementPos node + indexOf (getFullText sourceFile node) "export") 7;
        InsertUpdate (statementEnd node)
          (NL +:+ printClean printNode (Factory.ExportDeclaration false [shapeName])
                    sourceFile)])).
Proof.
  unfold splitVariableExport, bind, push. cbn. rewrite <- app_assoc. reflexivity.
Qed.

(** C4 (defect of the code): the export keyword is looked for with
    [indexOf] in the full text of the statement, which starts with the
    comment above it. On a statement under the comment [// export shape] the
    seven characters removed, from 39, are those of the comment; the keyword
    of the statement, at 52, is not removed. *)
Theorem C4_export_removed_from_comment
    (printNode : Factory.Node -> SourceFile -> string) (newLine : string)
    (getTypeFromPropTypesObjectLiteral :
       option Expression -> SourceFile -> PropTypesParams -> TypeNode) :
  collectUpdates printNode newLine getTypeFromPropTypesObjectLiteral
    "/src/Bar.js" Sample.commentedExportFile Sample.options
  = Returned
      [InsertUpdate 35
         (NL +:+ NL +:+
          printClean printNode
            (Factory.TypeAliasDeclaration "Bar"
               (getTypeFromPropTypesObjectLiteral (Some (ObjectLiteralExpression "{}"))
                  Sample.commentedExportFile (mkPropTypesParams None None [])))
            Sample.commentedExportFile);
       ReplaceUpdate 65 25
         (printClean printNode
            (Factory.Declaration
               (Factory.VariableDeclaration "Bar" (Some (getShapeTypeNode "Bar"))
                  (Some Sample.shapeCall)))
            Sample.commentedExportFile);
       DeleteUpdate 39 7;
       InsertUpdate 91
         (NL +:+ printClean printNode (Factory.ExportDeclaration false ["Bar"])
                   Sample.commentedExportFile)] /\
  slice 36 51 Sample.commentedExportText = "// export shape" /\
  slice 39 (39 + 7) Sample.commentedExportText = "export " /\
  slice 52 91 Sample.commentedExportText = "export const Bar = PropTypes.shape({});".
Proof.
  split; [vm_compute; reflexivity|]. repeat split.
Qed.

(** With the sample printer: the comment loses a word, the statement keeps
    [export], and [Bar] is exported twice. *)
Example C4_exported_twice :
  run Sample.printNode NL Sample.getType "/src/Bar.js"
    Sample.commentedExportFile Sample.options Sample.commentedExportText
  = Returned (Some
      (Sample.importLine +:+ NL +:+ NL +:+ "type Bar = {};" +:+ NL +:+
       "// shape" +:+ NL +:+
       "export const Bar: PropTypes.Requireable<Bar> | Validator<Bar> = PropTypes.shape({});"
       +:+ NL +:+ "export { Bar };" +:+ NL)).
Proof. vm_compute. reflexivity. Qed.

(** Without a comment the keyword itself is removed. *)
Example C4_plain_export_split :
  collectUpdates Sample.printNode NL Sample.getType "/src/shapes.js"
    (mkSourceFile
       (Sample.importLine +:+ NL +:+ "export const Bar = PropTypes.shape({});" +:+ NL)
       [Sample.importStatement;
        VariableStatement 35 75 [ExportKeyword]
          [mkVariableDeclaration 48 74 "Bar" None (Some Sample.shapeCall)]])
    Sample.options
  = Returned
      [InsertUpdate 35 (NL +:+ NL +:+ "type Bar = {};");
       ReplaceUpdate 49 25
         "Bar: PropTypes.Requireable<Bar> | Validator<Bar> = PropTypes.shape({})";
       DeleteUpdate 36 7;
       InsertUpdate 75 (NL +:+ "export { Bar };")].
Proof. vm_compute. reflexivity. Qed.

(** ** C6: a second run *)

Lemma countLF_app (a b : string) : countLF (a +:+ b) = (countLF a + countLF b)%nat.
Proof. induction a as [|c a IH]; simpl; [reflexivity|]. rewrite IH. lia. Qed.

(** Cleaning removes spaces only. *)
Lemma countLF_strip (s : string) : countLF (stripTrailingSpaces s) = countLF s.
Proof.
  induction s as [|c r IH]; simpl; [reflexivity|].
  destruct (Ascii.eqb c SPACE) eqn:Hc; cbn [andb].
  - apply Ascii.eqb_eq in Hc. subst c. cbn.
    destruct (atLineEnd (stripTrailingSpaces r)); simpl; rewrite IH; reflexivity.
  - simpl. rewrite IH. reflexivity.
Qed.

Lemma updateSourceText_insert (text : string) (i : Z) (t : string) :
  0 <= i ->
  updateSourceText text [InsertUpdate i t]
  = Returned (slice 0 i text +:+ t +:+ substringFrom (Z.to_nat i) text).
Proof.
  intros Hi. unfold updateSourceText. cbn.
  rewrite Z.max_r by exact Hi. reflexivity.
Qed.

(** C6 (defect of the code): the transform is not idempotent on an array of
    shapes. With a printer that writes the alias as [type Foos = {}[];], the
    first run inserts the alias before the statement and leaves the
    declarator untyped; a second run, on that output and its tree, inserts
    an alias again, so its output differs from its input. *)
Theorem C6_array_of_shapes_alias_twice
    (printNode : Factory.Node -> SourceFile -> string) (newLine : string)
    (getTypeFromPropTypesObjectLiteral :
       option Expression -> SourceFile -> PropTypesParams -> TypeNode) :
  printNode
    (Factory.TypeAliasDeclaration "Foos"
       (ArrayTypeNode
          (getTypeFromPropTypesObjectLiteral (Some (ObjectLiteralExpression "{}"))
             Sample.arrayOfFile (mkPropTypesParams None None []))))
    Sample.arrayOfFile
  = "type Foos = {}[];" ->
  run printNode newLine getTypeFromPropTypesObjectLiteral "/src/Foos.js"
    Sample.arrayOfFile Sample.options Sample.arrayOfText
  = Returned (Some Sample.arrayOfOnce) /\
  exists twice,
    run printNode newLine getTypeFromPropTypesObjectLiteral "/src/Foos.js"
      Sample.arrayOfOnceFile Sample.options Sample.arrayOfOnce
    = Returned (Some twice) /\
    twice <> Sample.arrayOfOnce.
Proof.
  intros Hprint. split.
  - assert (Hupdates :
      collectUpdates printNode newLine getTypeFromPropTypesObjectLiteral
        "/src/Foos.js" Sample.arrayOfFile Sample.options
      = Returned [InsertUpdate 35 (NL +:+ NL +:+ "type Foos = {}[];")]).
    { unfold collectUpdates. cbn. unfold printClean, getTypeForTheShape. cbn.
      rewrite Hprint. reflexivity. }
    unfold run. rewrite Hupdates. vm_compute. reflexivity.
  - assert (Hupdates : exists alias,
      collectUpdates printNode newLine getTypeFromPropTypesObjectLiteral
        "/src/Foos.js" Sample.arrayOfOnceFile Sample.options
      = Returned [InsertUpdate 54 (NL +:+ NL +:+ alias)]).
    { eexists. unfold collectUpdates. cbn. reflexivity. }
    destruct Hupdates as [alias Hupdates].
    unfold run. rewrite Hupdates.
    change (hasPropTypesImport Sample.arrayOfOnceFile) with (Some Sample.importStatement).
    cbn [obind]. rewrite updateSourceText_insert by lia. cbn [obind].
    eexists. split; [reflexivity|].
    intros Heq. apply (f_equal countLF) in Heq. revert Heq.
    match goal with
    | |- countLF (if ?b then _ else _) = _ -> _ => destruct b
    end; rewrite ?countLF_app, countLF_strip, !countLF_app;
      generalize (countLF alias); intros n;
      replace (countLF (slice 0 54 Sample.arrayOfOnce)) with 2%nat
        by (vm_compute; reflexivity);
      replace (countLF (substringFrom (Z.to_nat 54) Sample.arrayOfOnce)) with 2%nat
        by (vm_compute; reflexivity);
      replace (countLF Sample.arrayOfOnce) with 4%nat by (vm_compute; reflexivity);
      cbn; lia.
Qed.

Lemma C6_array_of_shapes_alias_twice_witness :
  run Sample.printNode NL Sample.getType "/src/Foos.js"
    Sample.arrayOfFile Sample.options Sample.arrayOfText
  = Returned (Some Sample.arrayOfOnce) /\
  exists twice,
    run Sample.printNode NL Sample.getType "/src/Foos.js"
      Sample.arrayOfOnceFile Sample.options Sample.arrayOfOnce
    = Returned (Some twice) /\
    twice <> Sample.arrayOfOnce.
Proof.
  apply (C6_array_of_shapes_alias_twice Sample.printNode NL Sample.getType).
  reflexivity.
Defined.

(** With the sample printer: the second run writes the alias a second
    time. *)
Example C6_second_run :
  run Sample.printNode NL Sample.getType "/src/Foos.js"
    Sample.arrayOfOnceFile Sample.options Sample.arrayOfOnce
  = Returned (Some
      (Sample.importLine +:+ NL +:+ NL +:+ "type Foos = {}[];" +:+ NL +:+ NL +:+
       "type Foos = {}[];" +:+ NL +:+
       "const Foos = PropTypes.arrayOf(PropTypes.shape({}));" +:+ NL)).
Proof. vm_compute. reflexivity. Qed.

(** The sibling path: a shape whose alias is declared in the file gets no
    second alias, and once its declarator is typed it is no site at all. *)
Example C6_shape_path_checks_alias :
  collectUpdates Sample.printNode NL Sample.getType "/src/Foo.js"
    Sample.aliasedShapeFile Sample.options
  = Returned
      [ReplaceUpdate 58 25
         "Foo: PropTypes.Requireable<Foo> | Validator<Foo> = PropTypes.shape({})"] /\
  slice 58 (58 + 25) Sample.aliasedShapeText = "Foo = PropTypes.shape({})".
Proof. split; vm_compute; reflexivity. Qed.

(** * Further properties of the code *)

(** ** The type visitor *)

(** Induction on type nodes with a hypothesis for the type arguments of a
    reference. *)
Lemma TypeNode_args_ind (P : TypeNode -> Prop)
    (Hkeyword : forall kind, P (KeywordTypeNode kind))
    (Hall : P JSDocAllType)
    (Hunknown : P JSDocUnknownType)
    (Hoptional : forall type, P type -> P (JSDocOptionalType type))
    (Hnonnull : forall type, P type -> P (JSDocNonNullableType type))
    (Hnullable : forall type, P type -> P (JSDocNullableType type))
    (Hvariadic : forall type, P type -> P (JSDocVariadicType type))
    (Hfunction : forall parameters type, P (JSDocFunctionType parameters type))
    (Harray : forall elementType, P elementType -> P (ArrayTypeNode elementType))
    (Hreference : forall typeName typeArguments,
        (forall args, typeArguments = Some args -> Forall P args) ->
        P (TypeReferenceNode typeName typeArguments))
    (Hliteral : forall tags, P (JSDocTypeLiteral tags))
    (Hunion : forall types, P (UnionTypeNode types))
    (Hnull : P LiteralTypeNodeNull)
    (Hfunctiontype : forall parameters type, P (FunctionTypeNode parameters type))
    (Htypeliteral : forall members, P (TypeLiteralNode members))
    (Hother : forall text, P (OtherTypeNode text)) :
  forall node, P node.
Proof.
  fix IH 1. intros node. destruct node as
    [kind | | | type | type | type | type | parameters type | elementType
    | typeName typeArguments | tags | types | | parameters type | members | text].
  - apply Hkeyword.
  - apply Hall.
  - apply Hunknown.
  - apply Hoptional, IH.
  - apply Hnonnull, IH.
  - apply Hnullable, IH.
  - apply Hvariadic, IH.
  - apply Hfunction.
  - apply Harray, IH.
  - apply Hreference. destruct typeArguments as [args0|]; [|discriminate].
    intros args Heq. injection Heq as <-.
    induction args0 as [|arg args0 IHargs]; constructor; [apply IH | exact IHargs].
  - apply Hliteral.
  - apply Hunion.
  - apply Hnull.
  - apply Hfunctiontype.
  - apply Htypeliteral.
  - apply Hother.
Qed.

(** What [primitiveKeywordNode] gives is a keyword type. *)
Lemma primitiveKeywordNode_keyword name node :
  primitiveKeywordNode name = Some node -> exists kind, node = KeywordTypeNode kind.
Proof.
  unfold primitiveKeywordNode. destruct (PRIMITIVE_KEYWORDS !! name); [|discriminate].
  intros H. injection H as <-. eauto.
Qed.

Lemma anyTypeOf_kind options : isDocumentaryKind (anyTypeOf options) = false.
Proof.
  unfold anyTypeOf. destruct (anyAlias options) as [alias|]; [|reflexivity].
  destruct (truthy alias); reflexivity.
Qed.

Lemma visitJSDocType_kind anyType typeMap node :
  isDocumentaryKind anyType = false ->
  isDocumentaryKind (visitJSDocType anyType typeMap node) = false.
Proof.
  intros Hany.
  induction node as
    [kind | | | type IH | type IH | type IH | type IH | parameters type
    | elementType IH | typeName typeArguments _ | tags | types | | parameters type
    | members | text] using TypeNode_args_ind;
    cbn [visitJSDocType]; try reflexivity; try assumption.
  unfold visitJSDocTypeReferenceWith.
  match goal with
  | |- context [isJSDocIndexSignature ?name ?args] =>
      destruct (isJSDocIndexSignature name args); [reflexivity|];
      destruct name as [text0|]; [|reflexivity]
  end.
  destruct (resolveTypeName typeMap text0) as [text accepts].
  destruct (primitiveKeywordNode text) as [primitive|] eqn:Hprimitive.
  - apply primitiveKeywordNode_keyword in Hprimitive as [kind ->]. reflexivity.
  - destruct (_ && _); reflexivity.
Qed.

(** X1: whatever the options, the type the visitor gives for a documentary
    type is never itself of a documentary kind (all, unknown, optional,
    non-nullable, nullable, variadic, documentary function or documentary
    literal): the wrappers are resolved at the top of the type. *)
Theorem X1_visited_type_is_no_documentary_kind
    (options : JsDocOptions) (node : TypeNode) :
  isDocumentaryKind (visitJSDocType (anyTypeOf options) (typeMapOf options) node) = false.
Proof. apply visitJSDocType_kind, anyTypeOf_kind. Qed.

(** The default alias table: a resolved name is never [Object], resolving
    it again changes nothing, and [Array] and [Promise] keep their type
    arguments. *)
Lemma resolveTypeName_default text0 text accepts :
  resolveTypeName defaultTypeMap text0 = (text, accepts) ->
  primitiveKeywordNode text = None ->
  String.eqb text "Object" = false /\
  resolveTypeName defaultTypeMap text = (text, accepts) /\
  (String.eqb text "Array" || String.eqb text "Promise" = true -> accepts = true).
Proof.
  unfold resolveTypeName at 1.
  destruct (defaultTypeMap !! text0) as [entry|] eqn:Hentry.
  - apply elem_of_list_to_map_2 in Hentry.
    repeat (apply elem_of_cons in Hentry as [Hentry|Hentry];
            [injection Hentry as -> ->; cbn; intros Heq; injection Heq as <- <-;
             intros Hprimitive; try discriminate Hprimitive;
             (split; [reflexivity|]; split; [vm_compute; reflexivity|]);
             cbn; intros; congruence |]).
    apply elem_of_nil in Hentry. contradiction.
  - intros Heq. injection Heq as <- <-. intros _.
    split; [|split].
    + destruct (String.eqb text0 "Object") eqn:Heq; [|reflexivity].
      apply String.eqb_eq in Heq. subst text0. discriminate Hentry.
    + unfold resolveTypeName. rewrite Hentry. reflexivity.
    + reflexivity.
Qed.

Lemma typeMapOf_default returns :
  typeMapOf (mkJsDocOptions returns None None) = defaultTypeMap.
Proof. unfold typeMapOf. cbn. apply (left_id_L ∅ (∪)). Qed.

Section Idempotence.

Let visit := visitJSDocType (KeywordTypeNode AnyKeyword) defaultTypeMap.

Lemma normalizeArg_idempotent arg :
  visit (visit arg) = visit arg ->
  normalizeArg visit (normalizeArg visit arg) = normalizeArg visit arg.
Proof.
  intros IH. unfold normalizeArg.
  destruct (visit arg) as
    [kind | | | type | type | type | type | parameters type | elementType
    | typeName typeArguments | tags | types | | parameters type | members | text] eqn:Hvisit;
    try (rewrite IH; reflexivity).
  destruct typeName as [name|]; [|rewrite IH; reflexivity].
  destruct (primitiveKeywordNode name) as [primitive|] eqn:Hprimitive.
  - apply primitiveKeywordNode_keyword in Hprimitive as [kind ->]. reflexivity.
  - rewrite IH, Hprimitive. reflexivity.
Qed.

(** A reference the factory built is visited like the reference written
    with the same type arguments. *)
Lemma createTypeReferenceNode_nonempty typeName arg args :
  createTypeReferenceNode typeName (Some (arg :: args))
  = TypeReferenceNode typeName (Some (arg :: args)).
Proof. reflexivity. Qed.

Lemma visitJSDocType_idempotent_default node :
  noEmptyTypeArguments node = true -> visit (visit node) = visit node.
Proof.
  induction node as
    [kind | | | type IH | type IH | type IH | type IH | parameters type
    | elementType IH | typeName typeArguments IH | tags | types | | parameters type
    | members | text] using TypeNode_args_ind; intros Hargs; try reflexivity.
  - apply IH, Hargs.
  - apply IH, Hargs.
  - unfold visit in *. cbn [visitJSDocType] in *. rewrite (IH Hargs). reflexivity.
  - unfold visit in *. cbn [visitJSDocType] in *. rewrite (IH Hargs). reflexivity.
  - unfold visit at 2 3. cbn [visitJSDocType]. unfold visitJSDocTypeReferenceWith.
    destruct (isJSDocIndexSignature typeName typeArguments); [reflexivity|].
    destruct typeName as [text0|].
    2:{ destruct typeArguments as [[|arg args]|]; [discriminate Hargs| |]; reflexivity. }
    destruct (resolveTypeName defaultTypeMap text0) as [text accepts] eqn:Hresolve.
    destruct (primitiveKeywordNode text) as [primitive|] eqn:Hprimitive.
    { apply primitiveKeywordNode_keyword in Hprimitive as [kind ->]. reflexivity. }
    destruct (resolveTypeName_default _ _ _ Hresolve Hprimitive)
      as (Hobject & Hstable & Harray).
    fold visit.
    assert (Hagain : forall args,
              visit (TypeReferenceNode (Identifier text) args)
              = if (String.eqb text "Array" || String.eqb text "Promise")
                   && negb (bool_decide (is_Some args))
                then createTypeReferenceNode (Identifier text)
                       (Some [KeywordTypeNode AnyKeyword])
                else createTypeReferenceNode (Identifier text)
                       (match args with
                        | Some args0 =>
                            if accepts then Some (map (normalizeArg visit) args0) else None
                        | None => None
                        end)).
    { intros args. unfold visit at 1. cbn [visitJSDocType].
      unfold visitJSDocTypeReferenceWith. fold visit.
      replace (isJSDocIndexSignature (Identifier text) args) with false.
      - rewrite Hstable, Hprimitive. reflexivity.
      - destruct args as [args|]; [|reflexivity]. cbn [isJSDocIndexSignature].
        rewrite Hobject. reflexivity. }
    destruct ((String.eqb text "Array" || String.eqb text "Promise")
              && negb (bool_decide (is_Some typeArguments))) eqn:Hbare.
    + apply andb_true_iff in Hbare as [Hname _].
      rewrite createTypeReferenceNode_nonempty, Hagain, Hname, (Harray Hname).
      reflexivity.
    + destruct typeArguments as [[|arg args]|]; [discriminate Hargs| |].
      * change (forallb noEmptyTypeArguments (arg :: args) = true) in Hargs.
        pose proof (proj1 (forallb_forall _ _) Hargs) as Hall. clear Hargs.
        rename Hall into Hargs.
        destruct accepts.
        -- cbn [map]. rewrite createTypeReferenceNode_nonempty, Hagain.
           rewrite andb_false_r. cbn [map]. rewrite createTypeReferenceNode_nonempty.
           specialize (IH _ eq_refl).
           f_equal. f_equal. f_equal.
           ++ apply normalizeArg_idempotent. apply Forall_inv in IH. apply IH.
              apply Hargs. left. reflexivity.
           ++ rewrite map_map. apply map_ext_Forall. apply Forall_inv_tail in IH.
              apply Forall_forall. intros a Ha. apply normalizeArg_idempotent.
              rewrite Forall_forall in IH. apply IH; [exact Ha|].
              apply Hargs. right. apply list_elem_of_In, Ha.
        -- destruct (String.eqb text "Array" || String.eqb text "Promise") eqn:Hname;
             [specialize (Harray eq_refl); discriminate|].
           change (createTypeReferenceNode (Identifier text) None)
             with (TypeReferenceNode (Identifier text) None).
           rewrite Hagain. reflexivity.
      * change (createTypeReferenceNode (Identifier text) None)
          with (TypeReferenceNode (Identifier text) None).
        rewrite Hagain, Hbare. reflexivity.
Qed.

End Idempotence.

(** X2: under the default alias table and without an alias for the unknown
    type, visiting a visited type changes nothing, for every documentary
    type in which no type reference is written with an empty list of type
    arguments: a second pass of the type visitor over its own result is the
    identity. *)
Theorem X2_type_visitor_idempotent (returns : option bool) (node : TypeNode) :
  noEmptyTypeArguments node = true ->
  visitJSDocType (anyTypeOf (mkJsDocOptions returns None None))
    (typeMapOf (mkJsDocOptions returns None None))
    (visitJSDocType (anyTypeOf (mkJsDocOptions returns None None))
       (typeMapOf (mkJsDocOptions returns None None)) node)
  = visitJSDocType (anyTypeOf (mkJsDocOptions returns None None))
      (typeMapOf (mkJsDocOptions returns None None)) node.
Proof.
  rewrite typeMapOf_default. apply visitJSDocType_idempotent_default.
Qed.

(** At [Array<Promise, ...String>], which the first pass turns into
    [Array<Promise<any>, string[]>]. *)
Lemma X2_type_visitor_idempotent_witness :
  visitJSDocType (anyTypeOf defaultOptions) (typeMapOf defaultOptions)
    (visitJSDocType (anyTypeOf defaultOptions) (typeMapOf defaultOptions)
       (TypeReferenceNode (Identifier "Array")
          (Some [TypeReferenceNode (Identifier "Promise") None;
                 JSDocVariadicType (TypeReferenceNode (Identifier "String") None)])))
  = visitJSDocType (anyTypeOf defaultOptions) (typeMapOf defaultOptions)
      (TypeReferenceNode (Identifier "Array")
         (Some [TypeReferenceNode (Identifier "Promise") None;
                JSDocVariadicType (TypeReferenceNode (Identifier "String") None)])).
Proof.
  apply (X2_type_visitor_idempotent None
           (TypeReferenceNode (Identifier "Array")
              (Some [TypeReferenceNode (Identifier "Promise") None;
                     JSDocVariadicType (TypeReferenceNode (Identifier "String") None)]))).
  reflexivity.
Defined.

Example nested_generics_visited :
  visitJSDocType (anyTypeOf defaultOptions) (typeMapOf defaultOptions)
    (TypeReferenceNode (Identifier "Array")
       (Some [TypeReferenceNode (Identifier "Promise") None;
              JSDocVariadicType (TypeReferenceNode (Identifier "String") None)]))
  = TypeReferenceNode (Identifier "Array")
      (Some [TypeReferenceNode (Identifier "Promise") (Some [KeywordTypeNode AnyKeyword]);
             ArrayTypeNode (KeywordTypeNode StringKeyword)]).
Proof. vm_compute. reflexivity. Qed.

(** The hypothesis is needed: the factory drops the empty list of [Array<>],
    so the first pass gives the bare [Array] and the second [Array<any>]. *)
Example empty_type_arguments_visited_twice :
  visitJSDocType (KeywordTypeNode AnyKeyword) defaultTypeMap
    (TypeReferenceNode (Identifier "Array") (Some []))
  = TypeReferenceNode (Identifier "Array") None /\
  visitJSDocType (KeywordTypeNode AnyKeyword) defaultTypeMap
    (TypeReferenceNode (Identifier "Array") None)
  = TypeReferenceNode (Identifier "Array") (Some [KeywordTypeNode AnyKeyword]).
Proof. split; vm_compute; reflexivity. Qed.

(** ** Nested object types *)

Lemma buildNestedTypeFuel_ge anyType typeMap allTags (n m : nat) prefix ty :
  (n <= m)%nat ->
  buildNestedTypeFuel anyType typeMap n prefix allTags = Some ty ->
  buildNestedTypeFuel anyType typeMap m prefix allTags = Some ty.
Proof.
  intros Hle Hn. induction Hle as [|m Hle IH]; [exact Hn|].
  apply buildNestedTypeFuel_more, IH.
Qed.

(** X3: [buildNestedType] terminates on every prefix and every list of
    tags. Each call of it on a longer prefix is made only when some tag name
    extends that prefix, so one more level than the longest tag name has
    characters is enough, and any larger bound gives the same type. *)
Theorem X3_buildNestedType_terminates
    (anyType : TypeNode) (typeMap : gmap string TypeOptions)
    (allTags : list JSDocParameterTag) (prefix : string) (fuel : nat) :
  (maxTagNameLength allTags < fuel)%nat ->
  buildNestedTypeFuel anyType typeMap fuel prefix allTags
  = Some (buildNestedType anyType typeMap prefix allTags).
Proof.
  intros Hfuel.
  apply (buildNestedTypeFuel_ge _ _ _ (S (maxTagNameLength allTags))); [lia|].
  apply buildNestedType_total.
Qed.

Lemma X3_buildNestedType_terminates_witness :
  buildNestedTypeFuel (KeywordTypeNode AnyKeyword) defaultTypeMap 40 "opts"
    (fn_jsDocParameterTags SampleSignatures.optsFunction)
  = Some (buildNestedType (KeywordTypeNode AnyKeyword) defaultTypeMap "opts"
            (fn_jsDocParameterTags SampleSignatures.optsFunction)).
Proof.
  apply (X3_buildNestedType_terminates (KeywordTypeNode AnyKeyword) defaultTypeMap
           (fn_jsDocParameterTags SampleSignatures.optsFunction) "opts" 40).
  vm_compute. lia.
Defined.

(** A text that starts with [a +:+ b] starts with [a]. *)
Lemma startsWith_app_l (s a b : string) :
  startsWith s (a +:+ b) = true -> startsWith s a = true.
Proof.
  unfold startsWith. revert s. induction a as [|c a IH]; intros s.
  - destruct s; reflexivity.
  - change (String c a +:+ b) with (String c (a +:+ b)).
    destruct s as [|d s]; [discriminate|]. cbn [String.prefix].
    destruct (ascii_dec c d); [apply IH | discriminate].
Qed.

Lemma isChildTag_startsWith (prefix : string) (tag : JSDocParameterTag) :
  isChildTag prefix tag = true -> startsWith (tagNameText tag) (prefix +:+ ".") = true.
Proof.
  unfold isChildTag. destruct (startsWith (tagNameText tag) (prefix +:+ "."));
    [reflexivity | discriminate].
Qed.

Lemma filter_filter_implied {A} (f g : A -> bool) (l : list A) :
  (forall x, f x = true -> g x = true) ->
  List.filter f (List.filter g l) = List.filter f l.
Proof.
  intros Hfg. induction l as [|x l IH]; [reflexivity|]. cbn [List.filter].
  destruct (g x) eqn:Hg; cbn [List.filter].
  - rewrite IH. reflexivity.
  - destruct (f x) eqn:Hf; [|exact IH]. rewrite (Hfg _ Hf) in Hg. discriminate.
Qed.

Lemma existsb_filter_implied {A} (f g : A -> bool) (l : list A) :
  (forall x, f x = true -> g x = true) ->
  existsb f (List.filter g l) = existsb f l.
Proof.
  intros Hfg. induction l as [|x l IH]; [reflexivity|]. cbn [List.filter existsb].
  destruct (g x) eqn:Hg; cbn [existsb].
  - rewrite IH. reflexivity.
  - destruct (f x) eqn:Hf; [|exact IH]. rewrite (Hfg _ Hf) in Hg. discriminate.
Qed.

Lemma mapM_ext_option {A B} (f g : A -> option B) (l : list A) :
  (forall x, f x = g x) -> mapM f l = mapM g l.
Proof.
  intros Hfg. induction l as [|x l IH]; [reflexivity|]. cbn. rewrite Hfg, IH. reflexivity.
Qed.

Lemma maxTagNameLength_filter (f : JSDocParameterTag -> bool) (l : list JSDocParameterTag) :
  (maxTagNameLength (List.filter f l) <= maxTagNameLength l)%nat.
Proof.
  induction l as [|t l IH]; [reflexivity|]. cbn [List.filter].
  destruct (f t); cbn [maxTagNameLength foldr]; fold (maxTagNameLength l);
    [fold (maxTagNameLength (List.filter f l))|]; lia.
Qed.

Section TagGroup.

Variable anyType : TypeNode.
Variable typeMap : gmap string TypeOptions.
Variable allTags : list JSDocParameterTag.
Variable root : string.

Let inGroup (t : JSDocParameterTag) : bool := startsWith (tagNameText t) (root +:+ ".").

(** At every prefix at or below [root], the tags outside the group of
    [root] are not read. *)
Lemma buildNestedTypeFuel_group (fuel : nat) : forall prefix : string,
  (forall t, startsWith (tagNameText t) (prefix +:+ ".") = true -> inGroup t = true) ->
  buildNestedTypeFuel anyType typeMap fuel prefix (List.filter inGroup allTags)
  = buildNestedTypeFuel anyType typeMap fuel prefix allTags.
Proof.
  induction fuel as [|fuel IH]; intros prefix Hbelow; [reflexivity|].
  cbn [buildNestedTypeFuel].
  rewrite filter_filter_implied
    by (intros t Ht; apply Hbelow, isChildTag_startsWith, Ht).
  f_equal. apply mapM_ext_option. intros tag. cbn beta zeta.
  set (path := prefix +:+ "." +:+ _).
  assert (Hpath : forall t,
            startsWith (tagNameText t) (path +:+ ".") = true -> inGroup t = true).
  { intros t Ht. apply Hbelow. unfold path in Ht.
    rewrite <- (append_assoc prefix "."), append_assoc in Ht.
    apply startsWith_app_l in Ht. exact Ht. }
  unfold hasNestedChildren. rewrite existsb_filter_implied by exact Hpath.
  rewrite (IH path Hpath). reflexivity.
Qed.

End TagGroup.

(** X4: [buildNestedType] reads only the tags of the group of its prefix:
    the tags whose name does not start with the prefix and a dot can be taken
    out of the list without changing the type. The documentation of the other
    parameters of a function has no part in the type of this one. *)
Theorem X4_buildNestedType_tag_group
    (anyType : TypeNode) (typeMap : gmap string TypeOptions)
    (allTags : list JSDocParameterTag) (prefix : string) :
  buildNestedType anyType typeMap prefix
    (List.filter (fun t => startsWith (tagNameText t) (prefix +:+ ".")) allTags)
  = buildNestedType anyType typeMap prefix allTags.
Proof.
  set (group := List.filter _ allTags).
  pose proof (buildNestedType_total anyType typeMap group prefix) as Hgroup.
  apply (buildNestedTypeFuel_ge _ _ _ _ (S (maxTagNameLength allTags))) in Hgroup.
  2:{ pose proof (maxTagNameLength_filter
                    (fun t => startsWith (tagNameText t) (prefix +:+ ".")) allTags).
      fold group in H. lia. }
  unfold group in Hgroup at 1.
  rewrite buildNestedTypeFuel_group in Hgroup by auto.
  rewrite buildNestedType_total in Hgroup. injection Hgroup as Hgroup.
  symmetry. exact Hgroup.
Qed.

(** Tags of another parameter, and a tag of the parameter itself, beside
    the group [opts.]: the type is that of the group alone. *)
Example X4_other_tags_not_read :
  buildNestedType (KeywordTypeNode AnyKeyword) defaultTypeMap "opts"
    (SampleSignatures.tagOf (Identifier "opts") (TypeReferenceNode (Identifier "Object") None)
       false
     :: SampleSignatures.tagOf (QualifiedName (Identifier "other") "name")
          (KeywordTypeNode BooleanKeyword) false
     :: fn_jsDocParameterTags SampleSignatures.optsFunction)
  = TypeLiteralNode
      [PropertySignature "name" None (KeywordTypeNode StringKeyword);
       PropertySignature "age" None (KeywordTypeNode NumberKeyword)].
Proof. vm_compute. reflexivity. Qed.

(** A tag two levels below the prefix whose parent has no tag of its own
    gives no property. *)
Example X4_orphan_tag_dropped :
  buildNestedType (KeywordTypeNode AnyKeyword) defaultTypeMap "opts"
    [SampleSignatures.tagOf (QualifiedName (QualifiedName (Identifier "opts") "a") "b")
       (KeywordTypeNode StringKeyword) false]
  = TypeLiteralNode [].
Proof. vm_compute. reflexivity. Qed.

(** ** Parameters *)

Lemma visitParameter_annotates anyType typeMap allParamTags param :
  annotates param (visitParameter anyType typeMap allParamTags param).
Proof.
  assert (Hsame : annotates param param) by (unfold annotates; tauto).
  unfold visitParameter.
  destruct (param_type param) as [type|] eqn:Htype.
  { rewrite bool_decide_eq_true_2 by eauto. exact Hsame. }
  rewrite bool_decide_eq_false_2 by (intros [? ?]; discriminate).
  assert (Htyped : forall question type,
            (is_Some (param_questionToken param) -> is_Some question) ->
            annotates param
              (updateParameterDeclaration param (param_modifiers param)
                 (param_dotDotDotToken param) (param_name param) question
                 (Some type) (param_initializer param))).
  { intros question type Hquestion. unfold annotates, updateParameterDeclaration. cbn.
    rewrite Htype. repeat split; auto.
    - intros [? ?]; discriminate.
    - discriminate. }
  destruct (param_name param) as [[name | src | src]|]; try exact Hsame.
  - destruct (negb (truthy name)); [exact Hsame|].
    destruct (List.filter (isNestedTag name) allParamTags).
    + destruct (List.find (isDirectTag name) allParamTags ≫= tag_typeExpression);
        [|exact Hsame].
      apply Htyped. destruct (_ && _); eauto.
    + apply Htyped. auto.
  - destruct (List.find isDottedTag allParamTags); apply Htyped; auto.
Qed.

(** X5: [visitParameters] gives back as many parameters as the declaration
    has, in the same order, and for each of them it keeps the name, the
    modifiers, the rest token and the initializer; it never takes a question
    token away, never touches a parameter that has a type, and a parameter it
    leaves without a type is the parameter it was. *)
Theorem X5_visitParameters_frame
    (anyType : TypeNode) (typeMap : gmap string TypeOptions)
    (fn : SignatureDeclaration) :
  Forall2 annotates (fn_parameters fn) (visitParameters anyType typeMap fn).
Proof.
  unfold visitParameters. destruct (hasJSDocParameterTags fn); cbn [negb].
  - change (map ?f ?l) with (f <$> l). apply Forall2_fmap_r, Forall_Forall2_diag,
      Forall_forall. intros param _. apply visitParameter_annotates.
  - apply Forall_Forall2_diag, Forall_forall. intros param _.
    unfold annotates. tauto.
Qed.

(** ** Documentary function types *)

Lemma mapWithIndex_lookup {A B} (f : nat -> A -> B) (l : list A) :
  forall (k i : nat), mapWithIndex f k l !! i = f (k + i)%nat <$> l !! i.
Proof.
  induction l as [|x l IH]; intros k i; [reflexivity|].
  destruct i as [|i]; cbn.
  - rewrite Nat.add_0_r. reflexivity.
  - rewrite IH. rewrite Nat.add_succ_r. reflexivity.
Qed.

Lemma mapWithIndex_length {A B} (f : nat -> A -> B) (l : list A) :
  forall k : nat, List.length (mapWithIndex f k l) = List.length l.
Proof.
  induction l as [|x l IH]; intros k; cbn; [reflexivity|]. rewrite IH. reflexivity.
Qed.

(** X6: a documentary function type becomes a function type with as many
    parameters, in the same order. A parameter without a type is kept as it
    is. A parameter with a type comes out with its type visited and with its
    modifiers, question token and initializer; it keeps its name when it has
    one, and is named [rest] when it has none, is the last parameter and its
    type is variadic, and [arg] followed by its index in decimal otherwise;
    the last parameter of variadic type gets the rest token, every other one
    keeps the rest token it had. The return type is taken over as written,
    the unknown type when there is none. *)
Theorem X6_function_type_parameters
    (anyType : TypeNode) (typeMap : gmap string TypeOptions)
    (parameters : list ParameterDeclaration) (type : option TypeNode) :
  exists visited,
    visitJSDocType anyType typeMap (JSDocFunctionType parameters type)
    = FunctionTypeNode visited (default anyType type) /\
    List.length visited = List.length parameters /\
    forall (i : nat) (p q : ParameterDeclaration),
      parameters !! i = Some p -> visited !! i = Some q ->
      (param_type p = None -> q = p) /\
      (forall t, param_type p = Some t ->
         param_type q = Some (visitJSDocType anyType typeMap t) /\
         param_name q
         = Some (match param_name p with
                 | Some name => name
                 | None =>
                     BindingIdentifier
                       (if isJSDocVariadicType t && (S i =? List.length parameters)%nat
                        then "rest" else "arg" +:+ decimal i)
                 end) /\
         param_dotDotDotToken q
         = (if isJSDocVariadicType t && (S i =? List.length parameters)%nat
            then Some DotDotDotToken else param_dotDotDotToken p) /\
         param_modifiers q = param_modifiers p /\
         param_questionToken q = param_questionToken p /\
         param_initializer q = param_initializer p).
Proof.
  eexists. split; [reflexivity|]. split; [apply mapWithIndex_length|].
  intros i p q Hp Hq. rewrite mapWithIndex_lookup, Hp in Hq. cbn in Hq.
  injection Hq as <-. unfold visitJSDocParameterWith.
  destruct (param_type p) as [t|] eqn:Htype.
  - split; [discriminate|].
    intros t' Ht'. injection Ht' as <-.
    assert (Hlast : (i =? List.length parameters - 1)%nat
                    = (S i =? List.length parameters)%nat).
    { apply lookup_lt_Some in Hp.
      destruct (Nat.eqb_spec i (List.length parameters - 1)),
               (Nat.eqb_spec (S i) (List.length parameters)); try reflexivity; lia. }
    rewrite Hlast. cbn. repeat split; reflexivity.
  - split; [reflexivity|]. discriminate.
Qed.

Example X6_unnamed_parameters :
  visitJSDocType (KeywordTypeNode AnyKeyword) defaultTypeMap
    (JSDocFunctionType
       [mkParameter [] None None None (Some (TypeReferenceNode (Identifier "Number") None)) None;
        mkParameter [] None None None
          (Some (JSDocVariadicType (KeywordTypeNode StringKeyword))) None]
       (Some (TypeReferenceNode (Identifier "String") None)))
  = FunctionTypeNode
      [mkParameter [] None (Some (BindingIdentifier "arg0")) None
         (Some (KeywordTypeNode NumberKeyword)) None;
       mkParameter [] (Some DotDotDotToken) (Some (BindingIdentifier "rest")) None
         (Some (ArrayTypeNode (KeywordTypeNode StringKeyword))) None]
      (TypeReferenceNode (Identifier "String") None).
Proof. vm_compute. reflexivity. Qed.

(** ** Accessibility modifiers *)

Lemma land_lor_absorb (flags x mask : Z) :
  Z.land flags mask = 0 -> Z.land x mask = x ->
  Z.land (Z.lor flags x) mask = x /\
  Z.land (Z.lor flags x) (Z.lnot mask) = Z.land flags (Z.lnot mask).
Proof.
  intros Hflags Hx. split.
  - rewrite Z.land_lor_distr_l, Hflags, Hx. apply Z.lor_0_l.
  - rewrite Z.land_lor_distr_l.
    assert (Hzero : Z.land x (Z.lnot mask) = 0).
    { rewrite <- Hx, <- Z.land_assoc, Z.land_lnot_diag. apply Z.land_0_r. }
    rewrite Hzero. apply Z.lor_0_r.
Qed.

Lemma land_mask_member (a b c : Z) :
  Z.land a (Z.lor (Z.lor a b) c) = a /\
  Z.land b (Z.lor (Z.lor a b) c) = b /\
  Z.land c (Z.lor (Z.lor a b) c) = c.
Proof.
  repeat split; apply Z.bits_inj'; intros n Hn;
    rewrite Z.land_spec, !Z.lor_spec;
    destruct (Z.testbit a n), (Z.testbit b n), (Z.testbit c n); reflexivity.
Qed.

(** X7: [modifiersFromJSDoc] gives the modifiers of the declaration
    themselves, or new modifiers made from flags. New ones are made only when
    the declaration has no accessibility flag and carries a documentary
    privacy tag; the flags then hold exactly one accessibility flag, that of
    the tag (private before protected before public), and outside the
    accessibility mask they are the flags of the declaration. *)
Theorem X7_modifiersFromJSDoc
    (Private Protected Public : Z) (methodDeclaration : MethodDeclaration) :
  match modifiersFromJSDoc Private Protected Public methodDeclaration with
  | DeclaredModifiers modifiers =>
      modifiers = md_modifiers methodDeclaration /\
      (Z.land (md_combinedModifierFlags methodDeclaration)
         (accessibilityMask Private Protected Public) <> 0 \/
       documentedAccessibility Private Protected Public methodDeclaration = None)
  | CreatedFromModifierFlags modifierFlags =>
      Z.land (md_combinedModifierFlags methodDeclaration)
        (accessibilityMask Private Protected Public) = 0 /\
      exists flag,
        documentedAccessibility Private Protected Public methodDeclaration = Some flag /\
        modifierFlags = Z.lor (md_combinedModifierFlags methodDeclaration) flag /\
        Z.land modifierFlags (accessibilityMask Private Protected Public) = flag /\
        Z.land modifierFlags (Z.lnot (accessibilityMask Private Protected Public))
        = Z.land (md_combinedModifierFlags methodDeclaration)
            (Z.lnot (accessibilityMask Private Protected Public))
  end.
Proof.
  unfold modifiersFromJSDoc, documentedAccessibility.
  destruct (Z.land _ _ =? 0) eqn:Hmask; cbn [negb].
  - apply Z.eqb_eq in Hmask.
    destruct (land_mask_member Private Protected Public) as (Hprivate & Hprotected & Hpublic).
    fold (accessibilityMask Private Protected Public) in Hprivate, Hprotected, Hpublic.
    destruct (md_privateTag methodDeclaration);
      [|destruct (md_protectedTag methodDeclaration);
        [|destruct (md_publicTag methodDeclaration)]];
      try (split; [exact Hmask|]; eexists; split; [reflexivity|];
           split; [reflexivity|]; apply land_lor_absorb; assumption).
    split; [reflexivity|]. right. reflexivity.
  - apply Z.eqb_neq in Hmask. split; [reflexivity|]. left. exact Hmask.
Qed.

(** With the flags of a version of the library (private 2, protected 4,
    public 1): a static method (256) documented as protected. *)
Example X7_static_protected :
  modifiersFromJSDoc 2 4 1 (mkMethodDeclaration None 256 false true true)
  = CreatedFromModifierFlags 260.
Proof. reflexivity. Qed.

(** ** The text [run] returns *)

Lemma strip_clean s : hasTrailingSpace (stripTrailingSpaces s) = false.
Proof.
  induction s as [|c r IH]; [reflexivity|]. cbn [stripTrailingSpaces].
  destruct (Ascii.eqb c SPACE && atLineEnd (stripTrailingSpaces r)) eqn:Hc; [exact IH|].
  cbn [hasTrailingSpace]. rewrite Hc, IH. reflexivity.
Qed.

Lemma clean_app_newline s :
  hasTrailingSpace s = false -> hasTrailingSpace (s +:+ NL) = false.
Proof.
  induction s as [|c r IH]; [reflexivity|].
  intros H. change (String c r +:+ NL) with (String c (r +:+ NL)).
  cbn [hasTrailingSpace] in H |- *.
  apply orb_false_iff in H as [Hc Hr]. rewrite (IH Hr), orb_false_r.
  destruct (Ascii.eqb c SPACE); [|reflexivity]. cbn [andb] in Hc |- *.
  destruct r; [discriminate Hc | exact Hc].
Qed.

Lemma endsWith_app (a p : string) : endsWith (a +:+ p) p = true.
Proof.
  induction a as [|c a IH].
  - change ("" +:+ p) with p. destruct p; [reflexivity|].
    cbn [endsWith]. rewrite String.eqb_refl. reflexivity.
  - change (String c a +:+ p) with (String c (a +:+ p)).
    cbn [endsWith]. rewrite IH. apply orb_true_r.
Qed.

(** X8: whatever the file and whatever updates were made, the text [run]
    returns has no line that ends in a space, and it ends in a line feed
    whenever the input text does. *)
Theorem X8_run_output_is_clean
    (printNode : Factory.Node -> SourceFile -> string) (newLine : string)
    (getTypeFromPropTypesObjectLiteral :
       option Expression -> SourceFile -> PropTypesParams -> TypeNode)
    (fileName : string) (sourceFile : SourceFile) (options : ShapeOptions)
    (text out : string) :
  run printNode newLine getTypeFromPropTypesObjectLiteral
    fileName sourceFile options text = Returned (Some out) ->
  hasTrailingSpace out = false /\
  (endsWith text NL = true -> endsWith out NL = true).
Proof.
  unfold run. destruct (hasPropTypesImport sourceFile); [|discriminate].
  destruct (collectUpdates _ _ _ _ _ _) as [us|]; [|discriminate]. cbn [obind].
  destruct (updateSourceText text us) as [result|]; [|discriminate]. cbn [obind].
  intros H. injection H as <-.
  destruct (endsWith text NL) eqn:Htext; cbn [andb].
  - destruct (endsWith (stripTrailingSpaces result) NL) eqn:Hcleaned; cbn [negb].
    + split; [apply strip_clean | intros _; exact Hcleaned].
    + split; [apply clean_app_newline, strip_clean | intros _; apply endsWith_app].
  - split; [apply strip_clean | discriminate].
Qed.

Lemma X8_run_output_is_clean_witness :
  hasTrailingSpace Sample.tidyText = false /\
  (endsWith Sample.plainText NL = true -> endsWith Sample.tidyText NL = true).
Proof.
  apply (X8_run_output_is_clean Sample.printNode NL Sample.getType "/src/plain.js"
           Sample.plainFile Sample.options Sample.plainText Sample.tidyText).
  vm_compute. reflexivity.
Defined.

(** ** The import is injected once *)

Section Pushes.

Variable P : SourceTextUpdate -> Prop.

Lemma pushes_ret : pushes P (ret tt).
Proof.
  intros s s' H. injection H as <-. split; [reflexivity|].
  exists []. rewrite app_nil_r. auto.
Qed.

Lemma pushes_push u : P u -> pushes P (push u).
Proof.
  intros Hu s s' H. injection H as <-. split; [reflexivity|]. exists [u]. auto.
Qed.

Lemma pushes_seq (m k : M unit) : pushes P m -> pushes P k -> pushes P (m ;; k).
Proof.
  intros Hm Hk s s' H. unfold bind in H.
  destruct (m s) as [[[] s1]|] eqn:Hs1; [|discriminate].
  destruct (Hm _ _ Hs1) as (F1 & new1 & E1 & H1).
  destruct (Hk _ _ H) as (F2 & new2 & E2 & H2).
  split; [congruence|].
  exists (new1 ++ new2)%list. rewrite E2, E1, app_assoc. split; [reflexivity|].
  apply Forall_app. auto.
Qed.

Lemma pushes_lift {A} (o : outcome A) (k : A -> M unit) :
  (forall a, o = Returned a -> pushes P (k a)) ->
  pushes P (let* a := lift o in k a).
Proof.
  intros Hk s s' H. unfold bind, lift in H.
  destruct o as [a|]; [|discriminate]. cbn in H. eapply Hk; eauto.
Qed.

Lemma pushes_when (b : bool) (m : M unit) : pushes P m -> pushes P (when b m).
Proof. destruct b; cbn; auto using pushes_ret. Qed.

End Pushes.

Section ImportsOnce.

Variable printNode : Factory.Node -> SourceFile -> string.
Variable newLine : string.
Variable getTypeFromPropTypesObjectLiteral :
  option Expression -> SourceFile -> PropTypesParams -> TypeNode.
Variable fileName : string.
Variable sourceFile : SourceFile.
Variable options : ShapeOptions.

Let import := importUpdate printNode sourceFile.

Lemma importsOnce_ret : importsOnce import (ret tt).
Proof.
  intros s s' H. injection H as <-. exists []. rewrite app_nil_r.
  split; [reflexivity|]. destruct (shouldAddPropTypesImport s); auto.
Qed.

Lemma importsOnce_seq (m k : M unit) :
  importsOnce import m -> importsOnce import k -> importsOnce import (m ;; k).
Proof.
  intros Hm Hk s s' H. unfold bind in H.
  destruct (m s) as [[[] s1]|] eqn:Hs1; [|discriminate].
  destruct (Hm _ _ Hs1) as (new1 & E1 & H1).
  destruct (Hk _ _ H) as (new2 & E2 & H2).
  exists (new1 ++ new2)%list. rewrite E2, E1, app_assoc. split; [reflexivity|].
  destruct (shouldAddPropTypesImport s).
  - destruct H1 as [[F1 ->] | (F1 & rest & -> & Hrest)]; rewrite F1 in H2.
    + exact H2.
    + right. destruct H2 as [F2 Hnew2]. split; [exact F2|].
      exists (rest ++ new2)%list. split; [reflexivity|]. apply Forall_app. auto.
  - destruct H1 as [F1 Hnew1]. rewrite F1 in H2. destruct H2 as [F2 Hnew2].
    split; [exact F2|]. apply Forall_app. auto.
Qed.

Lemma importsOnce_lift {A} (o : outcome A) (k : A -> M unit) :
  (forall a, importsOnce import (k a)) -> importsOnce import (let* a := lift o in k a).
Proof.
  intros Hk s s' H. unfold bind, lift in H.
  destruct o as [a|]; [|discriminate]. cbn in H. eapply Hk; eauto.
Qed.

Lemma importsOnce_when (b : bool) (m : M unit) :
  importsOnce import m -> importsOnce import (when b m).
Proof. destruct b; cbn; auto using importsOnce_ret. Qed.

(** A site: the import first, then updates away from the start. *)
Lemma importsOnce_site (k : M unit) :
  pushes notAtZero k ->
  importsOnce import (insertPropTypesRequireableNode printNode sourceFile ;; k).
Proof.
  intros Hk s s' H. unfold bind, insertPropTypesRequireableNode in H.
  destruct (shouldAddPropTypesImport s) eqn:Hflag.
  - destruct (Hk _ _ H) as (F & new & E & Hnew). cbn in F, E.
    exists (import :: new). split.
    + rewrite E, <- app_assoc. reflexivity.
    + right. split; [exact F|]. eauto.
  - destruct (Hk _ _ H) as (F & new & E & Hnew).
    exists new. split; [exact E|]. split; [congruence | exact Hnew].
Qed.

Lemma pushes_splitVariableExport node shapeName :
  0 < statementEnd node ->
  pushes notAtZero (splitVariableExport printNode sourceFile node shapeName).
Proof.
  intros Hend. unfold splitVariableExport.
  apply pushes_seq; apply pushes_push; cbn; [exact I | lia].
Qed.

Lemma importsOnce_visitStatement node :
  afterStart node ->
  (forall lastImport,
      List.last (map Some (importDeclarations sourceFile)) None = Some lastImport ->
      0 < statementEnd lastImport) ->
  importsOnce import
    (visitStatement printNode newLine getTypeFromPropTypesObjectLiteral
       fileName sourceFile options node).
Proof.
  intros [Hend Hpos] Hlast.
  destruct node as [| pos end_ mods decls | pos end_ e | | |]; try apply importsOnce_ret.
  - cbn in Hend, Hpos. cbn [visitStatement].
    destruct (decls !! 0%nat) as [vd|]; [|apply importsOnce_ret].
    destruct (vd_initializer vd) as [init|]; [|apply importsOnce_ret].
    destruct (vd_type vd); [apply importsOnce_ret|].
    assert (Hsplit : forall name,
              pushes notAtZero
                (splitVariableExport printNode sourceFile
                   (VariableStatement pos end_ mods decls) name)).
    { intros name. apply pushes_splitVariableExport. exact Hend. }
    apply importsOnce_seq.
    + destruct init as [t callee args | |]; try apply importsOnce_ret.
      destruct (0 <? List.length args)%nat; [|apply importsOnce_ret].
      apply importsOnce_lift. intros isObj. apply importsOnce_when, importsOnce_site.
      apply pushes_seq; [apply pushes_when, pushes_push; cbn; lia|].
      apply pushes_seq; [apply pushes_push; exact I|].
      apply pushes_when, Hsplit.
    + destruct init as [t callee args | |]; try apply importsOnce_ret.
      apply importsOnce_lift. intros isArr. apply importsOnce_when, importsOnce_site.
      apply pushes_seq; [apply pushes_push; cbn; lia|].
      apply pushes_when, Hsplit.
  - cbn in Hend. cbn [visitStatement].
    destruct e as [t callee args | |]; try apply importsOnce_ret.
    apply importsOnce_lift. intros isObj. apply importsOnce_when, importsOnce_site.
    apply pushes_lift. intros lastImport Hfound.
    assert (Hlst : List.last (map Some (importDeclarations sourceFile)) None
                   = Some lastImport).
    { destruct (List.last (map Some (importDeclarations sourceFile)) None);
        [injection Hfound as ->; reflexivity | discriminate]. }
    specialize (Hlast lastImport Hlst).
    apply pushes_seq; [apply pushes_push; cbn; lia|].
    apply pushes_seq; [apply pushes_push; exact I|].
    apply pushes_push. cbn. lia.
Qed.

Lemma importsOnce_forEach nodes :
  Forall afterStart nodes ->
  (forall lastImport,
      List.last (map Some (importDeclarations sourceFile)) None = Some lastImport ->
      0 < statementEnd lastImport) ->
  importsOnce import
    (forEach
       (visitStatement printNode newLine getTypeFromPropTypesObjectLiteral
          fileName sourceFile options) nodes).
Proof.
  intros Hnodes Hlast. induction Hnodes as [|node nodes Hnode Hnodes IH].
  - apply importsOnce_ret.
  - cbn [forEach]. apply importsOnce_seq; [|exact IH].
    apply importsOnce_visitStatement; assumption.
Qed.

End ImportsOnce.

(** X9: in a file whose statements all end after offset 0 and whose variable
    statements start after it, the import of [prop-types] is injected at most
    once in a run: when the file imports [prop-types] no update is an
    insertion at offset 0; when it does not, the updates are either none, or
    the import at offset 0 followed by updates none of which is an insertion
    at offset 0. *)
Theorem X9_import_injected_once
    (printNode : Factory.Node -> SourceFile -> string) (newLine : string)
    (getTypeFromPropTypesObjectLiteral :
       option Expression -> SourceFile -> PropTypesParams -> TypeNode)
    (fileName : string) (sourceFile : SourceFile) (options : ShapeOptions)
    (us : list SourceTextUpdate) :
  Forall afterStart (statements sourceFile) ->
  collectUpdates printNode newLine getTypeFromPropTypesObjectLiteral
    fileName sourceFile options = Returned us ->
  if bool_decide (is_Some
       (List.find (fun x => test Regex.propTypesImport (moduleSpecifierText x))
          (importDeclarations sourceFile)))
  then Forall notAtZero us
  else us = [] \/
       exists rest, us = importUpdate printNode sourceFile :: rest /\
                    Forall notAtZero rest.
Proof.
  intros Hstatements. unfold collectUpdates.
  set (flag := negb _).
  destruct (forEach _ _ _) as [[[] s']|] eqn:Hrun; [|discriminate].
  cbn [obind]. intros H. injection H as <-.
  assert (Hlast : forall lastImport,
            List.last (map Some (importDeclarations sourceFile)) None = Some lastImport ->
            0 < statementEnd lastImport).
  { intros lastImport Hl. apply last_Some_In in Hl.
    unfold importDeclarations in Hl. apply filter_In in Hl as [Hin _].
    rewrite Forall_forall in Hstatements.
    apply Hstatements. apply list_elem_of_In. exact Hin. }
  destruct (importsOnce_forEach printNode newLine getTypeFromPropTypesObjectLiteral
              fileName sourceFile options _ Hstatements Hlast _ _ Hrun)
    as (new & Hnew & Hcases).
  cbn in Hnew, Hcases. subst flag.
  destruct (bool_decide _); cbn [negb] in Hcases; rewrite Hnew.
  - apply Hcases.
  - destruct Hcases as [[_ ->] | (_ & rest & -> & Hrest)]; eauto.
Qed.

Lemma X9_import_injected_once_witness :
  if bool_decide (is_Some
       (List.find (fun x => test Regex.propTypesImport (moduleSpecifierText x))
          (importDeclarations Sample.validatorsFile)))
  then Forall notAtZero
         [importUpdate Sample.printNode Sample.validatorsFile;
          InsertUpdate 37 (NL +:+ NL +:+ "type Foo = {};");
          ReplaceUpdate 44 21
            "Foo: PropTypes.Requireable<Foo> | Validator<Foo> = Types.shape({})"]
  else [importUpdate Sample.printNode Sample.validatorsFile;
        InsertUpdate 37 (NL +:+ NL +:+ "type Foo = {};");
        ReplaceUpdate 44 21
          "Foo: PropTypes.Requireable<Foo> | Validator<Foo> = Types.shape({})"] = [] \/
       exists rest,
         [importUpdate Sample.printNode Sample.validatorsFile;
          InsertUpdate 37 (NL +:+ NL +:+ "type Foo = {};");
          ReplaceUpdate 44 21
            "Foo: PropTypes.Requireable<Foo> | Validator<Foo> = Types.shape({})"]
         = importUpdate Sample.printNode Sample.validatorsFile :: rest /\
         Forall notAtZero rest.
Proof.
  apply (X9_import_injected_once Sample.printNode NL Sample.getType "/src/Foo.js"
           Sample.validatorsFile Sample.options).
  - repeat constructor; cbn; lia.
  - vm_compute. reflexivity.
Defined.

(** ** The updates of a site *)

(** X10: for a variable statement whose untyped first declarator is
    initialised by a shape call, the loop records, in this order: the import
    when the flag is still set; the alias before the statement, unless an
    interface or type alias of the name of the declarator is among the
    statements of the file; the replacement of the declarator, from the offset
    after its [pos] to its [end], by the declarator with the union type and
    the same initializer; and the export split when the statement has the
    export modifier. The flag is cleared, and the array-of-shapes branch does
    nothing on the statement. *)
Theorem X10_shape_site_updates
    (printNode : Factory.Node -> SourceFile -> string) (newLine : string)
    (getTypeFromPropTypesObjectLiteral :
       option Expression -> SourceFile -> PropTypesParams -> TypeNode)
    (fileName : string) (sourceFile : SourceFile) (options : ShapeOptions)
    (pos end_ : Z) (modifiers : list ModifierKind)
    (first : VariableDeclaration) (rest : list VariableDeclaration)
    (initializer : Expression) (s : RunState) :
  vd_type first = None ->
  vd_initializer first = Some initializer ->
  isShapeCall initializer = true ->
  visitStatement printNode newLine getTypeFromPropTypesObjectLiteral
    fileName sourceFile options
    (VariableStatement pos end_ modifiers (first :: rest)) s
  = Returned (tt, mkRunState false
      (updates s ++
       (if shouldAddPropTypesImport s then [importUpdate printNode sourceFile] else []) ++
       (if existsb (fun tNode =>
                      bool_decide (declaredTypeName tNode = Some (vd_name first)))
             (typesAndInterfaces sourceFile)
        then []
        else [InsertUpdate pos
                (NL +:+ NL +:+
                 printClean printNode
                   (getTypeForTheShape getTypeFromPropTypesObjectLiteral initializer
                      (vd_name first) sourceFile options false)
                   sourceFile)]) ++
       [ReplaceUpdate (vd_pos first + 1) (vd_end first - (vd_pos first + 1))
          (printClean printNode
             (Factory.Declaration
                (Factory.VariableDeclaration (vd_name first)
                   (Some (getShapeTypeNode (vd_name first))) (Some initializer)))
             sourceFile)] ++
       (if hasExportModifier modifiers
        then exportSplit printNode sourceFile
               (VariableStatement pos end_ modifiers (first :: rest)) (vd_name first)
        else []))%list).
Proof.
  intros Htype Hinit Hshape.
  destruct initializer as [t callee args | |]; try discriminate Hshape.
  destruct args as [|[| obj |] args]; try discriminate Hshape.
  cbn in Hshape. cbn [visitStatement lookup list_lookup].
  rewrite Hinit, Htype.
  unfold bind, lift, when, push, ret, insertPropTypesRequireableNode,
    splitVariableExport, isPropTypesArrayOfShapes, hasExportModifier, exportSplit,
    importUpdate, bind, push.
  cbn. rewrite Hshape. destruct s as [flag ups]. cbn.
  destruct flag, (existsb _ (typesAndInterfaces sourceFile)), (existsb _ modifiers),
    (test Regex.arrayOf (getText callee));
    cbn; rewrite <- ?app_assoc; reflexivity.
Qed.

Lemma X10_shape_site_updates_witness :
  visitStatement Sample.printNode NL Sample.getType "/src/Foo.js"
    Sample.aliasedShapeFile Sample.options
    (VariableStatement 51 84 []
       [mkVariableDeclaration 57 83 "Foo" None (Some Sample.shapeCall)])
    (mkRunState false [])
  = Returned (tt, mkRunState false
      [ReplaceUpdate 58 25
         "Foo: PropTypes.Requireable<Foo> | Validator<Foo> = PropTypes.shape({})"]).
Proof.
  rewrite (X10_shape_site_updates Sample.printNode NL Sample.getType "/src/Foo.js"
             Sample.aliasedShapeFile Sample.options 51 84 []
             (mkVariableDeclaration 57 83 "Foo" None (Some Sample.shapeCall)) []
             Sample.shapeCall (mkRunState false []) eq_refl eq_refl eq_refl).
  vm_compute. reflexivity.
Defined.

(** X11: for a variable statement whose untyped first declarator is
    initialised by an array-of-shapes call, the loop records the import when
    the flag is still set, the alias of the array type before the statement
    (whether or not a type of that name is declared in the file) and the
    export split when the statement has the export modifier. The declarator
    itself is not replaced: it stays without a type. *)
Theorem X11_array_site_updates
    (printNode : Factory.Node -> SourceFile -> string) (newLine : string)
    (getTypeFromPropTypesObjectLiteral :
       option Expression -> SourceFile -> PropTypesParams -> TypeNode)
    (fileName : string) (sourceFile : SourceFile) (options : ShapeOptions)
    (pos end_ : Z) (modifiers : list ModifierKind)
    (first : VariableDeclaration) (rest : list VariableDeclaration)
    (text : string) (callee shapeNode : Expression) (others : list Expression)
    (s : RunState) :
  vd_type first = None ->
  vd_initializer first = Some (CallExpression text callee (shapeNode :: others)) ->
  isArrayOfShapesCall (CallExpression text callee (shapeNode :: others)) = true ->
  visitStatement printNode newLine getTypeFromPropTypesObjectLiteral
    fileName sourceFile options
    (VariableStatement pos end_ modifiers (first :: rest)) s
  = Returned (tt, mkRunState false
      (updates s ++
       (if shouldAddPropTypesImport s then [importUpdate printNode sourceFile] else []) ++
       [InsertUpdate pos
          (NL +:+ NL +:+
           printClean printNode
             (getTypeForTheShape getTypeFromPropTypesObjectLiteral shapeNode
                (vd_name first) sourceFile options true)
             sourceFile)] ++
       (if hasExportModifier modifiers
        then exportSplit printNode sourceFile
               (VariableStatement pos end_ modifiers (first :: rest)) (vd_name first)
        else []))%list).
Proof.
  intros Htype Hinit Harray.
  destruct shapeNode as [t' inner innerArgs | |]; try discriminate Harray.
  cbn in Harray. apply andb_true_iff in Harray as [Hcallee Hinner].
  cbn [visitStatement lookup list_lookup].
  rewrite Hinit, Htype.
  unfold bind, lift, when, push, ret, insertPropTypesRequireableNode,
    splitVariableExport, isPropTypesArrayOfShapes, hasExportModifier, exportSplit,
    importUpdate, bind, push.
  cbn. rewrite Hcallee. cbn. rewrite Hinner. destruct s as [flag ups]. cbn.
  destruct flag, (existsb _ modifiers); cbn; rewrite <- ?app_assoc; reflexivity.
Qed.

Lemma X11_array_site_updates_witness :
  visitStatement Sample.printNode NL Sample.getType "/src/Foos.js"
    Sample.arrayOfOnceFile Sample.options
    (VariableStatement 54 107 []
       [mkVariableDeclaration 60 106 "Foos" None (Some Sample.arrayOfCall)])
    (mkRunState false [])
  = Returned (tt, mkRunState false
      [InsertUpdate 54 (NL +:+ NL +:+ "type Foos = {}[];")]).
Proof.
  rewrite (X11_array_site_updates Sample.printNode NL Sample.getType "/src/Foos.js"
             Sample.arrayOfOnceFile Sample.options 54 107 []
             (mkVariableDeclaration 60 106 "Foos" None (Some Sample.arrayOfCall)) []
             "PropTypes.arrayOf(PropTypes.shape({}))"
             (OtherExpression "PropTypes.arrayOf") Sample.shapeCall []
             (mkRunState false []) eq_refl eq_refl eq_refl).
  vm_compute. reflexivity.
Defined.

(** ** The name of a default-exported shape *)

Lemma basenameAcc_after_slash (a b : string) :
  forall (cur : string) (pending : bool),
    exists cur', basenameAcc cur pending (a +:+ String "/"%char b)
                 = basenameAcc cur' true b.
Proof.
  induction a as [|c a IH]; intros cur pending.
  - exists cur. reflexivity.
  - change (String c a +:+ String "/"%char b) with (String c (a +:+ String "/"%char b)).
    cbn [basenameAcc]. destruct (Ascii.eqb c "/"%char); [apply IH|].
    destruct pending; apply IH.
Qed.

Lemma basenameAcc_no_slash (b : string) :
  occurs "/"%char b = false ->
  forall cur, basenameAcc cur false b = cur +:+ b.
Proof.
  induction b as [|c b IH]; intros Hb cur.
  - cbn. induction cur as [|x cur IHc]; [reflexivity|].
    change (String x cur +:+ "") with (String x (cur +:+ "")). rewrite <- IHc. reflexivity.
  - cbn [occurs] in Hb. apply orb_false_iff in Hb as [Hc Hb].
    cbn [basenameAcc]. rewrite Hc, (IH Hb), append_assoc. reflexivity.
Qed.

Lemma basename_of_path (dir file : string) :
  occurs "/"%char file = false -> file <> "" ->
  basename (dir +:+ String "/"%char file) = file.
Proof.
  intros Hfile Hne. unfold basename.
  destruct (basenameAcc_after_slash dir file "" true) as [cur ->].
  destruct file as [|c file]; [contradiction|].
  cbn [occurs] in Hfile. apply orb_false_iff in Hfile as [Hc Hfile].
  cbn [basenameAcc]. rewrite Hc. rewrite (basenameAcc_no_slash _ Hfile). reflexivity.
Qed.

Lemma splitHead_prefix (name rest : string) :
  occurs "."%char name = false ->
  splitHead "."%char (name +:+ String "."%char rest) = name.
Proof.
  induction name as [|c name IH]; intros Hname; [reflexivity|].
  cbn [occurs] in Hname. apply orb_false_iff in Hname as [Hc Hname].
  change (String c name +:+ String "."%char rest)
    with (String c (name +:+ String "."%char rest)).
  cbn [splitHead]. rewrite Hc, (IH Hname). reflexivity.
Qed.

Lemma occurs_app (c : ascii) (a b : string) :
  occurs c (a +:+ b) = occurs c a || occurs c b.
Proof.
  induction a as [|x a IH]; [reflexivity|].
  change (String x a +:+ b) with (String x (a +:+ b)).
  cbn [occurs]. rewrite IH. apply orb_assoc.
Qed.

(** X12: the alias of a default-exported shape is named by the file name up
    to its first dot: for a file [dir/name.rest], where [name] holds neither a
    slash nor a dot and [rest] no slash, the name is [name], whatever [rest]
    holds (so [Foo.test.js] gives [Foo]); a file whose name starts with a dot
    gives the empty name. *)
Theorem X12_default_export_name (dir name rest : string) :
  occurs "/"%char name = false ->
  occurs "."%char name = false ->
  occurs "/"%char rest = false ->
  splitHead "."%char (baseName (dir +:+ "/" +:+ name +:+ "." +:+ rest)) = name.
Proof.
  intros Hslash Hdot Hrest. unfold baseName.
  change (dir +:+ "/" +:+ name +:+ "." +:+ rest)
    with (dir +:+ String "/"%char (name +:+ String "."%char rest)).
  rewrite basename_of_path.
  - apply splitHead_prefix, Hdot.
  - rewrite occurs_app, Hslash. cbn. exact Hrest.
  - destruct name; discriminate.
Qed.

Lemma X12_default_export_name_witness :
  splitHead "."%char (baseName ("/src/shapes" +:+ "/" +:+ "Foo" +:+ "." +:+ "test.js"))
  = "Foo".
Proof.
  apply (X12_default_export_name "/src/shapes" "Foo" "test.js"); reflexivity.
Defined.

Example X12_dot_file_gives_empty_name :
  splitHead "."%char (baseName "/src/.shape.js") = "".
Proof. reflexivity. Qed.

(** ** The [eslint-fix] plugin *)

Section EslintFixProperties.

Variable lintText : string -> string -> EslintFix.LintOutcome.
Variable fileName : string.

Lemma fixLoop_settled (fuel : nat) : forall text newText,
  EslintFix.fixLoop lintText fileName fuel text = Some (inl newText) ->
  EslintFix.settled lintText fileName newText.
Proof.
  induction fuel as [|fuel IH]; intros text newText; [discriminate|].
  cbn [EslintFix.fixLoop]. unfold EslintFix.settled.
  destruct (lintText text fileName) as [results|e] eqn:Hlint; [|discriminate].
  destruct (results !! 0%nat) as [report|] eqn:Hreport.
  - destruct (EslintFix.output report) as [out|] eqn:Hout.
    + destruct (negb (truthy out) || String.eqb out text) eqn:Hstop.
      * intros H. injection H as <-. rewrite Hlint, Hreport, Hout.
        apply orb_true_iff in Hstop as [Hempty|Hsame].
        -- left. unfold truthy in Hempty. apply negb_true_iff, negb_false_iff in Hempty.
           apply String.eqb_eq in Hempty. exact Hempty.
        -- right. apply String.eqb_eq in Hsame. exact Hsame.
      * apply IH.
    + intros H. injection H as <-. rewrite Hlint, Hreport, Hout. exact I.
  - intros H. injection H as <-. rewrite Hlint, Hreport. exact I.
Qed.

Lemma fixLoop_of_settled (fuel : nat) (text : string) :
  EslintFix.settled lintText fileName text ->
  EslintFix.fixLoop lintText fileName (S fuel) text = Some (inl text).
Proof.
  unfold EslintFix.settled. cbn [EslintFix.fixLoop].
  destruct (lintText text fileName) as [results|e]; [|contradiction].
  destruct (results !! 0%nat) as [report|]; [|reflexivity].
  destruct (EslintFix.output report) as [out|]; [|reflexivity].
  intros [-> | ->]; [reflexivity|].
  rewrite String.eqb_refl, orb_true_r. reflexivity.
Qed.

End EslintFixProperties.

(** X13: when the loop of the [eslint-fix] plugin ends, [run] resolves
    either to a text the linter leaves as it is, without any call of
    [console.error], or, when a call of [lintText] threw, to the text it was
    given: the fixes of the rounds before are dropped, and the message is
    logged when the value thrown is an [Error]. *)
Theorem X13_eslint_fix_result
    (lintText : string -> string -> EslintFix.LintOutcome) (fileName : string)
    (fuel : nat) (text : string) (result : EslintFix.RunResult) :
  EslintFix.run lintText fileName fuel text = Some result ->
  (EslintFix.settled lintText fileName (EslintFix.returned result) /\
   EslintFix.logged result = []) \/
  (exists e,
     EslintFix.fixLoop lintText fileName fuel text = Some (inr e) /\
     EslintFix.returned result = text /\
     EslintFix.logged result =
       match e with
       | EslintFix.ErrorObject message =>
           [("Error occurred in eslint-fix plugin: ", message)]
       | EslintFix.OtherValue => []
       end).
Proof.
  unfold EslintFix.run.
  destruct (EslintFix.fixLoop lintText fileName fuel text) as [[newText|e]|] eqn:Hloop;
    [| |discriminate]; intros H; injection H as <-.
  - left. split; [|reflexivity]. eapply fixLoop_settled, Hloop.
  - right. exists e. auto.
Qed.

Lemma X13_eslint_fix_result_witness :
  (EslintFix.settled EslintFix.sampleLint "a.js"
     (EslintFix.returned (EslintFix.mkRunResult "  !" [("Error occurred in eslint-fix plugin: ", "parse error")])) /\
   EslintFix.logged (EslintFix.mkRunResult "  !" [("Error occurred in eslint-fix plugin: ", "parse error")]) = []) \/
  (exists e,
     EslintFix.fixLoop EslintFix.sampleLint "a.js" 5 "  !" = Some (inr e) /\
     EslintFix.returned (EslintFix.mkRunResult "  !" [("Error occurred in eslint-fix plugin: ", "parse error")]) = "  !" /\
     EslintFix.logged (EslintFix.mkRunResult "  !" [("Error occurred in eslint-fix plugin: ", "parse error")]) =
       match e with
       | EslintFix.ErrorObject message =>
           [("Error occurred in eslint-fix plugin: ", message)]
       | EslintFix.OtherValue => []
       end).
Proof.
  apply (X13_eslint_fix_result EslintFix.sampleLint "a.js" 5 "  !").
  reflexivity.
Defined.

(** X14: the plugin is idempotent where it succeeds: when a run ends without
    an exception, a run on the text it returned ends in its first round,
    whatever the bound on the rounds, and returns that text. *)
Theorem X14_eslint_fix_idempotent
    (lintText : string -> string -> EslintFix.LintOutcome) (fileName : string)
    (fuel again : nat) (text newText : string) :
  EslintFix.fixLoop lintText fileName fuel text = Some (inl newText) ->
  EslintFix.run lintText fileName fuel text = Some (EslintFix.mkRunResult newText []) /\
  EslintFix.run lintText fileName (S again) newText
  = Some (EslintFix.mkRunResult newText []).
Proof.
  intros Hloop. unfold EslintFix.run. rewrite Hloop. split; [reflexivity|].
  rewrite (fixLoop_of_settled lintText fileName again newText); [reflexivity|].
  eapply fixLoop_settled, Hloop.
Qed.

Lemma X14_eslint_fix_idempotent_witness :
  EslintFix.run EslintFix.sampleLint "a.js" 5 "  x" = Some (EslintFix.mkRunResult "x" []) /\
  EslintFix.run EslintFix.sampleLint "a.js" 1 "x" = Some (EslintFix.mkRunResult "x" []).
Proof.
  apply (X14_eslint_fix_idempotent EslintFix.sampleLint "a.js" 5 0 "  x" "x").
  reflexivity.
Defined.

(** More rounds do not change the result of a loop that has ended. *)
Lemma fixLoop_more
    (lintText : string -> string -> EslintFix.LintOutcome) (fileName : string)
    (fuel : nat) : forall text result,
  EslintFix.fixLoop lintText fileName fuel text = Some result ->
  EslintFix.fixLoop lintText fileName (S fuel) text = Some result.
Proof.
  induction fuel as [|fuel IH]; intros text result; [discriminate|].
  remember (S fuel) as n eqn:Hn. cbn [EslintFix.fixLoop]. rewrite Hn at 1.
  cbn [EslintFix.fixLoop].
  destruct (lintText text fileName) as [results|e]; [|auto].
  destruct (results !! 0%nat) as [report|]; [|auto].
  destruct (EslintFix.output report) as [out|]; [|auto].
  destruct (negb (truthy out) || String.eqb out text); [auto|].
  subst n. apply IH.
Qed.

(** X15: the loop of the [eslint-fix] plugin has no bound of its own: with
    a linter that turns a text [a] into a different text [b] and [b] back
    into [a], neither of them empty, the loop does not end, however many
    rounds it is given. *)
Theorem X15_eslint_fix_can_loop_forever
    (lintText : string -> string -> EslintFix.LintOutcome) (fileName : string)
    (a b : string) (others others' : list EslintFix.LintResult) (fuel : nat) :
  lintText a fileName = EslintFix.Results (EslintFix.mkLintResult (Some b) :: others) ->
  lintText b fileName = EslintFix.Results (EslintFix.mkLintResult (Some a) :: others') ->
  a <> b -> a <> "" -> b <> "" ->
  EslintFix.run lintText fileName fuel a = None.
Proof.
  intros Ha Hb Hab Hane Hbne.
  assert (Hboth : EslintFix.fixLoop lintText fileName fuel a = None /\
                  EslintFix.fixLoop lintText fileName fuel b = None).
  { induction fuel as [|fuel [IHa IHb]]; [split; reflexivity|].
    assert (Hcontinue : forall x y : string, x <> y -> x <> "" ->
              negb (truthy x) || String.eqb x y = false).
    { intros x y Hxy Hx. apply orb_false_iff. split.
      - unfold truthy. rewrite negb_involutive. apply String.eqb_neq, Hx.
      - apply String.eqb_neq, Hxy. }
    split; cbn [EslintFix.fixLoop].
    - rewrite Ha. cbn. rewrite Hcontinue by auto. exact IHb.
    - rewrite Hb. cbn. rewrite Hcontinue by auto. exact IHa. }
  unfold EslintFix.run. destruct Hboth as [-> _]. reflexivity.
Qed.

Lemma X15_eslint_fix_can_loop_forever_witness :
  EslintFix.run
    (fun text _ =>
       EslintFix.Results
         [EslintFix.mkLintResult (Some (if String.eqb text "a;" then "a" else "a;"))])
    "a.js" 1000 "a;"
  = None.
Proof.
  apply (X15_eslint_fix_can_loop_forever _ "a.js" "a;" "a" [] [] 1000);
    [reflexivity | reflexivity | discriminate | discriminate | discriminate].
Defined.

(** ** What counts as a shape validator *)

Lemma matchHere_lits (w rest : string) : matchHere (lits w) (w +:+ rest) = true.
Proof.
  induction w as [|c w IH]; [destruct rest; reflexivity|].
  change (String c w +:+ rest) with (String c (w +:+ rest)).
  cbn [lits matchHere]. rewrite Ascii.eqb_refl, IH. reflexivity.
Qed.

Lemma search_app (p : list atom) (before s : string) :
  matchHere p s = true -> search p (before +:+ s) = true.
Proof.
  intros Hs. induction before as [|c before IH].
  - change ("" +:+ s) with s. destruct s; cbn [search]; rewrite Hs; reflexivity.
  - change (String c before +:+ s) with (String c (before +:+ s)).
    cbn [search]. rewrite IH. apply orb_true_r.
Qed.

Lemma matchHere_app (p q : list atom) (a b : string) :
  String.length a = List.length p ->
  matchHere p a = true -> matchHere q b = true ->
  matchHere (p ++ q)%list (a +:+ b) = true.
Proof.
  revert a. induction p as [|x p IH]; intros a Hlen Ha Hb.
  - destruct a; [exact Hb | discriminate].
  - destruct a as [|c a]; [discriminate|].
    change (String c a +:+ b) with (String c (a +:+ b)).
    cbn [app matchHere] in Ha |- *. injection Hlen as Hlen.
    destruct x; apply andb_true_iff in Ha as [Hc Ha];
      rewrite Hc, (IH a Hlen Ha Hb); reflexivity.
Qed.

Lemma matchHere_occurs (p : list atom) (c : ascii) : forall s,
  In (Lit c) p -> matchHere p s = true -> occurs c s = true.
Proof.
  induction p as [|x p IH]; intros s Hin Hs; [contradiction|].
  destruct s as [|d s]; [destruct x; discriminate Hs|].
  cbn [matchHere occurs] in Hs |- *.
  destruct Hin as [-> | Hin].
  - apply andb_true_iff in Hs as [Hc _]. rewrite Ascii.eqb_sym, Hc. reflexivity.
  - destruct x; apply andb_true_iff in Hs as [_ Hs];
      rewrite (IH s Hin Hs); apply orb_true_r.
Qed.

Lemma search_occurs (p : list atom) (c : ascii) (s : string) :
  In (Lit c) p -> search p s = true -> occurs c s = true.
Proof.
  intros Hin. induction s as [|d s IH]; cbn [search].
  - rewrite orb_false_r. apply matchHere_occurs, Hin.
  - intros H. apply orb_true_iff in H as [H|H].
    + apply (matchHere_occurs p c (String d s) Hin H).
    + cbn [occurs]. rewrite (IH H). apply orb_true_r.
Qed.

(** X16: a call is taken for a shape validator by the text of its callee
    alone, matched anywhere in it: a callee that holds [Shape], or [Types],
    any character other than a line terminator, and [shape], is recognised
    (so [reShapeData] and [MyTypes_shape] are); a callee without the letter
    [h] is not. *)
Theorem X16_shape_callee_recognition :
  (forall before after : string,
      isPropTypesShapeCallExpression (OtherExpression (before +:+ "Shape" +:+ after))
      = true) /\
  (forall (before after : string) (c : ascii),
      isLineTerminator c = false ->
      isPropTypesShapeCallExpression
        (OtherExpression (before +:+ "Types" +:+ String c ("shape" +:+ after)))
      = true) /\
  (forall callee : Expression,
      occurs "h"%char (getText callee) = false ->
      isPropTypesShapeCallExpression callee = false).
Proof.
  unfold isPropTypesShapeCallExpression, test, Regex.shapeCall. cbn [getText existsb].
  split; [|split].
  - intros before after.
    rewrite (search_app (lits "Shape") before ("Shape" +:+ after))
      by apply matchHere_lits.
    rewrite !orb_true_r. reflexivity.
  - intros before after c Hc.
    rewrite (search_app (lits "Types" ++ [Dot] ++ lits "shape")%list before
               ("Types" +:+ String c ("shape" +:+ after))).
    + rewrite !orb_true_r. reflexivity.
    + apply (matchHere_app (lits "Types") ([Dot] ++ lits "shape")%list "Types"
               (String c ("shape" +:+ after))); [reflexivity | reflexivity |].
      cbn [app matchHere]. rewrite Hc. cbn [negb andb].
      apply (matchHere_lits "shape" after).
  - intros callee Hh.
    assert (Hnone : forall p, In (Lit "h"%char) p -> search p (getText callee) = false).
    { intros p Hin. destruct (search p (getText callee)) eqn:Hsearch; [|reflexivity].
      rewrite (search_occurs p "h"%char _ Hin Hsearch) in Hh. discriminate. }
    rewrite !Hnone; [reflexivity | | |]; cbn; tauto.
Qed.

Lemma X16_shape_callee_recognition_witness :
  isPropTypesShapeCallExpression (OtherExpression ("re" +:+ "Shape" +:+ "Data")) = true /\
  isPropTypesShapeCallExpression
    (OtherExpression ("My" +:+ "Types" +:+ String "_"%char ("shape" +:+ ""))) = true /\
  isPropTypesShapeCallExpression (OtherExpression "PropTypes.object") = false.
Proof.
  destruct X16_shape_callee_recognition as (Hshape & Htypes & Hnone).
  split; [apply Hshape|]. split; [apply Htypes; reflexivity|].
  apply Hnone. reflexivity.
Defined.

(** ** What the run leaves alone *)

(** X17: a statement on which the loop does nothing (among them every
    variable statement whose first declarator already has a type), in a
    well-formed tree whose other statements lie before or after it, no
    default-exported shape before it: no update of the run touches the text
    of the statement, and the text [run] returns holds it with the trailing
    spaces of its lines removed. *)
Theorem X17_untouched_statement_kept
    (printNode : Factory.Node -> SourceFile -> string) (newLine : string)
    (getTypeFromPropTypesObjectLiteral :
       option Expression -> SourceFile -> PropTypesParams -> TypeNode)
    (fileName : string) (sourceFile : SourceFile) (options : ShapeOptions)
    (text : string) (before after : list Statement) (node : Statement)
    (out : string) :
  statements sourceFile = (before ++ node :: after)%list ->
  Forall (wellFormedStatement sourceFile) (statements sourceFile) ->
  Forall (besides (statementPos node) (statementEnd node)) (before ++ after)%list ->
  isPatternSite node = false ->
  endsWith (slice (statementPos node) (statementEnd node) text) " " = false ->
  run printNode newLine getTypeFromPropTypesObjectLiteral
      fileName sourceFile options text = Returned (Some out) ->
  (exists updates,
     collectUpdates printNode newLine getTypeFromPropTypesObjectLiteral
       fileName sourceFile options = Returned updates /\
     Forall (leavesSpan (statementPos node) (statementEnd node)) updates) /\
  (exists a b,
     out = a +:+ stripTrailingSpaces
                   (slice (statementPos node) (statementEnd node) text) +:+ b).
Proof.
  intros Hfile Hwf Hbesides Hquiet Hend Hrun.
  assert (Hrange : statementPos node <= statementEnd node).
  { rewrite Forall_forall in Hwf. destruct (Hwf node) as [Hrange _]; [|lia].
    rewrite Hfile. apply list_elem_of_In, in_elt. }
  apply (spared_span_kept printNode newLine getTypeFromPropTypesObjectLiteral
           fileName sourceFile options text before after node); auto; try lia.
  intros s s' Hs.
  rewrite (visitStatement_quiet printNode newLine getTypeFromPropTypesObjectLiteral
             fileName sourceFile options node s Hquiet) in Hs.
  injection Hs as <-. exists []. rewrite app_nil_r. auto.
Qed.

(** A variable statement whose first declarator has a type is such a
    statement. *)
Lemma typed_binding_is_no_site pos end_ modifiers first rest :
  is_Some (vd_type first) ->
  isPatternSite (VariableStatement pos end_ modifiers (first :: rest)) = false.
Proof.
  intros [type Htype]. cbn [isPatternSite]. rewrite Htype.
  destruct (vd_initializer first); reflexivity.
Qed.

(** On [const Old: OldShape = PropTypes.shape({});] followed by the shape
    [Foo], which gets its alias and its type. *)
Lemma X17_untouched_statement_kept_witness :
  (exists updates,
     collectUpdates Sample.printNode NL Sample.getType "/src/shapes.js"
       Sample.typedBindingFile Sample.options = Returned updates /\
     Forall (leavesSpan (statementPos Sample.typedBinding)
               (statementEnd Sample.typedBinding)) updates) /\
  (exists a b,
     Sample.importLine +:+ NL +:+ "const Old: OldShape = PropTypes.shape({});" +:+ NL +:+
     NL +:+ "type Foo = {};" +:+ NL +:+
     "const Foo: PropTypes.Requireable<Foo> | Validator<Foo> = PropTypes.shape({});"
     +:+ NL
     = a +:+ stripTrailingSpaces
               (slice (statementPos Sample.typedBinding)
                  (statementEnd Sample.typedBinding) Sample.typedBindingText) +:+ b).
Proof.
  apply (X17_untouched_statement_kept Sample.printNode NL Sample.getType
           "/src/shapes.js" Sample.typedBindingFile Sample.options
           Sample.typedBindingText [Sample.importStatement]
           [VariableStatement 78 111 []
              [mkVariableDeclaration 84 110 "Foo" None (Some Sample.shapeCall)]]
           Sample.typedBinding).
  - reflexivity.
  - apply Forall_cons. split; [split; [cbn; lia | exact I]|].
    apply Forall_cons. split.
    { split; [cbn; lia|]. cbn.
      split; [lia|]. split; [lia|]. split; [lia|]. discriminate. }
    apply Forall_cons. split; [|constructor].
    split; [cbn; lia|]. cbn.
    split; [lia|]. split; [lia|]. split; [lia|]. discriminate.
  - apply Forall_cons. split; [left; cbn; split; [lia | reflexivity]|].
    apply Forall_cons. split; [right; cbn; lia | constructor].
  - reflexivity.
  - vm_compute. reflexivity.
  - vm_compute. reflexivity.
Defined.
